(** * expyfun input controllers: keyboard and mouse monitors

    A shallow embedding of [expyfun/_input_controllers.py] (classes
    [Keyboard] and [Mouse]) and the properties of its timing correction,
    bounded waits and force-quit checks.

    Conventions of the embedding.
    - Clock readings and event times are Python floats in the source; here
      they are integers (a number of clock ticks, [Z]), so [+] and [-] are
      exact.  Durations handed to the waits may also be infinite or NaN
      ([pyfloat]), because the source tests them with [np.isinf] and with
      [not min_wait <= max_wait].
    - A method is a function [world -> outcome A * world]: it returns a
      value or raises, and it always hands back the state it reached, so
      that effects which happen before a [raise] stay visible.
    - The [while] loops of the waits take a fuel argument; [Diverge] is the
      outcome of a loop that has not finished within the fuel (and of a
      delay that never ends). *)

From Stdlib Require Import ZArith List String Ascii Lia Bool DecimalString QArith Sorted.
Import ListNotations.
Open Scope Z_scope.

(* ================================================================== *)
(** ** Python values used by the module *)

(** A float used as a duration: finite, [inf], [-inf] or [nan]. *)
Inductive pyfloat : Type :=
| Fin (z : Z)
| PInf
| NInf
| NaN.

(** [np.isinf]. *)
Definition isinf (x : pyfloat) : bool :=
  match x with
  | PInf | NInf => true
  | _ => false
  end.

(** [a <= b] on floats (false as soon as a NaN is involved). *)
Definition fle (a b : pyfloat) : bool :=
  match a, b with
  | NaN, _ | _, NaN => false
  | NInf, _ => true
  | _, PInf => true
  | Fin x, Fin y => x <=? y
  | _, _ => false
  end.

(** [a < b] on floats. *)
Definition flt (a b : pyfloat) : bool :=
  match a, b with
  | NaN, _ | _, NaN => false
  | PInf, _ => false
  | _, NInf => false
  | Fin x, Fin y => x <? y
  | _, _ => true
  end.

(** An element of [live_keys]: the source accepts ints next to strings and
    converts with [str]. *)
Inductive pyval : Type :=
| PStr (s : string)
| PInt (z : Z).

Definition py_str (v : pyval) : string :=
  match v with
  | PStr s => s
  | PInt z => NilZero.string_of_int (Z.to_int z)
  end.

(** [x in l] for strings. *)
Definition py_in (x : string) (l : list string) : bool :=
  existsb (String.eqb x) l.

(** [str.lower] on ASCII letters. *)
Definition lower_char (c : ascii) : ascii :=
  let n := nat_of_ascii c in
  if andb (Nat.leb 65 n) (Nat.leb n 90) then ascii_of_nat (n + 32) else c.

Fixpoint lower (s : string) : string :=
  match s with
  | EmptyString => EmptyString
  | String c r => String (lower_char c) (lower r)
  end.

Fixpoint char_in (c : ascii) (chars : string) : bool :=
  match chars with
  | EmptyString => false
  | String d r => if Ascii.eqb c d then true else char_in c r
  end.

(** [s.lstrip(chars)]: drop leading characters that occur in [chars]. *)
Fixpoint lstrip (chars s : string) : string :=
  match s with
  | EmptyString => EmptyString
  | String c r => if char_in c chars then lstrip chars r else s
  end.

(** Exceptions raised by the module, with their messages. *)
Inductive exn : Type :=
| ValueError (msg : string)
| RuntimeError (msg : string)
| TypeError (msg : string)
| IndexError (msg : string).

Definition msg_no_listen_presses : string :=
  "I cannot timestamp: relative_to is None and you have not yet called listen_presses.".
Definition msg_no_listen_clicks : string :=
  "I cannot timestamp: relative_to is None and you have not yet called listen_clicks.".
Definition msg_inf_no_keys : string :=
  "max_wait cannot be infinite if there are no live keys.".
Definition msg_inf_no_buttons : string :=
  "max_wait cannot be infinite if there are no live mouse buttons.".
Definition msg_min_max : string :=
  "min_wait must be less than max_wait".
Definition msg_quit : string := "Quit key pressed".
Definition msg_force_quit_type (ty : string) : string :=
  "Force quit checking requires a string or  list of strings, not a " ++ ty ++ ".".
Definition msg_index : string := "list index out of range".
Definition msg_sub_none : string :=
  "unsupported operand type(s) for -: 'float' and 'NoneType'".

(** The names the specification gives to the error conditions. *)
Definition StateError_presses : exn := ValueError msg_no_listen_presses.
Definition StateError_clicks : exn := ValueError msg_no_listen_clicks.
Definition ForceQuit : exn := RuntimeError msg_quit.

Definition is_ValueError (e : exn) : bool :=
  match e with
  | ValueError _ => true
  | _ => false
  end.

(* ================================================================== *)
(** ** Events, buffers and the state of the two monitors *)

(** [pyglet.window.mouse.LEFT], [MIDDLE], [RIGHT]. *)
Inductive mouse_button : Type := LEFT | MIDDLE | RIGHT.

(** The dictionary [_button_names]. *)
Definition _button_names (b : mouse_button) : string :=
  match b with
  | LEFT => "left"
  | MIDDLE => "middle"
  | RIGHT => "right"
  end.

(** What the window hands to the registered handlers.  For a key press,
    [symbol_string] is what [pyglet.window.key.symbol_string(symbol)]
    answers for the symbol. *)
Inductive hw_event : Type :=
| KeyPress (symbol : pyval) (symbol_string : string) (emulated : bool)
| MousePress (x y : Z) (button : mouse_button).

Definition key_event : Type := string * Z.
Definition click_event : Type := string * Z * Z * Z.

(** What a method does to the collaborators and to the buffers, recorded
    in the order it happens: the settle delay, a pump of the window, the
    reset of a buffer. *)
Inductive effect : Type :=
| Sleep (secs : pyfloat)
| Pump
| ClearKeyboard
| ClearMouse.

(** Constants of a run. *)
Record config : Type := mkConfig {
  poll_cost : Z;               (* ticks one [dispatch_events] call takes *)
  clock_skew : Z;              (* device clock minus master clock *)
  keypress_correction : Z;     (* [ec._get_time_correction('keypress')] *)
  mouseclick_correction : Z    (* [ec._get_time_correction('mouseclick')] *)
}.

(** The attributes of a [Keyboard] object. *)
Record keyboard : Type := mkKeyboard {
  force_quit_keys : list string;
  kb_listen_start : option Z;
  kb_time_correction : Z;
  _keyboard_buffer : list key_event
}.

(** The attributes of a [Mouse] object. *)
Record mouse : Type := mkMouse {
  ms_listen_start : option Z;
  ms_time_correction : Z;
  _mouse_buffer : list click_event
}.

(** The experiment: the clock, the events the window has not dispatched
    yet (with the time each one arrives), both monitors, which share the
    window, and the recorder's logs. *)
Record world : Type := mkWorld {
  cfg : config;
  now : Z;
  pending : list (Z * hw_event);
  kb : keyboard;
  ms : mouse;
  press_log : list (list key_event);
  click_log : list (list click_event);
  trace : list effect
}.

Definition set_now (t : Z) (w : world) : world :=
  mkWorld (cfg w) t (pending w) (kb w) (ms w) (press_log w) (click_log w) (trace w).
Definition set_pending (p : list (Z * hw_event)) (w : world) : world :=
  mkWorld (cfg w) (now w) p (kb w) (ms w) (press_log w) (click_log w) (trace w).
Definition set_kb (k : keyboard) (w : world) : world :=
  mkWorld (cfg w) (now w) (pending w) k (ms w) (press_log w) (click_log w) (trace w).
Definition set_ms (m : mouse) (w : world) : world :=
  mkWorld (cfg w) (now w) (pending w) (kb w) m (press_log w) (click_log w) (trace w).
Definition add_press_log (l : list key_event) (w : world) : world :=
  mkWorld (cfg w) (now w) (pending w) (kb w) (ms w) (press_log w ++ [l]) (click_log w) (trace w).
Definition add_click_log (l : list click_event) (w : world) : world :=
  mkWorld (cfg w) (now w) (pending w) (kb w) (ms w) (press_log w) (click_log w ++ [l]) (trace w).
Definition add_trace (e : effect) (w : world) : world :=
  mkWorld (cfg w) (now w) (pending w) (kb w) (ms w) (press_log w) (click_log w) (trace w ++ [e]).

Definition set_keyboard_buffer (b : list key_event) (k : keyboard) : keyboard :=
  mkKeyboard (force_quit_keys k) (kb_listen_start k) (kb_time_correction k) b.
Definition set_mouse_buffer (b : list click_event) (m : mouse) : mouse :=
  mkMouse (ms_listen_start m) (ms_time_correction m) b.

(* ================================================================== *)
(** ** Methods as state transformers that may raise *)

Inductive outcome (A : Type) : Type :=
| Ok (a : A)
| Raise (e : exn)
| Diverge.
Arguments Ok {A} a.
Arguments Raise {A} e.
Arguments Diverge {A}.

Definition M (A : Type) : Type := world -> outcome A * world.

Definition ret {A} (a : A) : M A := fun w => (Ok a, w).
Definition raise {A} (e : exn) : M A := fun w => (Raise e, w).
Definition bind {A B} (m : M A) (k : A -> M B) : M B :=
  fun w =>
    match m w with
    | (Ok a, w1) => k a w1
    | (Raise e, w1) => (Raise e, w1)
    | (Diverge, w1) => (Diverge, w1)
    end.
Definition gets {A} (f : world -> A) : M A := fun w => (Ok (f w), w).
Definition modify (f : world -> world) : M unit := fun w => (Ok tt, f w).

Notation "x <- m ;; k" := (bind m (fun x => k))
  (at level 61, m at next level, right associativity).
Notation "m ;;; k" := (bind m (fun _ => k))
  (at level 61, right associativity).

(* ================================================================== *)
(** ** Collaborators *)

(** Modelled from the spec: [ec._master_clock], the Clock Source
    ("monotonic time-in-seconds function"); reading it takes no time. *)
Definition master_clock : M Z := gets now.

(** Modelled from the spec: [_utils.clock], the device-local clock the
    handlers stamp events with; it runs [clock_skew] ahead of the master
    clock. *)
Definition clock : M Z := gets (fun w => now w + clock_skew (cfg w)).

(** Modelled from the spec: [ec._get_time_correction(kind)], "exact
    correction formula is the collaborator's responsibility". *)
Definition get_time_corr_keypress : M Z := gets (fun w => keypress_correction (cfg w)).
Definition get_time_corr_mouseclick : M Z := gets (fun w => mouseclick_correction (cfg w)).

(** Modelled from the spec: [ec._log_presses] and [ec._log_clicks], the
    Recorder ("fire-and-forget"). *)
Definition log_presses (l : list key_event) : M unit := modify (add_press_log l).
Definition log_clicks (l : list click_event) : M unit := modify (add_click_log l).

(** Modelled from the spec: [_utils.wait_secs], "block for at least
    [min_wait] seconds"; an infinite delay never returns, a negative or
    NaN one returns at once.  The model sleeps for exactly [max(0, secs)],
    the least the spec allows: what is proved about the length of a wait
    is a lower bound, or is counted from the start of polling. *)
Definition wait_secs (secs : pyfloat) : M unit :=
  fun w =>
    let w1 := add_trace (Sleep secs) w in
    match secs with
    | Fin d => (Ok tt, set_now (now w + Z.max 0 d) w1)
    | PInf => (Diverge, w1)
    | NInf | NaN => (Ok tt, w1)
    end.

(** The identifier [_on_pyglet_keypress] computes for a key:
    [str(symbol)] if emulated, else
    [symbol_string(symbol).lower().lstrip('_').lstrip('NUM_')]. *)
Definition key_name (symbol : pyval) (symbol_string : string)
    (emulated : bool) : string :=
  if emulated then py_str symbol
  else lstrip "NUM_" (lstrip "_" (lower symbol_string)).

(** [Keyboard._on_pyglet_keypress]. *)
Definition _on_pyglet_keypress (symbol : pyval) (symbol_string : string)
    (emulated : bool) : M unit :=
  key_time <- clock ;;
  let this_key := key_name symbol symbol_string emulated in
  modify (fun w =>
    set_kb (set_keyboard_buffer (_keyboard_buffer (kb w) ++ [(this_key, key_time)]) (kb w)) w).

(** [Mouse._on_pyglet_mouse_click]. *)
Definition _on_pyglet_mouse_click (x y : Z) (button : mouse_button) : M unit :=
  button_time <- clock ;;
  let this_button := _button_names button in
  modify (fun w =>
    set_ms (set_mouse_buffer (_mouse_buffer (ms w) ++ [(this_button, x, y, button_time)]) (ms w)) w).

Definition handle (e : hw_event) : M unit :=
  match e with
  | KeyPress symbol symbol_string emulated => _on_pyglet_keypress symbol symbol_string emulated
  | MousePress x y button => _on_pyglet_mouse_click x y button
  end.

Fixpoint handle_all (l : list hw_event) : M unit :=
  match l with
  | [] => ret tt
  | e :: r => handle e ;;; handle_all r
  end.

Definition due (t : Z) (p : Z * hw_event) : bool := fst p <=? t.

(** Modelled from the spec: [win.dispatch_events()], the Event Source's
    [pump()] ("drains pending hardware events, synchronously invoking
    registered callbacks").  The events that have arrived by now go to the
    handlers of both monitors, in the order of the queue; the call takes
    [poll_cost] ticks, which pass after the handlers have run, so that
    the handlers of one pump read the same clock value. *)
Definition dispatch_events : M unit :=
  t <- master_clock ;;
  ready <- gets (fun w => filter (due t) (pending w)) ;;
  modify (fun w => set_pending (filter (fun p => negb (due t p)) (pending w)) w) ;;;
  handle_all (map snd ready) ;;;
  modify (add_trace Pump) ;;;
  modify (fun w => set_now (now w + poll_cost (cfg w)) w).

(* ================================================================== *)
(** ** The polling loops *)

Definition is_empty {A} (l : list A) : bool :=
  match l with
  | [] => true
  | _ => false
  end.

(** [while (not len(pressed) and master_clock() - start_time < max_wait):
        pressed = retrieve()] *)
Fixpoint while_first {A} (fuel : nat) (retrieve : M (list A))
    (start_time : Z) (max_wait : pyfloat) (pressed : list A) : M (list A) :=
  match fuel with
  | O => fun w => (Diverge, w)
  | S fuel' =>
      if negb (is_empty pressed) then ret pressed
      else
        t <- master_clock ;;
        if flt (Fin (t - start_time)) max_wait then
          pressed' <- retrieve ;;
          while_first fuel' retrieve start_time max_wait pressed'
        else ret pressed
  end.

(** [while (master_clock() - start_time < max_wait):
        pressed = retrieve()] *)
Fixpoint while_all {A} (fuel : nat) (retrieve : M (list A))
    (start_time : Z) (max_wait : pyfloat) (pressed : list A) : M (list A) :=
  match fuel with
  | O => fun w => (Diverge, w)
  | S fuel' =>
      t <- master_clock ;;
      if flt (Fin (t - start_time)) max_wait then
        pressed' <- retrieve ;;
        while_all fuel' retrieve start_time max_wait pressed'
      else ret pressed
  end.

(** The argument of [check_force_quit]: [None], a string, a list, or a
    value of another type (named by [ty]). *)
Inductive fq_keys : Type :=
| KeysNone
| KeysStr (s : string)
| KeysList (l : list string)
| KeysOther (ty : string).

(** An element of the list a keyboard retrieval returns: a bare key, or a
    [(key, time)] pair. *)
Inductive press_out : Type :=
| Bare (k : string)
| Stamped (k : string) (t : Z).

(** An element of the list a mouse retrieval returns: [(button, x, y)] or
    [(button, x, y, time)]. *)
Inductive click_out : Type :=
| BareClick (b : string) (x y : Z)
| StampedClick (b : string) (x y : Z) (t : Z).

(** What [wait_one_press] / [wait_one_click] return: one event,
    [(None, None)] or [None]. *)
Inductive one_out (A : Type) : Type :=
| One (a : A)
| NonePair
| PyNone.
Arguments One {A} a.
Arguments NonePair {A}.
Arguments PyNone {A}.

(* ================================================================== *)
(** ** class Keyboard *)

Module Keyboard.

Definition _clear_keyboard_events : M unit :=
  dispatch_events ;;;
  modify (fun w => set_kb (set_keyboard_buffer [] (kb w)) w) ;;;
  modify (add_trace ClearKeyboard).

Definition _clear_events : M unit := _clear_keyboard_events.

(** The test [live_keys is None or key[0] in live_keys]. *)
Definition key_is_live (live_keys : option (list string)) (key : key_event) : bool :=
  match live_keys with
  | None => true
  | Some l => py_in (fst key) l
  end.

Definition _retrieve_keyboard_events (live_keys : option (list pyval))
    : M (list key_event) :=
  fq <- gets (fun w => force_quit_keys (kb w)) ;;
  let live_keys :=
    match live_keys with
    | Some l => Some (map py_str l ++ fq)
    | None => None
    end in
  dispatch_events ;;;
  buffer <- gets (fun w => _keyboard_buffer (kb w)) ;;
  ret (filter (key_is_live live_keys) buffer).

Definition _retrieve_events (live_keys : option (list pyval)) : M (list key_event) :=
  _retrieve_keyboard_events live_keys.

Definition _get_timebase : M Z := clock.

Definition listen_presses : M unit :=
  c <- get_time_corr_keypress ;;
  t <- master_clock ;;
  modify (fun w =>
    set_kb (mkKeyboard (force_quit_keys (kb w)) (Some t) c (_keyboard_buffer (kb w))) w) ;;;
  _clear_events.

Definition check_force_quit (keys : fq_keys) : M unit :=
  n <- match keys with
       | KeysNone =>
           l <- _retrieve_keyboard_events (Some []) ;;
           ret (List.length l)
       | KeysStr s =>
           fq <- gets (fun w => force_quit_keys (kb w)) ;;
           ret (List.length (filter (fun k => py_in k fq) [s]))
       | KeysList l =>
           fq <- gets (fun w => force_quit_keys (kb w)) ;;
           ret (List.length (filter (fun k => py_in k fq) l))
       | KeysOther ty => raise (TypeError (msg_force_quit_type ty))
       end ;;
  match n with
  | O => ret tt
  | S _ => raise ForceQuit
  end.

Definition _correct_presses (pressed : list key_event) (timestamp : bool)
    (relative_to : option Z) : M (list press_out) :=
  match pressed with
  | [] => ret []
  | _ :: _ =>
      c <- gets (fun w => kb_time_correction (kb w)) ;;
      let pressed := map (fun '(k, s) => (k, s + c)) pressed in
      log_presses pressed ;;;
      let keys := map fst pressed in
      check_force_quit (KeysList keys) ;;;
      if timestamp then
        match relative_to with
        | Some r => ret (map (fun '(k, s) => Stamped k (s - r)) pressed)
        | None => raise (TypeError msg_sub_none)
        end
      else ret (map Bare keys)
  end.

Definition _init_wait_press (max_wait min_wait : pyfloat)
    (live_keys : option (list pyval)) (timestamp : bool)
    (relative_to : option Z) : M (option Z * Z) :=
  if andb (isinf max_wait)
          (match live_keys with Some [] => true | _ => false end)
  then raise (ValueError msg_inf_no_keys)
  else if negb (fle min_wait max_wait)
  then raise (ValueError msg_min_max)
  else
    start_time <- master_clock ;;
    let relative_to :=
      match timestamp, relative_to with
      | true, None => Some start_time
      | _, _ => relative_to
      end in
    wait_secs min_wait ;;;
    check_force_quit KeysNone ;;;
    _clear_events ;;;
    ret (relative_to, start_time).

Definition get_presses (live_keys : option (list pyval)) (timestamp : bool)
    (relative_to : option Z) : M (list press_out) :=
  listen_start <- gets (fun w => kb_listen_start (kb w)) ;;
  relative_to <-
    match timestamp, relative_to with
    | true, None =>
        match listen_start with
        | None => raise StateError_presses
        | Some t => ret (Some t)
        end
    | _, _ => ret relative_to
    end ;;
  pressed <- _retrieve_events live_keys ;;
  _correct_presses pressed timestamp relative_to.

Definition wait_one_press (fuel : nat) (max_wait min_wait : pyfloat)
    (live_keys : option (list pyval)) (timestamp : bool)
    (relative_to : option Z) : M (one_out press_out) :=
  rs <- _init_wait_press max_wait min_wait live_keys timestamp relative_to ;;
  let '(relative_to, start_time) := rs in
  pressed <- while_first fuel (_retrieve_events live_keys) start_time max_wait [] ;;
  match pressed with
  | _ :: _ =>
      l <- _correct_presses pressed timestamp relative_to ;;
      match l with
      | p :: _ => ret (One p)
      | [] => raise (IndexError msg_index)
      end
  | [] => if timestamp then ret NonePair else ret PyNone
  end.

Definition wait_for_presses (fuel : nat) (max_wait min_wait : pyfloat)
    (live_keys : option (list pyval)) (timestamp : bool)
    (relative_to : option Z) : M (list press_out) :=
  rs <- _init_wait_press max_wait min_wait live_keys timestamp relative_to ;;
  let '(relative_to, start_time) := rs in
  pressed <- while_all fuel (_retrieve_events live_keys) start_time max_wait [] ;;
  _correct_presses pressed timestamp relative_to.

End Keyboard.

(** Modelled from the spec: [ec.check_force_quit], which the mouse keeps as
    [_check_force_quit] ("force-quit checking for pointer waits is
    delegated back to the Keyboard Monitor's [check_force_quit]"); it is
    called without argument. *)
Definition ec_check_force_quit : M unit := Keyboard.check_force_quit KeysNone.

(* ================================================================== *)
(** ** class Mouse *)

Module Mouse.

Definition _check_force_quit : M unit := ec_check_force_quit.

Definition _clear_mouse_events : M unit :=
  dispatch_events ;;;
  modify (fun w => set_ms (set_mouse_buffer [] (ms w)) w) ;;;
  modify (add_trace ClearMouse).

Definition _clear_events : M unit := _clear_mouse_events.

(** The test [live_buttons is None or button[0] in live_buttons]. *)
Definition button_is_live (live_buttons : option (list string))
    (button : click_event) : bool :=
  match live_buttons with
  | None => true
  | Some l => let '(b, _, _, _) := button in py_in b l
  end.

Definition _retrieve_mouse_events (live_buttons : option (list string))
    : M (list click_event) :=
  dispatch_events ;;;
  buffer <- gets (fun w => _mouse_buffer (ms w)) ;;
  ret (filter (button_is_live live_buttons) buffer).

Definition _retrieve_events (live_buttons : option (list string))
    : M (list click_event) :=
  _retrieve_mouse_events live_buttons.

Definition _get_timebase : M Z := clock.

Definition listen_clicks : M unit :=
  c <- get_time_corr_mouseclick ;;
  t <- master_clock ;;
  modify (fun w => set_ms (mkMouse (Some t) c (_mouse_buffer (ms w))) w) ;;;
  _clear_events.

Definition _correct_clicks (clicked : list click_event) (timestamp : bool)
    (relative_to : option Z) : M (list click_out) :=
  match clicked with
  | [] => ret []
  | _ :: _ =>
      c <- gets (fun w => ms_time_correction (ms w)) ;;
      let clicked := map (fun '(b, x, y, s) => (b, x, y, s + c)) clicked in
      log_clicks clicked ;;;
      _check_force_quit ;;;
      if timestamp then
        match relative_to with
        | Some r => ret (map (fun '(b, x, y, s) => StampedClick b x y (s - r)) clicked)
        | None => raise (TypeError msg_sub_none)
        end
      else ret (map (fun '(b, x, y, _) => BareClick b x y) clicked)
  end.

Definition _init_wait_click (max_wait min_wait : pyfloat)
    (live_buttons : option (list string)) (timestamp : bool)
    (relative_to : option Z) : M (option Z * Z) :=
  if andb (isinf max_wait)
          (match live_buttons with Some [] => true | _ => false end)
  then raise (ValueError msg_inf_no_buttons)
  else if negb (fle min_wait max_wait)
  then raise (ValueError msg_min_max)
  else
    start_time <- master_clock ;;
    let relative_to :=
      match timestamp, relative_to with
      | true, None => Some start_time
      | _, _ => relative_to
      end in
    wait_secs min_wait ;;;
    _check_force_quit ;;;
    _clear_events ;;;
    ret (relative_to, start_time).

Definition get_clicks (live_buttons : option (list string)) (timestamp : bool)
    (relative_to : option Z) : M (list click_out) :=
  listen_start <- gets (fun w => ms_listen_start (ms w)) ;;
  relative_to <-
    match timestamp, relative_to with
    | true, None =>
        match listen_start with
        | None => raise StateError_clicks
        | Some t => ret (Some t)
        end
    | _, _ => ret relative_to
    end ;;
  clicked <- _retrieve_events live_buttons ;;
  _correct_clicks clicked timestamp relative_to.

Definition wait_one_click (fuel : nat) (max_wait min_wait : pyfloat)
    (live_buttons : option (list string)) (timestamp : bool)
    (relative_to : option Z) : M (one_out click_out) :=
  rs <- _init_wait_click max_wait min_wait live_buttons timestamp relative_to ;;
  let '(relative_to, start_time) := rs in
  clicked <- while_first fuel (_retrieve_events live_buttons) start_time max_wait [] ;;
  match clicked with
  | _ :: _ =>
      l <- _correct_clicks clicked timestamp relative_to ;;
      match l with
      | p :: _ => ret (One p)
      | [] => raise (IndexError msg_index)
      end
  | [] => if timestamp then ret NonePair else ret PyNone
  end.

Definition wait_for_clicks (fuel : nat) (max_wait min_wait : pyfloat)
    (live_buttons : option (list string)) (timestamp : bool)
    (relative_to : option Z) : M (list click_out) :=
  rs <- _init_wait_click max_wait min_wait live_buttons timestamp relative_to ;;
  let '(relative_to, start_time) := rs in
  clicked <- while_all fuel (_retrieve_events live_buttons) start_time max_wait [] ;;
  _correct_clicks clicked timestamp relative_to.

End Mouse.

(* ================================================================== *)
(** ** Sample runs *)

Definition cfg0 : config := mkConfig 1 0 0 0.

(** A fresh experiment at time [t] with force-quit key [escape], nothing
    buffered, and the given events still to arrive. *)
Definition fresh (c : config) (t : Z) (p : list (Z * hw_event)) : world :=
  mkWorld c t p (mkKeyboard ["escape"%string] None (keypress_correction c) [])
          (mkMouse None (mouseclick_correction c) []) [] [] [].

Definition press (k : string) : hw_event := KeyPress (PStr k) k true.


(* ================================================================== *)
(** ** What one pump of the window does *)

(** The key events a batch of window events puts in the keyboard buffer
    when it is dispatched at device time [t]. *)
Fixpoint stamp_keys (t : Z) (l : list hw_event) : list key_event :=
  match l with
  | [] => []
  | KeyPress symbol symbol_string emulated :: r =>
      (key_name symbol symbol_string emulated, t) :: stamp_keys t r
  | MousePress _ _ _ :: r => stamp_keys t r
  end.

Fixpoint stamp_clicks (t : Z) (l : list hw_event) : list click_event :=
  match l with
  | [] => []
  | KeyPress _ _ _ :: r => stamp_clicks t r
  | MousePress x y button :: r => (_button_names button, x, y, t) :: stamp_clicks t r
  end.

(** The window events that have arrived by now and are not dispatched yet. *)
Definition arrived (w : world) : list hw_event :=
  map snd (filter (due (now w)) (pending w)).

(** The state one [dispatch_events] call leads to. *)
Definition pumped (w : world) : world :=
  let t := now w + clock_skew (cfg w) in
  mkWorld (cfg w) (now w + poll_cost (cfg w))
    (filter (fun p => negb (due (now w) p)) (pending w))
    (set_keyboard_buffer (_keyboard_buffer (kb w) ++ stamp_keys t (arrived w)) (kb w))
    (set_mouse_buffer (_mouse_buffer (ms w) ++ stamp_clicks t (arrived w)) (ms w))
    (press_log w) (click_log w) (trace w ++ [Pump]).

(** Whether the keyboard buffer holds a force-quit key. *)
Definition fq_pressed (w : world) : bool :=
  existsb (fun key : key_event => py_in (fst key) (force_quit_keys (kb w)))
          (_keyboard_buffer (kb w)).

(** The state right after the settle delay. *)
Definition slept (secs : pyfloat) (w : world) : world :=
  let w1 := add_trace (Sleep secs) w in
  match secs with
  | Fin d => set_now (now w + Z.max 0 d) w1
  | _ => w1
  end.

(** The state right after the pump of the force-quit check that follows
    the settle delay. *)
Definition settled (secs : pyfloat) (w : world) : world := pumped (slept secs w).

Definition clear_keyboard (w : world) : world :=
  add_trace ClearKeyboard (set_kb (set_keyboard_buffer [] (kb w)) w).
Definition clear_mouse (w : world) : world :=
  add_trace ClearMouse (set_ms (set_mouse_buffer [] (ms w)) w).

(** The filter [_retrieve_keyboard_events] matches against: a filter that
    is not [None] is converted with [str] and extended with the force-quit
    keys. *)
Definition augmented (fq : list string) (live_keys : option (list pyval))
    : option (list string) :=
  match live_keys with
  | Some l => Some (map py_str l ++ fq)
  | None => None
  end.

(** The keys of the buffer a keyboard retrieval with filter [live_keys]
    returns. *)
Definition live_presses (live_keys : option (list pyval)) (w : world) : list key_event :=
  filter (Keyboard.key_is_live (augmented (force_quit_keys (kb w)) live_keys))
         (_keyboard_buffer (kb w)).

Definition live_clicks (live_buttons : option (list string)) (w : world) : list click_event :=
  filter (Mouse.button_is_live live_buttons) (_mouse_buffer (ms w)).

(** Time correction of a list of raw events. *)
Definition corrected_presses (c : Z) (l : list key_event) : list key_event :=
  map (fun '(k, s) => (k, s + c)) l.
Definition corrected_clicks (c : Z) (l : list click_event) : list click_event :=
  map (fun '(b, x, y, s) => (b, x, y, s + c)) l.

(** What the caller gets for a raw key event [(k, t0)]: the pair
    [(k, t0 + c - r)] if timestamps are requested, else [k]. *)
Definition reported_press (c : Z) (timestamp : bool) (r : Z) (e : key_event) : press_out :=
  let '(k, t0) := e in
  if timestamp then Stamped k (t0 + c - r) else Bare k.

Definition reported_click (c : Z) (timestamp : bool) (r : Z) (e : click_event) : click_out :=
  let '(b, x, y, t0) := e in
  if timestamp then StampedClick b x y (t0 + c - r) else BareClick b x y.

(** Whether one of the keys of [l] is a force-quit key. *)
Definition has_quit_key (fq : list string) (l : list string) : bool :=
  existsb (fun k => py_in k fq) l.

(** [relative_to] as the waits default it: the start of the wait. *)
Definition origin (relative_to : option Z) (start_time : Z) : Z :=
  match relative_to with
  | Some r => r
  | None => start_time
  end.

(** [live == []]: the filter is an explicitly empty list. *)
Definition no_live {A} (live : option (list A)) : bool :=
  match live with
  | Some [] => true
  | _ => false
  end.

(** The arguments pass both tests of [_init_wait_press] /
    [_init_wait_click]. *)
Definition valid_wait {A} (max_wait min_wait : pyfloat) (live : option (list A)) : bool :=
  andb (negb (andb (isinf max_wait) (no_live live))) (fle min_wait max_wait).

(** [relative_to] after the defaulting step of the waits. *)
Definition default_rel (timestamp : bool) (relative_to : option Z) (start_time : Z)
    : option Z :=
  match timestamp, relative_to with
  | true, None => Some start_time
  | _, _ => relative_to
  end.

(** The state after [n] more pumps. *)
Definition polled (n : nat) (w : world) : world := Nat.iter n pumped w.

(** A fresh experiment in which [listen_clicks] has been called at time 0
    and [listen_presses] right after it (at time 1, one pump later). *)
Definition listening : world :=
  snd (Keyboard.listen_presses (snd (Mouse.listen_clicks (fresh cfg0 0 [])))).

(** The state in which the polling of a keyboard wait starts: settle delay
    over, force-quit check passed, buffer cleared. *)
Definition press_polling_start (min_wait : pyfloat) (w : world) : world :=
  clear_keyboard (pumped (settled min_wait w)).

Definition click_polling_start (min_wait : pyfloat) (w : world) : world :=
  clear_mouse (pumped (settled min_wait w)).

(** [(None, None)] if a timestamp was requested, else [None]. *)
Definition nothing {A} (timestamp : bool) : one_out A :=
  if timestamp then NonePair else PyNone.

(** The case in which a snapshot raises the no-session error: a timestamp
    is requested, [relative_to] is [None] and [listen_start] is [None]. *)
Definition needs_session (timestamp : bool) (relative_to listen_start : option Z) : bool :=
  match timestamp, relative_to, listen_start with
  | true, None, None => true
  | _, _, _ => false
  end.

(* ------------------------------------------------------------------ *)
(** *** The rest of the module: button tables, mouse position, ordering *)

(** The dictionary [_button_ids] of [Mouse.__init__]; a name that is not a
    key ([KeyError] in Python) gives [None]. *)
Definition _button_ids (name : string) : option mouse_button :=
  if String.eqb name "left" then Some LEFT
  else if String.eqb name "middle" then Some MIDDLE
  else if String.eqb name "right" then Some RIGHT
  else None.

(** What [Mouse.pos] reads from the window: the raw mouse coordinates and
    the window extents, all integers. *)
Record window : Type := mkWindow {
  _mouse_x : Z;
  _mouse_y : Z;
  width : Z;
  height : Z
}.

(** One coordinate of [Mouse.pos]: [(raw - extent / 2.) / (extent / 2.)].
    The float arithmetic of the source is taken as exact rational
    arithmetic; a zero extent is Python's [ZeroDivisionError], here
    [None]. *)
Definition normalized (raw extent : Z) : option Q :=
  let half := (inject_Z extent / inject_Z 2)%Q in
  if Qeq_bool half 0 then None
  else Some ((inject_Z raw - half) / half)%Q.

(** The property [Mouse.pos]: [np.array([x, y])]. *)
Definition Mouse_pos (win : window) : option (Q * Q) :=
  match normalized (_mouse_x win) (width win) with
  | None => None
  | Some x =>
      match normalized (_mouse_y win) (height win) with
      | None => None
      | Some y => Some (x, y)
      end
  end.

(** The times of a list of keyboard events, resp. of clicks. *)
Definition press_times (l : list key_event) : list Z := map snd l.
Definition click_times (l : list click_event) : list Z := map snd l.

(** The time a retrieval reports for an event, if it reports one. *)
Definition press_time (p : press_out) : option Z :=
  match p with
  | Stamped _ t => Some t
  | Bare _ => None
  end.

Definition click_time (p : click_out) : option Z :=
  match p with
  | StampedClick _ _ _ t => Some t
  | BareClick _ _ _ => None
  end.

(** Both buffers of [w'] extend those of [w]: nothing was removed and
    nothing reordered. *)
Definition buffers_extend (w w' : world) : Prop :=
  (exists l, _keyboard_buffer (kb w') = _keyboard_buffer (kb w) ++ l) /\
  (exists l, _mouse_buffer (ms w') = _mouse_buffer (ms w) ++ l).

(* ------------------------------------------------------------------ *)
(** *** Window events and the buffer entries they become *)

(** What [_on_pyglet_keypress] buffers for a window event when the device
    clock reads [t]; a mouse press does not reach the keyboard handler. *)
Definition key_of_event (t : Z) (e : hw_event) : option key_event :=
  match e with
  | KeyPress symbol symbol_string emulated =>
      Some (key_name symbol symbol_string emulated, t)
  | MousePress _ _ _ => None
  end.

(** What [_on_pyglet_mouse_click] buffers for a window event. *)
Definition click_of_event (t : Z) (e : hw_event) : option click_event :=
  match e with
  | KeyPress _ _ _ => None
  | MousePress x y button => Some (_button_names button, x, y, t)
  end.

(** Modelled from the spec: the Event Source hands its "pending hardware
    events" to the callbacks as a queue; [arrival_ordered] says that the
    queue holds them in the order of their arrival.  It is a hypothesis
    wherever it is used. *)
Definition arrival_ordered (l : list (Z * hw_event)) : Prop :=
  StronglySorted (fun p q => fst p <= fst q) l.

(** No mouse press is among the events still to arrive. *)
Definition no_click_pending (w : world) : Prop :=
  forall p t, In p (pending w) -> click_of_event t (snd p) = None.

Ltac monad_unfold :=
  unfold bind, ret, raise, gets, modify, master_clock, clock,
    get_time_corr_keypress, get_time_corr_mouseclick, log_presses, log_clicks in *.

Lemma handle_all_eq :
  forall l c t p fq ls tc kbuf mls mtc mbuf pl cl tr,
    handle_all l (mkWorld c t p (mkKeyboard fq ls tc kbuf) (mkMouse mls mtc mbuf) pl cl tr)
    = (Ok tt,
       mkWorld c t p
         (mkKeyboard fq ls tc (kbuf ++ stamp_keys (t + clock_skew c) l))
         (mkMouse mls mtc (mbuf ++ stamp_clicks (t + clock_skew c) l)) pl cl tr).
Proof.
  induction l as [|e r IH]; intros; simpl.
  - unfold ret. now rewrite !app_nil_r.
  - destruct e; simpl; unfold _on_pyglet_keypress, _on_pyglet_mouse_click;
      monad_unfold; simpl; unfold set_kb, set_ms, set_keyboard_buffer, set_mouse_buffer;
      simpl; rewrite IH; rewrite <- app_assoc; reflexivity.
Qed.

Lemma dispatch_events_eq : forall w, dispatch_events w = (Ok tt, pumped w).
Proof.
  intros [c t p [fq ls tc kbuf] [mls mtc mbuf] pl cl tr].
  unfold dispatch_events, pumped, arrived. monad_unfold. simpl.
  unfold set_pending. simpl. rewrite handle_all_eq. reflexivity.
Qed.

Lemma wait_secs_eq :
  forall secs w, secs <> PInf -> wait_secs secs w = (Ok tt, slept secs w).
Proof.
  intros secs w H. unfold wait_secs, slept. destruct secs; try reflexivity.
  now elim H.
Qed.

Lemma pumped_cfg : forall w, cfg (pumped w) = cfg w.
Proof. reflexivity. Qed.
Lemma pumped_now : forall w, now (pumped w) = now w + poll_cost (cfg w).
Proof. reflexivity. Qed.
Lemma pumped_fq : forall w, force_quit_keys (kb (pumped w)) = force_quit_keys (kb w).
Proof. reflexivity. Qed.
Lemma pumped_trace : forall w, trace (pumped w) = trace w ++ [Pump].
Proof. reflexivity. Qed.
Lemma pumped_kbuf :
  forall w, _keyboard_buffer (kb (pumped w))
            = _keyboard_buffer (kb w)
              ++ stamp_keys (now w + clock_skew (cfg w)) (arrived w).
Proof. reflexivity. Qed.
Lemma pumped_mbuf :
  forall w, _mouse_buffer (ms (pumped w))
            = _mouse_buffer (ms w)
              ++ stamp_clicks (now w + clock_skew (cfg w)) (arrived w).
Proof. reflexivity. Qed.

(* ================================================================== *)
(** ** Equations of the keyboard methods *)

Lemma filter_nil_existsb :
  forall {A} (f : A -> bool) (l : list A),
    existsb f l = negb (is_empty (filter f l)).
Proof.
  induction l as [|a r IH]; simpl; [reflexivity|].
  destruct (f a); simpl; [reflexivity | exact IH].
Qed.

Lemma length_filter_case :
  forall {A B} (f : A -> bool) (l : list A) (x y : B),
    match List.length (filter f l) with O => x | S _ => y end
    = if existsb f l then y else x.
Proof.
  intros. rewrite filter_nil_existsb. destruct (filter f l); reflexivity.
Qed.

Lemma existsb_map :
  forall {A B} (g : A -> B) (f : B -> bool) (l : list A),
    existsb f (map g l) = existsb (fun a => f (g a)) l.
Proof.
  induction l as [|a r IH]; simpl; [reflexivity|]. now rewrite IH.
Qed.

Lemma retrieve_keyboard_eq :
  forall live_keys w,
    Keyboard._retrieve_keyboard_events live_keys w
    = (Ok (live_presses live_keys (pumped w)), pumped w).
Proof.
  intros. unfold Keyboard._retrieve_keyboard_events, live_presses.
  monad_unfold. rewrite dispatch_events_eq. rewrite pumped_fq.
  destruct live_keys; reflexivity.
Qed.

Lemma clear_keyboard_eq :
  forall w, Keyboard._clear_keyboard_events w = (Ok tt, clear_keyboard (pumped w)).
Proof.
  intros. unfold Keyboard._clear_keyboard_events. monad_unfold.
  rewrite dispatch_events_eq. reflexivity.
Qed.

Lemma check_force_quit_none_eq :
  forall w,
    Keyboard.check_force_quit KeysNone w
    = (if fq_pressed (pumped w) then Raise ForceQuit else Ok tt, pumped w).
Proof.
  intros. unfold Keyboard.check_force_quit.
  unfold bind at 1. unfold bind at 1. rewrite retrieve_keyboard_eq.
  unfold ret at 1. unfold live_presses, augmented. simpl map. simpl app.
  rewrite length_filter_case. unfold fq_pressed.
  simpl Keyboard.key_is_live.
  destruct (existsb _ _); reflexivity.
Qed.

Lemma check_force_quit_list_eq :
  forall l w,
    Keyboard.check_force_quit (KeysList l) w
    = (if has_quit_key (force_quit_keys (kb w)) l then Raise ForceQuit else Ok tt, w).
Proof.
  intros. unfold Keyboard.check_force_quit. monad_unfold.
  rewrite length_filter_case. unfold has_quit_key.
  destruct (existsb _ _); reflexivity.
Qed.

Lemma check_force_quit_str_eq :
  forall s w,
    Keyboard.check_force_quit (KeysStr s) w
    = Keyboard.check_force_quit (KeysList [s]) w.
Proof. reflexivity. Qed.

Lemma map_fst_corrected :
  forall c l, map fst (corrected_presses c l) = map fst l.
Proof.
  intros. unfold corrected_presses. rewrite map_map.
  apply map_ext. now intros [k s].
Qed.

Lemma correct_presses_eq :
  forall pressed timestamp r w,
    Keyboard._correct_presses pressed timestamp (Some r) w
    = match pressed with
      | [] => (Ok [], w)
      | _ :: _ =>
          let c := kb_time_correction (kb w) in
          (if has_quit_key (force_quit_keys (kb w)) (map fst pressed)
           then Raise ForceQuit
           else Ok (map (reported_press c timestamp r) pressed),
           add_press_log (corrected_presses c pressed) w)
      end.
Proof.
  intros. destruct pressed as [|e rest]; [reflexivity|].
  unfold Keyboard._correct_presses.
  set (l := e :: rest). 
  unfold bind at 1. unfold gets at 1. unfold bind at 1.
  unfold log_presses, modify. unfold bind at 1.
  rewrite check_force_quit_list_eq.
  change (map (fun '(k, s) => (k, s + kb_time_correction (kb w))) l)
    with (corrected_presses (kb_time_correction (kb w)) l).
  rewrite map_fst_corrected. simpl force_quit_keys.
  destruct (has_quit_key _ _); [reflexivity|].
  destruct timestamp; unfold ret; f_equal; f_equal.
  - unfold corrected_presses. rewrite map_map. apply map_ext. now intros [k s].
  - rewrite map_map. apply map_ext. now intros [k s].
Qed.

Lemma init_wait_press_invalid :
  forall max_wait min_wait live_keys timestamp relative_to w,
    valid_wait max_wait min_wait live_keys = false ->
    Keyboard._init_wait_press max_wait min_wait live_keys timestamp relative_to w
    = (Raise (ValueError (if andb (isinf max_wait) (no_live live_keys)
                          then msg_inf_no_keys else msg_min_max)), w).
Proof.
  intros until w. unfold valid_wait, Keyboard._init_wait_press, no_live.
  destruct (andb (isinf max_wait) _); simpl; [reflexivity|].
  intros ->. reflexivity.
Qed.

Lemma init_wait_press_eq :
  forall max_wait min_wait live_keys timestamp relative_to w,
    valid_wait max_wait min_wait live_keys = true ->
    min_wait <> PInf ->
    Keyboard._init_wait_press max_wait min_wait live_keys timestamp relative_to w
    = if fq_pressed (settled min_wait w)
      then (Raise ForceQuit, settled min_wait w)
      else (Ok (default_rel timestamp relative_to (now w), now w),
            clear_keyboard (pumped (settled min_wait w))).
Proof.
  intros until w. unfold valid_wait, Keyboard._init_wait_press, no_live.
  destruct (andb (isinf max_wait) _); simpl; [discriminate|].
  intros -> Hmin. simpl.
  unfold bind at 1. unfold master_clock, gets.
  unfold bind at 1. rewrite (wait_secs_eq _ _ Hmin).
  unfold bind at 1. rewrite check_force_quit_none_eq. fold (settled min_wait w).
  destruct (fq_pressed (settled min_wait w)); [reflexivity|].
  unfold bind at 1. unfold Keyboard._clear_events. rewrite clear_keyboard_eq.
  unfold ret, default_rel. reflexivity.
Qed.

(* ================================================================== *)
(** ** Equations of the mouse methods *)

Lemma retrieve_mouse_eq :
  forall live_buttons w,
    Mouse._retrieve_mouse_events live_buttons w
    = (Ok (live_clicks live_buttons (pumped w)), pumped w).
Proof.
  intros. unfold Mouse._retrieve_mouse_events, live_clicks.
  monad_unfold. rewrite dispatch_events_eq. reflexivity.
Qed.

Lemma clear_mouse_eq :
  forall w, Mouse._clear_mouse_events w = (Ok tt, clear_mouse (pumped w)).
Proof.
  intros. unfold Mouse._clear_mouse_events. monad_unfold.
  rewrite dispatch_events_eq. reflexivity.
Qed.

Lemma mouse_check_force_quit_eq :
  forall w,
    Mouse._check_force_quit w
    = (if fq_pressed (pumped w) then Raise ForceQuit else Ok tt, pumped w).
Proof. intros. apply check_force_quit_none_eq. Qed.

Lemma correct_clicks_eq :
  forall clicked timestamp r w,
    Mouse._correct_clicks clicked timestamp (Some r) w
    = match clicked with
      | [] => (Ok [], w)
      | _ :: _ =>
          let c := ms_time_correction (ms w) in
          let w1 := pumped (add_click_log (corrected_clicks c clicked) w) in
          (if fq_pressed w1 then Raise ForceQuit
           else Ok (map (reported_click c timestamp r) clicked), w1)
      end.
Proof.
  intros. destruct clicked as [|e rest]; [reflexivity|].
  unfold Mouse._correct_clicks.
  set (l := e :: rest).
  unfold bind at 1. unfold gets at 1. unfold bind at 1.
  unfold log_clicks, modify. unfold bind at 1.
  rewrite mouse_check_force_quit_eq.
  change (map (fun '(b, x, y, s) => (b, x, y, s + ms_time_correction (ms w))) l)
    with (corrected_clicks (ms_time_correction (ms w)) l).
  cbv zeta.
  destruct (fq_pressed _); [reflexivity|].
  destruct timestamp; unfold ret; f_equal; f_equal;
    unfold corrected_clicks; rewrite map_map; apply map_ext;
    now intros [[[b x] y] s].
Qed.

Lemma init_wait_click_invalid :
  forall max_wait min_wait live_buttons timestamp relative_to w,
    valid_wait max_wait min_wait live_buttons = false ->
    Mouse._init_wait_click max_wait min_wait live_buttons timestamp relative_to w
    = (Raise (ValueError (if andb (isinf max_wait) (no_live live_buttons)
                          then msg_inf_no_buttons else msg_min_max)), w).
Proof.
  intros until w. unfold valid_wait, Mouse._init_wait_click, no_live.
  destruct (andb (isinf max_wait) _); simpl; [reflexivity|].
  intros ->. reflexivity.
Qed.

Lemma init_wait_click_eq :
  forall max_wait min_wait live_buttons timestamp relative_to w,
    valid_wait max_wait min_wait live_buttons = true ->
    min_wait <> PInf ->
    Mouse._init_wait_click max_wait min_wait live_buttons timestamp relative_to w
    = if fq_pressed (settled min_wait w)
      then (Raise ForceQuit, settled min_wait w)
      else (Ok (default_rel timestamp relative_to (now w), now w),
            clear_mouse (pumped (settled min_wait w))).
Proof.
  intros until w. unfold valid_wait, Mouse._init_wait_click, no_live.
  destruct (andb (isinf max_wait) _); simpl; [discriminate|].
  intros -> Hmin. simpl.
  unfold bind at 1. unfold master_clock, gets.
  unfold bind at 1. rewrite (wait_secs_eq _ _ Hmin).
  unfold bind at 1. rewrite mouse_check_force_quit_eq. fold (settled min_wait w).
  destruct (fq_pressed (settled min_wait w)); [reflexivity|].
  unfold bind at 1. unfold Mouse._clear_events. rewrite clear_mouse_eq.
  unfold ret, default_rel. reflexivity.
Qed.

(* ================================================================== *)
(** ** The polling loops, for any retrieval that pumps the window once and
       then reads its buffer *)

Lemma polled_succ_r : forall n w, polled n (pumped w) = polled (S n) w.
Proof. intros. unfold polled. now rewrite Nat.iter_succ_r. Qed.

Lemma polled_cfg : forall n w, cfg (polled n w) = cfg w.
Proof.
  induction n as [|n IH]; intros; [reflexivity|].
  change (polled (S n) w) with (pumped (polled n w)).
  rewrite pumped_cfg. apply IH.
Qed.

Lemma polled_now :
  forall n w, now (polled n w) = now w + Z.of_nat n * poll_cost (cfg w).
Proof.
  induction n as [|n IH]; intros.
  - unfold polled. simpl. lia.
  - change (polled (S n) w) with (pumped (polled n w)).
    rewrite pumped_now, polled_cfg, IH. lia.
Qed.

Section Polling.

Context {A : Type}.
Variable retrieve : M (list A).
Variable view : world -> list A.
Hypothesis retrieve_eq :
  forall w, retrieve w = (Ok (view (pumped w)), pumped w).

Lemma while_all_step :
  forall fuel start_time max_wait pressed w,
    while_all (S fuel) retrieve start_time max_wait pressed w
    = if flt (Fin (now w - start_time)) max_wait
      then while_all fuel retrieve start_time max_wait (view (pumped w)) (pumped w)
      else (Ok pressed, w).
Proof.
  intros. cbn [while_all]. unfold bind, master_clock, gets.
  destruct (flt (Fin (now w - start_time)) max_wait); [|reflexivity].
  now rewrite retrieve_eq.
Qed.

Lemma while_first_step :
  forall fuel start_time max_wait pressed w,
    while_first (S fuel) retrieve start_time max_wait pressed w
    = if negb (is_empty pressed) then (Ok pressed, w)
      else if flt (Fin (now w - start_time)) max_wait
      then while_first fuel retrieve start_time max_wait (view (pumped w)) (pumped w)
      else (Ok pressed, w).
Proof.
  intros. cbn [while_first]. destruct (negb (is_empty pressed)); [reflexivity|].
  unfold bind, master_clock, gets.
  destruct (flt (Fin (now w - start_time)) max_wait); [|reflexivity].
  now rewrite retrieve_eq.
Qed.

Lemma while_all_run :
  forall fuel start_time max_wait w,
    fst (while_all fuel retrieve start_time max_wait (view w) w) = Diverge \/
    exists n,
      while_all fuel retrieve start_time max_wait (view w) w
      = (Ok (view (polled n w)), polled n w) /\
      flt (Fin (now (polled n w) - start_time)) max_wait = false /\
      forall m, (m < n)%nat ->
                flt (Fin (now (polled m w) - start_time)) max_wait = true.
Proof.
  induction fuel as [|fuel IH]; intros; [now left|].
  rewrite while_all_step.
  destruct (flt (Fin (now w - start_time)) max_wait) eqn:Ht.
  - destruct (IH start_time max_wait (pumped w)) as [Hd | (n & Hn & Hend & Hbefore)].
    + now left.
    + right. exists (S n). rewrite Hn, <- !polled_succ_r.
      repeat split; [exact Hend|].
      intros [|m] Hm; [exact Ht|].
      rewrite <- polled_succ_r. apply Hbefore. lia.
  - right. exists O. repeat split; [exact Ht|]. intros m Hm. lia.
Qed.

Lemma while_all_terminates :
  forall fuel start_time mx pressed w,
    0 < poll_cost (cfg w) ->
    (Z.to_nat (start_time + mx - now w) < fuel)%nat ->
    fst (while_all fuel retrieve start_time (Fin mx) pressed w) <> Diverge.
Proof.
  induction fuel as [|fuel IH]; intros start_time mx pressed w Hc Hf; [lia|].
  rewrite while_all_step. cbn [flt].
  destruct (now w - start_time <? mx) eqn:Ht.
  - apply Z.ltb_lt in Ht.
    apply IH; [now rewrite pumped_cfg | rewrite pumped_now; lia].
  - discriminate.
Qed.

Lemma while_first_run :
  forall fuel start_time max_wait w,
    fst (while_first fuel retrieve start_time max_wait (view w) w) = Diverge \/
    exists n,
      while_first fuel retrieve start_time max_wait (view w) w
      = (Ok (view (polled n w)), polled n w) /\
      (view (polled n w) <> [] \/
       flt (Fin (now (polled n w) - start_time)) max_wait = false) /\
      forall m, (m < n)%nat ->
                view (polled m w) = [] /\
                flt (Fin (now (polled m w) - start_time)) max_wait = true.
Proof.
  induction fuel as [|fuel IH]; intros; [now left|].
  rewrite while_first_step.
  destruct (view w) as [|a l] eqn:Hv; cbn [is_empty negb].
  - destruct (flt (Fin (now w - start_time)) max_wait) eqn:Ht.
    + destruct (IH start_time max_wait (pumped w)) as [Hd | (n & Hn & Hend & Hbefore)].
      * now left.
      * right. exists (S n). rewrite Hn, <- !polled_succ_r.
        split; [reflexivity|]. split; [exact Hend|].
        intros [|m] Hm; [now split|].
        rewrite <- polled_succ_r. apply Hbefore. lia.
    + right. exists O. change (polled 0 w) with w. rewrite Hv.
      split; [reflexivity|]. split; [now right|]. intros m Hm. lia.
  - right. exists O. change (polled 0 w) with w. rewrite Hv.
    split; [reflexivity|]. split; [left; discriminate|]. intros m Hm. lia.
Qed.

Lemma while_first_terminates :
  forall fuel start_time mx pressed w,
    0 < poll_cost (cfg w) ->
    (Z.to_nat (start_time + mx - now w) < fuel)%nat ->
    fst (while_first fuel retrieve start_time (Fin mx) pressed w) <> Diverge.
Proof.
  induction fuel as [|fuel IH]; intros start_time mx pressed w Hc Hf; [lia|].
  rewrite while_first_step. cbn [flt].
  destruct (negb (is_empty pressed)); [discriminate|].
  destruct (now w - start_time <? mx) eqn:Ht.
  - apply Z.ltb_lt in Ht.
    apply IH; [now rewrite pumped_cfg | rewrite pumped_now; lia].
  - discriminate.
Qed.

End Polling.

(* ================================================================== *)
(** ** Snapshots: [get_presses] and [get_clicks] *)

Lemma correct_presses_untimed :
  forall pressed relative_to w,
    Keyboard._correct_presses pressed false relative_to w
    = Keyboard._correct_presses pressed false (Some 0) w.
Proof. intros. destruct pressed; reflexivity. Qed.

Lemma correct_clicks_untimed :
  forall clicked relative_to w,
    Mouse._correct_clicks clicked false relative_to w
    = Mouse._correct_clicks clicked false (Some 0) w.
Proof. intros. destruct clicked; reflexivity. Qed.

Lemma get_presses_eq :
  forall live_keys timestamp relative_to w,
    Keyboard.get_presses live_keys timestamp relative_to w
    = match timestamp, relative_to, kb_listen_start (kb w) with
      | true, None, None => (Raise StateError_presses, w)
      | true, None, Some t =>
          Keyboard._correct_presses (live_presses live_keys (pumped w)) true (Some t) (pumped w)
      | _, _, _ =>
          Keyboard._correct_presses (live_presses live_keys (pumped w))
            timestamp relative_to (pumped w)
      end.
Proof.
  intros. unfold Keyboard.get_presses, Keyboard._retrieve_events.
  unfold bind, ret, raise, gets.
  destruct timestamp, relative_to as [r|], (kb_listen_start (kb w)) as [t|];
    try reflexivity; rewrite retrieve_keyboard_eq; reflexivity.
Qed.

Lemma get_clicks_eq :
  forall live_buttons timestamp relative_to w,
    Mouse.get_clicks live_buttons timestamp relative_to w
    = match timestamp, relative_to, ms_listen_start (ms w) with
      | true, None, None => (Raise StateError_clicks, w)
      | true, None, Some t =>
          Mouse._correct_clicks (live_clicks live_buttons (pumped w)) true (Some t) (pumped w)
      | _, _, _ =>
          Mouse._correct_clicks (live_clicks live_buttons (pumped w))
            timestamp relative_to (pumped w)
      end.
Proof.
  intros. unfold Mouse.get_clicks, Mouse._retrieve_events.
  unfold bind, ret, raise, gets.
  destruct timestamp, relative_to as [r|], (ms_listen_start (ms w)) as [t|];
    try reflexivity; rewrite retrieve_mouse_eq; reflexivity.
Qed.

(* ================================================================== *)
(** ** Time correction *)

(** C1.  Every retrieved event with device-local time [t0] is logged with
    the corrected time [t0 + c], where [c] is the session's time
    correction, whether or not the force-quit check then raises; what the
    caller gets, unless that check raises, is [(k, t0 + c - r)] when a
    timestamp is requested relative to [r], and the bare key (or the
    [(button, x, y)] triple) when it is not.  For the keyboard
    ([_correct_presses]) and for the mouse ([_correct_clicks]). *)
Theorem time_correction_round_trip :
  forall (w : world) (timestamp : bool) (r : Z),
    (forall (e : key_event) (rest : list key_event),
        let pressed := e :: rest in
        let c := kb_time_correction (kb w) in
        let '(out, w') := Keyboard._correct_presses pressed timestamp (Some r) w in
        press_log w' = press_log w ++ [map (fun '(k, t0) => (k, t0 + c)) pressed] /\
        out = (if has_quit_key (force_quit_keys (kb w)) (map fst pressed)
               then Raise ForceQuit
               else Ok (map (fun '(k, t0) =>
                               if timestamp then Stamped k (t0 + c - r) else Bare k)
                            pressed))) /\
    (forall (e : click_event) (rest : list click_event),
        let clicked := e :: rest in
        let c := ms_time_correction (ms w) in
        let '(out, w') := Mouse._correct_clicks clicked timestamp (Some r) w in
        click_log w' = click_log w ++ [map (fun '(b, x, y, t0) => (b, x, y, t0 + c)) clicked] /\
        out = (if fq_pressed w'
               then Raise ForceQuit
               else Ok (map (fun '(b, x, y, t0) =>
                               if timestamp then StampedClick b x y (t0 + c - r)
                               else BareClick b x y)
                            clicked))).
Proof.
  intros w timestamp r. split; intros e rest; cbv zeta.
  - rewrite correct_presses_eq. cbv zeta. split; reflexivity.
  - rewrite correct_clicks_eq. cbv zeta. split; reflexivity.
Qed.

(** A press of [a] stamped 40 by a device whose correction is 100 is logged
    at 140 and reported at 140 - 15 = 125. *)
Example time_correction_sample :
  let w := mkWorld cfg0 50 [] (mkKeyboard ["escape"%string] (Some 15) 100 [("a"%string, 40)])
                   (mkMouse None 0 []) [] [] [] in
  fst (Keyboard.get_presses None true None w) = Ok [Stamped "a" 125] /\
  press_log (snd (Keyboard.get_presses None true None w)) = [[("a"%string, 140)]] /\
  fst (Keyboard.get_presses None false None w) = Ok [Bare "a"].
Proof. repeat split. Qed.

(* ================================================================== *)
(** ** The origin of timestamps in snapshots *)

(** C5.  [get_presses] and [get_clicks] with a timestamp requested and
    [relative_to] unset: when no listen session has started the
    no-session error is raised and nothing has been retrieved (the state
    is untouched); otherwise the call is the same as with [relative_to]
    set to [listen_start]. *)
Theorem snapshot_default_origin :
  forall (w : world) (live_keys : option (list pyval))
         (live_buttons : option (list string)),
    (kb_listen_start (kb w) = None ->
     Keyboard.get_presses live_keys true None w = (Raise StateError_presses, w)) /\
    (forall t, kb_listen_start (kb w) = Some t ->
     Keyboard.get_presses live_keys true None w
     = Keyboard.get_presses live_keys true (Some t) w) /\
    (ms_listen_start (ms w) = None ->
     Mouse.get_clicks live_buttons true None w = (Raise StateError_clicks, w)) /\
    (forall t, ms_listen_start (ms w) = Some t ->
     Mouse.get_clicks live_buttons true None w
     = Mouse.get_clicks live_buttons true (Some t) w).
Proof.
  intros. repeat split; intros; rewrite ?get_presses_eq, ?get_clicks_eq;
    rewrite H; reflexivity.
Qed.

(** C10.  Without a timestamp, [get_presses] and [get_clicks] do not look
    at [listen_start] or at [relative_to]: whatever these are, the events
    of the buffer that pass the filter (all of them for the filter [None])
    come back as bare keys, resp. [(button, x, y)] triples, and the only
    error possible is the force-quit one. *)
Theorem snapshot_without_timestamp :
  forall (w : world) (relative_to : option Z),
    (forall live_keys,
        let pressed := live_presses live_keys (pumped w) in
        Keyboard.get_presses live_keys false relative_to w
        = (if has_quit_key (force_quit_keys (kb w)) (map fst pressed)
           then Raise ForceQuit
           else Ok (map (fun e => Bare (fst e)) pressed),
           if is_empty pressed then pumped w
           else add_press_log (corrected_presses (kb_time_correction (kb w)) pressed)
                              (pumped w))) /\
    live_presses None (pumped w) = _keyboard_buffer (kb (pumped w)) /\
    (forall live_buttons,
        let clicked := live_clicks live_buttons (pumped w) in
        let w' := pumped (add_click_log
                            (corrected_clicks (ms_time_correction (ms w)) clicked)
                            (pumped w)) in
        Mouse.get_clicks live_buttons false relative_to w
        = if is_empty clicked then (Ok [], pumped w)
          else (if fq_pressed w' then Raise ForceQuit
                else Ok (map (fun '(b, x, y, _) => BareClick b x y) clicked), w')) /\
    live_clicks None (pumped w) = _mouse_buffer (ms (pumped w)).
Proof.
  intros w relative_to. repeat split.
  - intros live_keys pressed. rewrite get_presses_eq.
    assert (E : Keyboard._correct_presses pressed false relative_to (pumped w)
                = Keyboard._correct_presses pressed false (Some 0) (pumped w))
      by apply correct_presses_untimed.
    fold pressed. destruct relative_to, (kb_listen_start (kb w)); cbv iota;
      rewrite E, correct_presses_eq; destruct pressed as [|[k s] rest];
      try reflexivity; cbv zeta; f_equal;
      destruct (has_quit_key _ _); try reflexivity;
      f_equal; apply map_ext; now intros [k' s'].
  - unfold live_presses, augmented, Keyboard.key_is_live.
    induction (_keyboard_buffer (kb (pumped w))) as [|a l IH]; simpl; congruence.
  - intros live_buttons clicked w'. rewrite get_clicks_eq.
    assert (E : Mouse._correct_clicks clicked false relative_to (pumped w)
                = Mouse._correct_clicks clicked false (Some 0) (pumped w))
      by apply correct_clicks_untimed.
    fold clicked. destruct relative_to, (ms_listen_start (ms w)); cbv iota;
      rewrite E, correct_clicks_eq; destruct clicked as [|[[[b x] y] s] rest];
      try reflexivity; cbv zeta; fold w'; cbn [is_empty];
      destruct (fq_pressed w'); try reflexivity;
      f_equal; f_equal; apply map_ext; now intros [[[b' x'] y'] s'].
  - unfold live_clicks, Mouse.button_is_live.
    induction (_mouse_buffer (ms (pumped w))) as [|a l IH]; simpl; congruence.
Qed.

Lemma snapshot_default_origin_witness :
  Keyboard.get_presses None true None (fresh cfg0 0 [])
  = (Raise StateError_presses, fresh cfg0 0 []) /\
  Keyboard.get_presses None true None listening
  = Keyboard.get_presses None true (Some 1) listening /\
  Mouse.get_clicks None true None (fresh cfg0 0 [])
  = (Raise StateError_clicks, fresh cfg0 0 []) /\
  Mouse.get_clicks None true None listening
  = Mouse.get_clicks None true (Some 0) listening.
Proof.
  destruct (snapshot_default_origin (fresh cfg0 0 []) None None) as [H1 [_ [H3 _]]].
  destruct (snapshot_default_origin listening None None) as [_ [H2 [_ H4]]].
  split; [apply H1; reflexivity|].
  split; [apply (H2 1); reflexivity|].
  split; [apply H3; reflexivity | apply (H4 0); reflexivity].
Defined.

(* ================================================================== *)
(** ** [check_force_quit] *)

(** C6.  [check_force_quit] without argument retrieves, after a pump, only
    the buffered events whose key is in the force-quit set; a string is
    treated as the one-element list; a list is reduced to its members that
    are in the force-quit set.  If what remains is not empty [ForceQuit]
    is raised; if it is empty the call returns, and for a string or a list
    it has then changed nothing.  An argument of another type raises a
    [TypeError]. *)
Theorem check_force_quit_cases :
  forall (w : world),
    let fq := force_quit_keys (kb w) in
    let buffered :=
      filter (fun key : key_event => py_in (fst key) fq)
             (_keyboard_buffer (kb (pumped w))) in
    Keyboard._retrieve_keyboard_events (Some []) w = (Ok buffered, pumped w) /\
    Keyboard.check_force_quit KeysNone w
    = (if is_empty buffered then Ok tt else Raise ForceQuit, pumped w) /\
    (forall s, Keyboard.check_force_quit (KeysStr s) w
               = Keyboard.check_force_quit (KeysList [s]) w) /\
    (forall l, Keyboard.check_force_quit (KeysList l) w
               = (if is_empty (filter (fun k => py_in k fq) l)
                  then Ok tt else Raise ForceQuit, w)) /\
    (forall ty, Keyboard.check_force_quit (KeysOther ty) w
                = (Raise (TypeError (msg_force_quit_type ty)), w)).
Proof.
  intros w fq buffered. repeat split.
  - rewrite retrieve_keyboard_eq. reflexivity.
  - rewrite check_force_quit_none_eq. unfold fq_pressed.
    rewrite filter_nil_existsb.
    change (filter _ (_keyboard_buffer (kb (pumped w)))) with buffered.
    destruct (is_empty buffered); reflexivity.
  - intros l. rewrite check_force_quit_list_eq. unfold has_quit_key.
    rewrite filter_nil_existsb. fold fq.
    destruct (is_empty _); reflexivity.
Qed.

(** With [esc] the force-quit key: [check_force_quit('esc')] raises,
    [check_force_quit('x')] does nothing, [check_force_quit(3)] is a type
    error. *)
Example check_force_quit_sample :
  let w := mkWorld cfg0 7 [(3, press "esc")]
                   (mkKeyboard ["esc"%string] None 0 []) (mkMouse None 0 []) [] [] [] in
  Keyboard.check_force_quit (KeysStr "esc") w = (Raise ForceQuit, w) /\
  Keyboard.check_force_quit (KeysStr "x") w = (Ok tt, w) /\
  Keyboard.check_force_quit (KeysList ["x"; "esc"; "y"]%string) w = (Raise ForceQuit, w) /\
  fst (Keyboard.check_force_quit (KeysOther "<class 'int'>") w)
  = Raise (TypeError "Force quit checking requires a string or  list of strings, not a <class 'int'>.") /\
  fst (Keyboard.check_force_quit KeysNone w) = Raise ForceQuit.
Proof. repeat split. Qed.

(* ================================================================== *)
(** ** Filters *)

Lemma py_in_app :
  forall x l1 l2, py_in x (l1 ++ l2) = orb (py_in x l1) (py_in x l2).
Proof. intros. unfold py_in. apply existsb_app. Qed.

Lemma filter_filter_sub :
  forall {A} (f g : A -> bool) (l : list A),
    (forall x, f x = true -> g x = true) ->
    filter f (filter g l) = filter f l.
Proof.
  intros A f g l H. induction l as [|a r IH]; [reflexivity|].
  simpl. destruct (g a) eqn:Eg; simpl.
  - now rewrite IH.
  - destruct (f a) eqn:Ef; [|exact IH].
    apply H in Ef. congruence.
Qed.

Lemma filter_true :
  forall {A} (l : list A), filter (fun _ => true) l = l.
Proof. induction l; simpl; congruence. Qed.

(** C7.  A keyboard retrieval with a filter that is not [None] matches the
    buffered keys against the filter (converted with [str]) extended with
    the force-quit keys, so it returns every buffered force-quit key
    whatever the filter, the empty one included; with [None] it returns
    the whole buffer.  A mouse retrieval matches against the filter as it
    is given.  The force-quit check of the mouse is the keyboard's
    [check_force_quit] called without argument, and whether
    [_correct_clicks] raises does not depend on the clicks. *)
Theorem retrieval_filters :
  forall (w : world),
    let fq := force_quit_keys (kb w) in
    let is_quit := fun key : key_event => py_in (fst key) fq in
    (forall l,
        Keyboard._retrieve_keyboard_events (Some l) w
        = (Ok (filter (fun key : key_event => py_in (fst key) (map py_str l ++ fq))
                      (_keyboard_buffer (kb (pumped w)))),
           pumped w)) /\
    (forall live_keys,
        filter is_quit (live_presses live_keys (pumped w))
        = filter is_quit (_keyboard_buffer (kb (pumped w)))) /\
    Keyboard._retrieve_keyboard_events None w
    = (Ok (_keyboard_buffer (kb (pumped w))), pumped w) /\
    (forall l,
        Mouse._retrieve_mouse_events (Some l) w
        = (Ok (filter (fun '(b, _, _, _) => py_in b l) (_mouse_buffer (ms (pumped w)))),
           pumped w)) /\
    Mouse._retrieve_mouse_events None w
    = (Ok (_mouse_buffer (ms (pumped w))), pumped w) /\
    Mouse._check_force_quit w = Keyboard.check_force_quit KeysNone w /\
    (forall e rest timestamp r,
        fst (Mouse._correct_clicks (e :: rest) timestamp (Some r) w)
        = if fq_pressed (pumped w) then Raise ForceQuit
          else Ok (map (reported_click (ms_time_correction (ms w)) timestamp r)
                       (e :: rest))).
Proof.
  intros w fq is_quit. repeat split.
  - intros l. rewrite retrieve_keyboard_eq. reflexivity.
  - intros live_keys. unfold live_presses. apply filter_filter_sub.
    intros [k s]. unfold is_quit, Keyboard.key_is_live, augmented.
    destruct live_keys as [l|]; [|reflexivity].
    cbn [fst]. rewrite py_in_app. intros H. rewrite pumped_fq. fold fq.
    rewrite H. apply orb_true_r.
  - rewrite retrieve_keyboard_eq. unfold live_presses, augmented, Keyboard.key_is_live.
    now rewrite filter_true.
  - intros l. rewrite retrieve_mouse_eq. reflexivity.
  - rewrite retrieve_mouse_eq. unfold live_clicks, Mouse.button_is_live.
    now rewrite filter_true.
  - intros e rest timestamp r. rewrite correct_clicks_eq. reflexivity.
Qed.

(** The left arrow key as force-quit key: a click of the left button passes
    the mouse filter ["left"] and is no force-quit, while the key [left]
    passes the empty keyboard filter. *)
Example retrieval_filters_sample :
  let w := mkWorld cfg0 7 [(3, MousePress 1 2 LEFT); (4, press "left"); (5, press "a")]
                   (mkKeyboard ["left"%string] None 0 []) (mkMouse None 0 []) [] [] [] in
  fst (Mouse._retrieve_mouse_events (Some ["left"%string]) w) = Ok [("left"%string, 1, 2, 7)] /\
  fst (Mouse._retrieve_mouse_events (Some []) w) = Ok [] /\
  fst (Keyboard._retrieve_keyboard_events (Some []) w) = Ok [("left"%string, 7)] /\
  fst (Keyboard._retrieve_keyboard_events (Some [PStr "a"]) w)
  = Ok [("left"%string, 7); ("a"%string, 7)].
Proof. repeat split. Qed.

(* ================================================================== *)
(** ** The waits, end to end *)

Lemma correct_presses_default :
  forall pressed timestamp relative_to start_time w,
    Keyboard._correct_presses pressed timestamp
      (default_rel timestamp relative_to start_time) w
    = Keyboard._correct_presses pressed timestamp
        (Some (origin relative_to start_time)) w.
Proof.
  intros. destruct timestamp, relative_to as [r|], pressed; reflexivity.
Qed.

Lemma correct_clicks_default :
  forall clicked timestamp relative_to start_time w,
    Mouse._correct_clicks clicked timestamp
      (default_rel timestamp relative_to start_time) w
    = Mouse._correct_clicks clicked timestamp
        (Some (origin relative_to start_time)) w.
Proof.
  intros. destruct timestamp, relative_to as [r|], clicked; reflexivity.
Qed.

Lemma bind_diverge :
  forall {A B} (m : M A) (k : A -> M B) w,
    fst (m w) = Diverge -> fst (bind m k w) = Diverge.
Proof.
  intros A B m k w H. unfold bind. destruct (m w) as [[a|e|] w1]; simpl in H;
    try discriminate. reflexivity.
Qed.

Section WaitRuns.

Variables (max_wait min_wait : pyfloat) (timestamp : bool)
          (relative_to : option Z) (w : world).
Hypothesis min_finite : min_wait <> PInf.
Hypothesis no_quit_at_settle : fq_pressed (settled min_wait w) = false.

Lemma wait_for_presses_run :
  forall live_keys fuel,
    valid_wait max_wait min_wait live_keys = true ->
    let wc := press_polling_start min_wait w in
    fst (Keyboard.wait_for_presses fuel max_wait min_wait live_keys
           timestamp relative_to w) = Diverge \/
    exists n,
      Keyboard.wait_for_presses fuel max_wait min_wait live_keys
        timestamp relative_to w
      = Keyboard._correct_presses (live_presses live_keys (polled n wc)) timestamp
          (Some (origin relative_to (now w))) (polled n wc) /\
      flt (Fin (now (polled n wc) - now w)) max_wait = false /\
      forall m, (m < n)%nat ->
                flt (Fin (now (polled m wc) - now w)) max_wait = true.
Proof.
  intros live_keys fuel Hv wc.
  remember (Keyboard.wait_for_presses fuel max_wait min_wait live_keys
              timestamp relative_to w) as W eqn:HW.
  unfold Keyboard.wait_for_presses in HW. unfold bind at 1 in HW.
  rewrite (init_wait_press_eq _ _ _ _ _ _ Hv min_finite), no_quit_at_settle in HW.
  fold (press_polling_start min_wait w) in HW. fold wc in HW.
  destruct (while_all_run (Keyboard._retrieve_events live_keys)
              (live_presses live_keys) (retrieve_keyboard_eq live_keys)
              fuel (now w) max_wait wc) as [Hd | (n & Hn & Hend & Hbefore)];
    change (live_presses live_keys wc) with (@nil key_event) in *.
  - left. rewrite HW. now apply bind_diverge.
  - right. exists n. unfold bind in HW. rewrite Hn in HW.
    rewrite correct_presses_default in HW. auto.
Qed.

Lemma wait_one_press_run :
  forall live_keys fuel,
    valid_wait max_wait min_wait live_keys = true ->
    let wc := press_polling_start min_wait w in
    fst (Keyboard.wait_one_press fuel max_wait min_wait live_keys
           timestamp relative_to w) = Diverge \/
    exists n,
      Keyboard.wait_one_press fuel max_wait min_wait live_keys
        timestamp relative_to w
      = match live_presses live_keys (polled n wc) with
        | [] => (Ok (nothing timestamp), polled n wc)
        | e :: rest =>
            (if has_quit_key (force_quit_keys (kb (polled n wc))) (map fst (e :: rest))
             then Raise ForceQuit
             else Ok (One (reported_press (kb_time_correction (kb (polled n wc)))
                                          timestamp (origin relative_to (now w)) e)),
             add_press_log
               (corrected_presses (kb_time_correction (kb (polled n wc))) (e :: rest))
               (polled n wc))
        end /\
      (live_presses live_keys (polled n wc) <> [] \/
       flt (Fin (now (polled n wc) - now w)) max_wait = false) /\
      forall m, (m < n)%nat ->
                live_presses live_keys (polled m wc) = [] /\
                flt (Fin (now (polled m wc) - now w)) max_wait = true.
Proof.
  intros live_keys fuel Hv wc.
  remember (Keyboard.wait_one_press fuel max_wait min_wait live_keys
              timestamp relative_to w) as W eqn:HW.
  unfold Keyboard.wait_one_press in HW. unfold bind at 1 in HW.
  rewrite (init_wait_press_eq _ _ _ _ _ _ Hv min_finite), no_quit_at_settle in HW.
  fold (press_polling_start min_wait w) in HW. fold wc in HW.
  destruct (while_first_run (Keyboard._retrieve_events live_keys)
              (live_presses live_keys) (retrieve_keyboard_eq live_keys)
              fuel (now w) max_wait wc) as [Hd | (n & Hn & Hend & Hbefore)];
    change (live_presses live_keys wc) with (@nil key_event) in *.
  - left. rewrite HW. now apply bind_diverge.
  - right. exists n. unfold bind at 1 in HW. rewrite Hn in HW.
    split; [|auto]. rewrite HW.
    destruct (live_presses live_keys (polled n wc)) as [|e rest] eqn:Hp.
    + destruct timestamp; reflexivity.
    + unfold bind. rewrite correct_presses_default, correct_presses_eq. cbv zeta.
      destruct (has_quit_key _ _); reflexivity.
Qed.

Lemma wait_for_clicks_run :
  forall live_buttons fuel,
    valid_wait max_wait min_wait live_buttons = true ->
    let wc := click_polling_start min_wait w in
    fst (Mouse.wait_for_clicks fuel max_wait min_wait live_buttons
           timestamp relative_to w) = Diverge \/
    exists n,
      Mouse.wait_for_clicks fuel max_wait min_wait live_buttons
        timestamp relative_to w
      = Mouse._correct_clicks (live_clicks live_buttons (polled n wc)) timestamp
          (Some (origin relative_to (now w))) (polled n wc) /\
      flt (Fin (now (polled n wc) - now w)) max_wait = false /\
      forall m, (m < n)%nat ->
                flt (Fin (now (polled m wc) - now w)) max_wait = true.
Proof.
  intros live_buttons fuel Hv wc.
  remember (Mouse.wait_for_clicks fuel max_wait min_wait live_buttons
              timestamp relative_to w) as W eqn:HW.
  unfold Mouse.wait_for_clicks in HW. unfold bind at 1 in HW.
  rewrite (init_wait_click_eq _ _ _ _ _ _ Hv min_finite), no_quit_at_settle in HW.
  fold (click_polling_start min_wait w) in HW. fold wc in HW.
  destruct (while_all_run (Mouse._retrieve_events live_buttons)
              (live_clicks live_buttons) (retrieve_mouse_eq live_buttons)
              fuel (now w) max_wait wc) as [Hd | (n & Hn & Hend & Hbefore)];
    change (live_clicks live_buttons wc) with (@nil click_event) in *.
  - left. rewrite HW. now apply bind_diverge.
  - right. exists n. unfold bind in HW. rewrite Hn in HW.
    rewrite correct_clicks_default in HW. auto.
Qed.

Lemma wait_one_click_run :
  forall live_buttons fuel,
    valid_wait max_wait min_wait live_buttons = true ->
    let wc := click_polling_start min_wait w in
    fst (Mouse.wait_one_click fuel max_wait min_wait live_buttons
           timestamp relative_to w) = Diverge \/
    exists n,
      Mouse.wait_one_click fuel max_wait min_wait live_buttons
        timestamp relative_to w
      = match live_clicks live_buttons (polled n wc) with
        | [] => (Ok (nothing timestamp), polled n wc)
        | e :: rest =>
            let c := ms_time_correction (ms (polled n wc)) in
            let w' := pumped (add_click_log (corrected_clicks c (e :: rest))
                                            (polled n wc)) in
            (if fq_pressed w' then Raise ForceQuit
             else Ok (One (reported_click c timestamp (origin relative_to (now w)) e)),
             w')
        end /\
      (live_clicks live_buttons (polled n wc) <> [] \/
       flt (Fin (now (polled n wc) - now w)) max_wait = false) /\
      forall m, (m < n)%nat ->
                live_clicks live_buttons (polled m wc) = [] /\
                flt (Fin (now (polled m wc) - now w)) max_wait = true.
Proof.
  intros live_buttons fuel Hv wc.
  remember (Mouse.wait_one_click fuel max_wait min_wait live_buttons
              timestamp relative_to w) as W eqn:HW.
  unfold Mouse.wait_one_click in HW. unfold bind at 1 in HW.
  rewrite (init_wait_click_eq _ _ _ _ _ _ Hv min_finite), no_quit_at_settle in HW.
  fold (click_polling_start min_wait w) in HW. fold wc in HW.
  destruct (while_first_run (Mouse._retrieve_events live_buttons)
              (live_clicks live_buttons) (retrieve_mouse_eq live_buttons)
              fuel (now w) max_wait wc) as [Hd | (n & Hn & Hend & Hbefore)];
    change (live_clicks live_buttons wc) with (@nil click_event) in *.
  - left. rewrite HW. now apply bind_diverge.
  - right. exists n. unfold bind at 1 in HW. rewrite Hn in HW.
    split; [|auto]. rewrite HW.
    destruct (live_clicks live_buttons (polled n wc)) as [|e rest] eqn:Hp.
    + destruct timestamp; reflexivity.
    + unfold bind. rewrite correct_clicks_default, correct_clicks_eq. cbv zeta.
      destruct (fq_pressed (pumped _)); reflexivity.
Qed.

End WaitRuns.

(** A wait whose arguments are refused, or whose settle delay ends on a
    force-quit key, stops in [_init_wait_press] / [_init_wait_click]. *)
Lemma waits_stop_in_init :
  forall fuel max_wait min_wait timestamp relative_to w live_keys live_buttons e w',
    (Keyboard._init_wait_press max_wait min_wait live_keys timestamp relative_to w
     = (Raise e, w') ->
     Keyboard.wait_one_press fuel max_wait min_wait live_keys timestamp relative_to w
     = (Raise e, w') /\
     Keyboard.wait_for_presses fuel max_wait min_wait live_keys timestamp relative_to w
     = (Raise e, w')) /\
    (Mouse._init_wait_click max_wait min_wait live_buttons timestamp relative_to w
     = (Raise e, w') ->
     Mouse.wait_one_click fuel max_wait min_wait live_buttons timestamp relative_to w
     = (Raise e, w') /\
     Mouse.wait_for_clicks fuel max_wait min_wait live_buttons timestamp relative_to w
     = (Raise e, w')).
Proof.
  intros. split; intros H; split;
    unfold Keyboard.wait_one_press, Keyboard.wait_for_presses,
      Mouse.wait_one_click, Mouse.wait_for_clicks;
    unfold bind at 1; rewrite H; reflexivity.
Qed.

Lemma init_wait_press_quit :
  forall max_wait min_wait live_keys timestamp relative_to w,
    valid_wait max_wait min_wait live_keys = true ->
    min_wait <> PInf ->
    fq_pressed (settled min_wait w) = true ->
    Keyboard._init_wait_press max_wait min_wait live_keys timestamp relative_to w
    = (Raise ForceQuit, settled min_wait w).
Proof. intros. rewrite init_wait_press_eq by assumption. now rewrite H1. Qed.

Lemma init_wait_click_quit :
  forall max_wait min_wait live_buttons timestamp relative_to w,
    valid_wait max_wait min_wait live_buttons = true ->
    min_wait <> PInf ->
    fq_pressed (settled min_wait w) = true ->
    Mouse._init_wait_click max_wait min_wait live_buttons timestamp relative_to w
    = (Raise ForceQuit, settled min_wait w).
Proof. intros. rewrite init_wait_click_eq by assumption. now rewrite H1. Qed.

Lemma valid_wait_equal :
  forall {A} m (live : option (list A)), valid_wait (Fin m) (Fin m) live = true.
Proof. intros. unfold valid_wait. simpl. apply Z.leb_refl. Qed.

Lemma min_above_max_invalid :
  forall {A} max_wait min_wait (live : option (list A)),
    flt max_wait min_wait = true -> valid_wait max_wait min_wait live = false.
Proof.
  intros A max_wait min_wait live H. unfold valid_wait.
  assert (E : fle min_wait max_wait = false).
  { destruct max_wait, min_wait; simpl in *; try discriminate; try reflexivity.
    apply Z.ltb_lt in H. apply Z.leb_gt. exact H. }
  rewrite E. apply andb_false_r.
Qed.

Lemma correct_presses_no_value_error :
  forall pressed timestamp r w e,
    fst (Keyboard._correct_presses pressed timestamp (Some r) w) = Raise e ->
    e = ForceQuit.
Proof.
  intros pressed timestamp r w e. rewrite correct_presses_eq.
  destruct pressed; cbn [fst]; [discriminate|].
  destruct (has_quit_key _ _); congruence.
Qed.

Lemma correct_clicks_no_value_error :
  forall clicked timestamp r w e,
    fst (Mouse._correct_clicks clicked timestamp (Some r) w) = Raise e ->
    e = ForceQuit.
Proof.
  intros clicked timestamp r w e. rewrite correct_clicks_eq.
  destruct clicked; cbn [fst]; [discriminate|].
  destruct (fq_pressed _); congruence.
Qed.

(** A wait whose arguments are accepted raises nothing but [ForceQuit]. *)
Lemma accepted_waits_raise_only_force_quit :
  forall fuel max_wait min_wait timestamp relative_to w live_keys live_buttons e,
    min_wait <> PInf ->
    (valid_wait max_wait min_wait live_keys = true ->
     (fst (Keyboard.wait_one_press fuel max_wait min_wait live_keys
             timestamp relative_to w) = Raise e -> e = ForceQuit) /\
     (fst (Keyboard.wait_for_presses fuel max_wait min_wait live_keys
             timestamp relative_to w) = Raise e -> e = ForceQuit)) /\
    (valid_wait max_wait min_wait live_buttons = true ->
     (fst (Mouse.wait_one_click fuel max_wait min_wait live_buttons
             timestamp relative_to w) = Raise e -> e = ForceQuit) /\
     (fst (Mouse.wait_for_clicks fuel max_wait min_wait live_buttons
             timestamp relative_to w) = Raise e -> e = ForceQuit)).
Proof.
  intros fuel max_wait min_wait timestamp relative_to w live_keys live_buttons e Hmin.
  destruct (fq_pressed (settled min_wait w)) eqn:Hq.
  - split; intros Hv.
    + pose proof (init_wait_press_quit _ _ _ timestamp relative_to _ Hv Hmin Hq) as Hi.
      destruct (proj1 (waits_stop_in_init fuel _ _ _ _ _ live_keys live_buttons _ _) Hi)
        as [-> ->]. simpl. split; congruence.
    + pose proof (init_wait_click_quit _ _ _ timestamp relative_to _ Hv Hmin Hq) as Hi.
      destruct (proj2 (waits_stop_in_init fuel _ _ _ _ _ live_keys live_buttons _ _) Hi)
        as [-> ->]. simpl. split; congruence.
  - split; intros Hv; split.
    + destruct (wait_one_press_run max_wait min_wait timestamp relative_to w Hmin Hq
                  live_keys fuel Hv) as [Hd | (n & -> & _)]; [congruence|].
      destruct (live_presses _ _); cbn [fst]; [discriminate|].
      destruct (has_quit_key _ _); congruence.
    + destruct (wait_for_presses_run max_wait min_wait timestamp relative_to w Hmin Hq
                  live_keys fuel Hv) as [Hd | (n & -> & _)]; [congruence|].
      apply correct_presses_no_value_error.
    + destruct (wait_one_click_run max_wait min_wait timestamp relative_to w Hmin Hq
                  live_buttons fuel Hv) as [Hd | (n & -> & _)]; [congruence|].
      destruct (live_clicks _ _); cbn [fst]; [discriminate|].
      destruct (fq_pressed (pumped _)); congruence.
    + destruct (wait_for_clicks_run max_wait min_wait timestamp relative_to w Hmin Hq
                  live_buttons fuel Hv) as [Hd | (n & -> & _)]; [congruence|].
      apply correct_clicks_no_value_error.
Qed.

(* ================================================================== *)
(** ** Argument validation of the waits *)

(** C4.  Each of the four waits: with an infinite [max_wait] and an
    explicitly empty filter it raises the configuration error
    ([ValueError]); with [min_wait > max_wait] it raises it too; in both
    cases the state is the one the call started from (no delay, no
    force-quit check, no clearing).  With [min_wait] equal to [max_wait]
    the arguments are accepted: no [ValueError] is raised. *)
Theorem wait_argument_validation :
  forall (fuel : nat) (max_wait min_wait : pyfloat) (timestamp : bool)
         (relative_to : option Z) (w : world),
    (isinf max_wait = true ->
     Keyboard.wait_one_press fuel max_wait min_wait (Some []) timestamp relative_to w
     = (Raise (ValueError msg_inf_no_keys), w) /\
     Keyboard.wait_for_presses fuel max_wait min_wait (Some []) timestamp relative_to w
     = (Raise (ValueError msg_inf_no_keys), w) /\
     Mouse.wait_one_click fuel max_wait min_wait (Some []) timestamp relative_to w
     = (Raise (ValueError msg_inf_no_buttons), w) /\
     Mouse.wait_for_clicks fuel max_wait min_wait (Some []) timestamp relative_to w
     = (Raise (ValueError msg_inf_no_buttons), w)) /\
    (flt max_wait min_wait = true ->
     forall live_keys live_buttons,
     exists msg_k msg_b,
       Keyboard.wait_one_press fuel max_wait min_wait live_keys timestamp relative_to w
       = (Raise (ValueError msg_k), w) /\
       Keyboard.wait_for_presses fuel max_wait min_wait live_keys timestamp relative_to w
       = (Raise (ValueError msg_k), w) /\
       Mouse.wait_one_click fuel max_wait min_wait live_buttons timestamp relative_to w
       = (Raise (ValueError msg_b), w) /\
       Mouse.wait_for_clicks fuel max_wait min_wait live_buttons timestamp relative_to w
       = (Raise (ValueError msg_b), w)) /\
    (forall m, max_wait = Fin m -> min_wait = Fin m ->
     forall live_keys live_buttons e,
       (fst (Keyboard.wait_one_press fuel max_wait min_wait live_keys
               timestamp relative_to w) = Raise e -> is_ValueError e = false) /\
       (fst (Keyboard.wait_for_presses fuel max_wait min_wait live_keys
               timestamp relative_to w) = Raise e -> is_ValueError e = false) /\
       (fst (Mouse.wait_one_click fuel max_wait min_wait live_buttons
               timestamp relative_to w) = Raise e -> is_ValueError e = false) /\
       (fst (Mouse.wait_for_clicks fuel max_wait min_wait live_buttons
               timestamp relative_to w) = Raise e -> is_ValueError e = false)).
Proof.
  intros fuel max_wait min_wait timestamp relative_to w. split; [|split].
  - intros Hinf.
    assert (Hk : valid_wait max_wait min_wait (Some (@nil pyval)) = false)
      by (unfold valid_wait; rewrite Hinf; reflexivity).
    assert (Hb : valid_wait max_wait min_wait (Some (@nil string)) = false)
      by (unfold valid_wait; rewrite Hinf; reflexivity).
    pose proof (init_wait_press_invalid _ _ _ timestamp relative_to w Hk) as Ik.
    pose proof (init_wait_click_invalid _ _ _ timestamp relative_to w Hb) as Ib.
    rewrite Hinf in Ik, Ib. cbn [no_live andb] in Ik, Ib.
    destruct (proj1 (waits_stop_in_init fuel _ _ _ _ _ (Some []) (Some []) _ _) Ik)
      as [-> ->].
    destruct (proj2 (waits_stop_in_init fuel _ _ _ _ _ (Some []) (Some []) _ _) Ib)
      as [-> ->].
    auto.
  - intros Hgt live_keys live_buttons.
    pose proof (init_wait_press_invalid _ _ _ timestamp relative_to w
                  (min_above_max_invalid _ _ live_keys Hgt)) as Ik.
    pose proof (init_wait_click_invalid _ _ _ timestamp relative_to w
                  (min_above_max_invalid _ _ live_buttons Hgt)) as Ib.
    destruct (proj1 (waits_stop_in_init fuel _ _ _ _ _ live_keys live_buttons _ _) Ik)
      as [-> ->].
    destruct (proj2 (waits_stop_in_init fuel _ _ _ _ _ live_keys live_buttons _ _) Ib)
      as [-> ->].
    eexists. eexists. repeat split.
  - intros m -> -> live_keys live_buttons e.
    assert (Hmin : Fin m <> PInf) by discriminate.
    destruct (accepted_waits_raise_only_force_quit fuel (Fin m) (Fin m) timestamp
                relative_to w live_keys live_buttons e Hmin) as [Hk Hb].
    destruct (Hk (valid_wait_equal m live_keys)) as [H1 H2].
    destruct (Hb (valid_wait_equal m live_buttons)) as [H3 H4].
    repeat split; intros H;
      [apply H1 in H | apply H2 in H | apply H3 in H | apply H4 in H];
      subst e; reflexivity.
Qed.

Lemma wait_argument_validation_witness :
  let w := fresh cfg0 0 [(1, press "a")] in
  (Keyboard.wait_one_press 5 PInf (Fin 0) (Some []) true None w
   = (Raise (ValueError msg_inf_no_keys), w) /\
   Keyboard.wait_for_presses 5 PInf (Fin 0) (Some []) true None w
   = (Raise (ValueError msg_inf_no_keys), w) /\
   Mouse.wait_one_click 5 PInf (Fin 0) (Some []) true None w
   = (Raise (ValueError msg_inf_no_buttons), w) /\
   Mouse.wait_for_clicks 5 PInf (Fin 0) (Some []) true None w
   = (Raise (ValueError msg_inf_no_buttons), w)) /\
  (exists msg_k msg_b,
     Keyboard.wait_one_press 5 (Fin 1) (Fin 2) None true None w
     = (Raise (ValueError msg_k), w) /\
     Keyboard.wait_for_presses 5 (Fin 1) (Fin 2) None true None w
     = (Raise (ValueError msg_k), w) /\
     Mouse.wait_one_click 5 (Fin 1) (Fin 2) None true None w
     = (Raise (ValueError msg_b), w) /\
     Mouse.wait_for_clicks 5 (Fin 1) (Fin 2) None true None w
     = (Raise (ValueError msg_b), w)) /\
  (forall e,
     (fst (Keyboard.wait_one_press 5 (Fin 3) (Fin 3) None true None w) = Raise e ->
      is_ValueError e = false) /\
     (fst (Keyboard.wait_for_presses 5 (Fin 3) (Fin 3) None true None w) = Raise e ->
      is_ValueError e = false) /\
     (fst (Mouse.wait_one_click 5 (Fin 3) (Fin 3) None true None w) = Raise e ->
      is_ValueError e = false) /\
     (fst (Mouse.wait_for_clicks 5 (Fin 3) (Fin 3) None true None w) = Raise e ->
      is_ValueError e = false)).
Proof.
  intros w. split; [|split].
  - exact (proj1 (wait_argument_validation 5 PInf (Fin 0) true None w) eq_refl).
  - exact (proj1 (proj2 (wait_argument_validation 5 (Fin 1) (Fin 2) true None w))
                 eq_refl None None).
  - exact (proj2 (proj2 (wait_argument_validation 5 (Fin 3) (Fin 3) true None w))
                 3 eq_refl eq_refl None None).
Defined.

(** Equal bounds, nothing pressed: the waits return at once with nothing,
    while with the bounds the wrong way round they raise. *)
Example wait_argument_validation_sample :
  let w := fresh cfg0 0 [] in
  fst (Keyboard.wait_for_presses 5 (Fin 3) (Fin 3) None true None w) = Ok [] /\
  fst (Keyboard.wait_one_press 5 (Fin 3) (Fin 3) None true None w) = Ok NonePair /\
  fst (Mouse.wait_one_click 5 (Fin 3) (Fin 3) None false None w) = Ok PyNone /\
  fst (Keyboard.wait_one_press 5 (Fin 3) (Fin 4) None true None w)
  = Raise (ValueError "min_wait must be less than max_wait") /\
  fst (Keyboard.wait_one_press 5 (Fin 3) NaN None true None w)
  = Raise (ValueError "min_wait must be less than max_wait") /\
  fst (Keyboard.wait_one_press 5 NInf NInf (Some []) true None w)
  = Raise (ValueError "max_wait cannot be infinite if there are no live keys.").
Proof. repeat split. Qed.

(* ================================================================== *)
(** ** The settle delay *)

Lemma slept_pending : forall secs w, pending (slept secs w) = pending w.
Proof. intros. destruct secs; reflexivity. Qed.

Lemma slept_kb : forall secs w, kb (slept secs w) = kb w.
Proof. intros. destruct secs; reflexivity. Qed.

Lemma slept_cfg : forall secs w, cfg (slept secs w) = cfg w.
Proof. intros. destruct secs; reflexivity. Qed.

Lemma slept_trace : forall secs w, trace (slept secs w) = trace w ++ [Sleep secs].
Proof. intros. destruct secs; reflexivity. Qed.

Lemma slept_now :
  forall secs w, now w <= now (slept secs w).
Proof. intros. destruct secs; simpl; lia. Qed.

Lemma in_stamp_keys :
  forall t symbol symbol_string emulated l,
    In (KeyPress symbol symbol_string emulated) l ->
    In (key_name symbol symbol_string emulated, t) (stamp_keys t l).
Proof.
  induction l as [|e r IH]; intros H; [contradiction|].
  destruct H as [-> | H].
  - simpl. now left.
  - destruct e; simpl; auto.
Qed.

(** A force-quit key that has arrived by the time of a pump is in the
    buffer after it. *)
Lemma pumped_sees_quit_key :
  forall w a symbol symbol_string emulated,
    In (a, KeyPress symbol symbol_string emulated) (pending w) ->
    a <= now w ->
    py_in (key_name symbol symbol_string emulated) (force_quit_keys (kb w)) = true ->
    fq_pressed (pumped w) = true.
Proof.
  intros w a symbol symbol_string emulated Hin Ha Hq.
  unfold fq_pressed. rewrite pumped_fq, pumped_kbuf, existsb_app.
  apply orb_true_iff. right. apply existsb_exists.
  exists (key_name symbol symbol_string emulated, now w + clock_skew (cfg w)).
  split; [|exact Hq].
  apply in_stamp_keys. unfold arrived.
  change (KeyPress symbol symbol_string emulated)
    with (snd (a, KeyPress symbol symbol_string emulated)).
  apply in_map. apply filter_In. split; [exact Hin|].
  unfold due. cbn [fst]. now apply Z.leb_le.
Qed.

(** An event that has arrived by the time of a pump is no longer pending
    after it, nor after any later pump. *)
Lemma pumped_drains :
  forall w p, fst p <= now w -> ~ In p (pending (pumped w)).
Proof.
  intros w p Hp Hin. unfold pumped in Hin. cbn [pending] in Hin.
  apply filter_In in Hin. destruct Hin as [_ Hd].
  unfold due in Hd. apply negb_true_iff, Z.leb_gt in Hd. lia.
Qed.

Lemma pumped_pending_incl :
  forall w p, In p (pending (pumped w)) -> In p (pending w).
Proof.
  intros w p Hin. unfold pumped in Hin. cbn [pending] in Hin.
  now apply filter_In in Hin.
Qed.

(** C2.  Once the arguments are accepted, [_init_wait_press] and
    [_init_wait_click] (the common start of the four waits) call the
    collaborators in this order: the settle delay; one pump, which is the
    one of the single [check_force_quit] call; and, only if that check has
    not raised, the pump and the reset of the buffer of [_clear_events].
    So a wait whose settle delay ends with a force-quit key in the
    keyboard buffer raises [ForceQuit] there, without clearing or polling,
    and this is the case whenever a force-quit key has arrived by the end
    of the delay; otherwise polling starts from an empty buffer, and
    no event that arrived by the end of the delay is still to be
    dispatched. *)
Theorem settle_then_check_then_clear :
  forall (max_wait min_wait : pyfloat) (timestamp : bool) (relative_to : option Z)
         (w : world) (live_keys : option (list pyval))
         (live_buttons : option (list string)),
    min_wait <> PInf ->
    valid_wait max_wait min_wait live_keys = true ->
    valid_wait max_wait min_wait live_buttons = true ->
    let ws := settled min_wait w in
    Keyboard._init_wait_press max_wait min_wait live_keys timestamp relative_to w
    = (wait_secs min_wait ;;;
       Keyboard.check_force_quit KeysNone ;;;
       Keyboard._clear_events ;;;
       ret (default_rel timestamp relative_to (now w), now w)) w /\
    Mouse._init_wait_click max_wait min_wait live_buttons timestamp relative_to w
    = (wait_secs min_wait ;;;
       Mouse._check_force_quit ;;;
       Mouse._clear_events ;;;
       ret (default_rel timestamp relative_to (now w), now w)) w /\
    (let '(out, w') :=
       Keyboard._init_wait_press max_wait min_wait live_keys timestamp relative_to w in
     if fq_pressed ws
     then out = Raise ForceQuit /\ w' = ws /\
          trace w' = trace w ++ [Sleep min_wait; Pump]
     else out = Ok (default_rel timestamp relative_to (now w), now w) /\
          w' = press_polling_start min_wait w /\
          trace w' = trace w ++ [Sleep min_wait; Pump; Pump; ClearKeyboard] /\
          _keyboard_buffer (kb w') = []) /\
    (let '(out, w') :=
       Mouse._init_wait_click max_wait min_wait live_buttons timestamp relative_to w in
     if fq_pressed ws
     then out = Raise ForceQuit /\ w' = ws /\
          trace w' = trace w ++ [Sleep min_wait; Pump]
     else out = Ok (default_rel timestamp relative_to (now w), now w) /\
          w' = click_polling_start min_wait w /\
          trace w' = trace w ++ [Sleep min_wait; Pump; Pump; ClearMouse] /\
          _mouse_buffer (ms w') = []) /\
    (fq_pressed ws = true ->
     forall fuel,
       Keyboard.wait_one_press fuel max_wait min_wait live_keys timestamp relative_to w
       = (Raise ForceQuit, ws) /\
       Keyboard.wait_for_presses fuel max_wait min_wait live_keys timestamp relative_to w
       = (Raise ForceQuit, ws) /\
       Mouse.wait_one_click fuel max_wait min_wait live_buttons timestamp relative_to w
       = (Raise ForceQuit, ws) /\
       Mouse.wait_for_clicks fuel max_wait min_wait live_buttons timestamp relative_to w
       = (Raise ForceQuit, ws)) /\
    (forall a symbol symbol_string emulated,
        In (a, KeyPress symbol symbol_string emulated) (pending w) ->
        a <= now (slept min_wait w) ->
        py_in (key_name symbol symbol_string emulated) (force_quit_keys (kb w)) = true ->
        fq_pressed ws = true) /\
    (forall p,
        In p (pending w) -> fst p <= now (slept min_wait w) ->
        ~ In p (pending (press_polling_start min_wait w)) /\
        ~ In p (pending (click_polling_start min_wait w))).
Proof.
  intros max_wait min_wait timestamp relative_to w live_keys live_buttons
         Hmin Hk Hb ws.
  assert (Ts : trace ws = trace w ++ [Sleep min_wait; Pump]).
  { unfold ws, settled. rewrite pumped_trace, slept_trace, <- app_assoc. reflexivity. }
  split; [|split; [|split; [|split; [|split; [|split]]]]].
  - unfold Keyboard._init_wait_press. unfold valid_wait in Hk.
    apply andb_true_iff in Hk. destruct Hk as [H1 H2].
    apply negb_true_iff in H1. unfold no_live in H1. rewrite H1, H2.
    destruct timestamp, relative_to; reflexivity.
  - unfold Mouse._init_wait_click. unfold valid_wait in Hb.
    apply andb_true_iff in Hb. destruct Hb as [H1 H2].
    apply negb_true_iff in H1. unfold no_live in H1. rewrite H1, H2.
    destruct timestamp, relative_to; reflexivity.
  - rewrite (init_wait_press_eq _ _ _ _ _ _ Hk Hmin). fold ws.
    destruct (fq_pressed ws); [auto|].
    repeat split. unfold press_polling_start. fold ws.
    unfold clear_keyboard. cbn [trace add_trace set_kb].
    rewrite pumped_trace, Ts, <- !app_assoc. reflexivity.
  - rewrite (init_wait_click_eq _ _ _ _ _ _ Hb Hmin). fold ws.
    destruct (fq_pressed ws); [auto|].
    repeat split. unfold click_polling_start. fold ws.
    unfold clear_mouse. cbn [trace add_trace set_ms].
    rewrite pumped_trace, Ts, <- !app_assoc. reflexivity.
  - intros Hq fuel.
    pose proof (init_wait_press_quit _ _ _ timestamp relative_to _ Hk Hmin Hq) as Ik.
    pose proof (init_wait_click_quit _ _ _ timestamp relative_to _ Hb Hmin Hq) as Ib.
    destruct (proj1 (waits_stop_in_init fuel _ _ _ _ _ live_keys live_buttons _ _) Ik)
      as [-> ->].
    destruct (proj2 (waits_stop_in_init fuel _ _ _ _ _ live_keys live_buttons _ _) Ib)
      as [-> ->].
    auto.
  - intros a symbol symbol_string emulated Hin Ha Hq.
    apply (pumped_sees_quit_key (slept min_wait w) a symbol symbol_string emulated).
    + now rewrite slept_pending.
    + exact Ha.
    + now rewrite slept_kb.
  - intros p Hin Hp.
    assert (Hs : ~ In p (pending (pumped ws))).
    { intros H. apply pumped_pending_incl in H.
      now apply (pumped_drains (slept min_wait w) p Hp). }
    split; exact Hs.
Qed.

Lemma settle_then_check_then_clear_witness :
  let w := fresh cfg0 0 [(1, press "escape"); (2, press "a")] in
  let ws := settled (Fin 2) w in
  (forall fuel,
      Keyboard.wait_one_press fuel (Fin 10) (Fin 2) None true None w
      = (Raise ForceQuit, ws) /\
      Keyboard.wait_for_presses fuel (Fin 10) (Fin 2) None true None w
      = (Raise ForceQuit, ws) /\
      Mouse.wait_one_click fuel (Fin 10) (Fin 2) None true None w
      = (Raise ForceQuit, ws) /\
      Mouse.wait_for_clicks fuel (Fin 10) (Fin 2) None true None w
      = (Raise ForceQuit, ws)) /\
  fq_pressed ws = true /\
  ~ In (2, press "a") (pending (press_polling_start (Fin 2) w)).
Proof.
  intros w ws.
  destruct (settle_then_check_then_clear (Fin 10) (Fin 2) true None w None None)
    as (_ & _ & _ & _ & H3 & H4 & H5);
    [discriminate | reflexivity | reflexivity |].
  split; [exact (H3 eq_refl) | split].
  - apply (H4 1 (PStr "escape") "escape"%string true);
      [left; reflexivity | simpl; lia | reflexivity].
  - apply (H5 (2, press "a")); [right; left; reflexivity | simpl; lia].
Defined.

(** A key pressed during the settle delay is gone when polling starts; the
    same key pressed later is reported. *)
Example settle_discards_sample :
  fst (Keyboard.wait_one_press 20 (Fin 10) (Fin 3) None false None
         (fresh cfg0 0 [(2, press "a")])) = Ok PyNone /\
  fst (Keyboard.wait_one_press 20 (Fin 10) (Fin 3) None false None
         (fresh cfg0 0 [(2, press "a"); (7, press "b")])) = Ok (One (Bare "b")) /\
  trace (snd (Keyboard._init_wait_press (Fin 10) (Fin 3) None false None
                (fresh cfg0 0 [(2, press "a")])))
  = [Sleep (Fin 3); Pump; Pump; ClearKeyboard].
Proof. repeat split. Qed.

(* ================================================================== *)
(** ** Termination of the waits *)

Lemma polling_start_cfg :
  forall min_wait w,
    cfg (press_polling_start min_wait w) = cfg w /\
    cfg (click_polling_start min_wait w) = cfg w.
Proof. intros. destruct min_wait; split; reflexivity. Qed.

Lemma polling_start_now :
  forall min_wait w,
    0 <= poll_cost (cfg w) ->
    now w <= now (press_polling_start min_wait w) /\
    now w <= now (click_polling_start min_wait w).
Proof.
  intros min_wait w H.
  unfold press_polling_start, click_polling_start, clear_keyboard, clear_mouse, settled.
  cbn [now add_trace set_kb set_ms]. rewrite !pumped_now, !pumped_cfg, slept_cfg.
  pose proof (slept_now min_wait w). lia.
Qed.

Lemma bind_not_diverge :
  forall {A B} (m : M A) (k : A -> M B) w,
    fst (m w) <> Diverge ->
    (forall a w1, fst (k a w1) <> Diverge) ->
    fst (bind m k w) <> Diverge.
Proof.
  intros A B m k w Hm Hk. unfold bind.
  destruct (m w) as [[a|e|] w1]; cbn [fst] in *; [apply Hk | discriminate | congruence].
Qed.

Lemma correct_presses_returns :
  forall pressed timestamp relative_to start_time w,
    fst (Keyboard._correct_presses pressed timestamp
           (default_rel timestamp relative_to start_time) w) <> Diverge.
Proof.
  intros. rewrite correct_presses_default, correct_presses_eq.
  destruct pressed; cbn [fst]; [discriminate|].
  destruct (has_quit_key _ _); discriminate.
Qed.

Lemma correct_clicks_returns :
  forall clicked timestamp relative_to start_time w,
    fst (Mouse._correct_clicks clicked timestamp
           (default_rel timestamp relative_to start_time) w) <> Diverge.
Proof.
  intros. rewrite correct_clicks_default, correct_clicks_eq.
  destruct clicked; cbn [fst]; [discriminate|].
  destruct (fq_pressed _); discriminate.
Qed.

(** With a finite [max_wait] and pumps that take time, [Z.to_nat max_wait
    + 1] rounds of fuel are enough for each wait to finish. *)
Lemma waits_terminate :
  forall fuel mx min_wait timestamp relative_to w live_keys live_buttons,
    0 < poll_cost (cfg w) ->
    min_wait <> PInf ->
    (Z.to_nat mx < fuel)%nat ->
    fst (Keyboard.wait_one_press fuel (Fin mx) min_wait live_keys
           timestamp relative_to w) <> Diverge /\
    fst (Keyboard.wait_for_presses fuel (Fin mx) min_wait live_keys
           timestamp relative_to w) <> Diverge /\
    fst (Mouse.wait_one_click fuel (Fin mx) min_wait live_buttons
           timestamp relative_to w) <> Diverge /\
    fst (Mouse.wait_for_clicks fuel (Fin mx) min_wait live_buttons
           timestamp relative_to w) <> Diverge.
Proof.
  intros fuel mx min_wait timestamp relative_to w live_keys live_buttons Hc Hmin Hf.
  assert (Hc0 : 0 <= poll_cost (cfg w)) by lia.
  destruct (polling_start_now min_wait w Hc0) as [Nk Nb].
  destruct (polling_start_cfg min_wait w) as [Ck Cb].
  assert (Fk : (Z.to_nat (now w + mx - now (press_polling_start min_wait w)) < fuel)%nat)
    by lia.
  assert (Fb : (Z.to_nat (now w + mx - now (click_polling_start min_wait w)) < fuel)%nat)
    by lia.
  assert (Hk : forall (pressed : list key_event) w1,
             fst (match pressed with
                  | _ :: _ =>
                      l <- Keyboard._correct_presses pressed timestamp
                             (default_rel timestamp relative_to (now w)) ;;
                      match l with
                      | p :: _ => ret (One p)
                      | [] => raise (IndexError msg_index)
                      end
                  | [] => if timestamp then ret NonePair else ret PyNone
                  end w1) <> Diverge).
  { intros [|e r] w1; [destruct timestamp; discriminate|].
    apply bind_not_diverge; [apply correct_presses_returns|].
    intros [|p l] w2; discriminate. }
  assert (Hb : forall (clicked : list click_event) w1,
             fst (match clicked with
                  | _ :: _ =>
                      l <- Mouse._correct_clicks clicked timestamp
                             (default_rel timestamp relative_to (now w)) ;;
                      match l with
                      | p :: _ => ret (One p)
                      | [] => raise (IndexError msg_index)
                      end
                  | [] => if timestamp then ret NonePair else ret PyNone
                  end w1) <> Diverge).
  { intros [|e r] w1; [destruct timestamp; discriminate|].
    apply bind_not_diverge; [apply correct_clicks_returns|].
    intros [|p l] w2; discriminate. }
  split; [|split; [|split]].
  - destruct (valid_wait (Fin mx) min_wait live_keys) eqn:Hv.
    + unfold Keyboard.wait_one_press. unfold bind at 1.
      rewrite (init_wait_press_eq _ _ _ _ _ _ Hv Hmin).
      destruct (fq_pressed (settled min_wait w)); [discriminate|].
      apply bind_not_diverge; [|exact Hk].
      apply (while_first_terminates _ _ (retrieve_keyboard_eq live_keys));
        [unfold press_polling_start in Ck; now rewrite Ck | exact Fk].
    + pose proof (init_wait_press_invalid _ _ _ timestamp relative_to w Hv) as Hi.
      destruct (proj1 (waits_stop_in_init fuel _ _ _ _ _ live_keys live_buttons _ _) Hi)
        as [-> _]. discriminate.
  - destruct (valid_wait (Fin mx) min_wait live_keys) eqn:Hv.
    + unfold Keyboard.wait_for_presses. unfold bind at 1.
      rewrite (init_wait_press_eq _ _ _ _ _ _ Hv Hmin).
      destruct (fq_pressed (settled min_wait w)); [discriminate|].
      apply bind_not_diverge; [|intros; apply correct_presses_returns].
      apply (while_all_terminates _ _ (retrieve_keyboard_eq live_keys));
        [unfold press_polling_start in Ck; now rewrite Ck | exact Fk].
    + pose proof (init_wait_press_invalid _ _ _ timestamp relative_to w Hv) as Hi.
      destruct (proj1 (waits_stop_in_init fuel _ _ _ _ _ live_keys live_buttons _ _) Hi)
        as [_ ->]. discriminate.
  - destruct (valid_wait (Fin mx) min_wait live_buttons) eqn:Hv.
    + unfold Mouse.wait_one_click. unfold bind at 1.
      rewrite (init_wait_click_eq _ _ _ _ _ _ Hv Hmin).
      destruct (fq_pressed (settled min_wait w)); [discriminate|].
      apply bind_not_diverge; [|exact Hb].
      apply (while_first_terminates _ _ (retrieve_mouse_eq live_buttons));
        [unfold click_polling_start in Cb; now rewrite Cb | exact Fb].
    + pose proof (init_wait_click_invalid _ _ _ timestamp relative_to w Hv) as Hi.
      destruct (proj2 (waits_stop_in_init fuel _ _ _ _ _ live_keys live_buttons _ _) Hi)
        as [-> _]. discriminate.
  - destruct (valid_wait (Fin mx) min_wait live_buttons) eqn:Hv.
    + unfold Mouse.wait_for_clicks. unfold bind at 1.
      rewrite (init_wait_click_eq _ _ _ _ _ _ Hv Hmin).
      destruct (fq_pressed (settled min_wait w)); [discriminate|].
      apply bind_not_diverge; [|intros; apply correct_clicks_returns].
      apply (while_all_terminates _ _ (retrieve_mouse_eq live_buttons));
        [unfold click_polling_start in Cb; now rewrite Cb | exact Fb].
    + pose proof (init_wait_click_invalid _ _ _ timestamp relative_to w Hv) as Hi.
      destruct (proj2 (waits_stop_in_init fuel _ _ _ _ _ live_keys live_buttons _ _) Hi)
        as [_ ->]. discriminate.
Qed.

(* ================================================================== *)
(** ** What stays fixed during a wait *)

Lemma polled_constants :
  forall n w,
    force_quit_keys (kb (polled n w)) = force_quit_keys (kb w) /\
    kb_time_correction (kb (polled n w)) = kb_time_correction (kb w) /\
    ms_time_correction (ms (polled n w)) = ms_time_correction (ms w).
Proof.
  induction n as [|n IH]; intros; [now repeat split|].
  change (polled (S n) w) with (pumped (polled n w)).
  destruct (IH w) as (H1 & H2 & H3). repeat split; cbn; assumption.
Qed.

Lemma polling_start_constants :
  forall min_wait w,
    force_quit_keys (kb (press_polling_start min_wait w)) = force_quit_keys (kb w) /\
    kb_time_correction (kb (press_polling_start min_wait w)) = kb_time_correction (kb w) /\
    ms_time_correction (ms (click_polling_start min_wait w)) = ms_time_correction (ms w).
Proof. intros. destruct min_wait; repeat split. Qed.

Lemma pumped_idle :
  forall w, pending w = [] ->
            pending (pumped w) = [] /\
            _keyboard_buffer (kb (pumped w)) = _keyboard_buffer (kb w) /\
            _mouse_buffer (ms (pumped w)) = _mouse_buffer (ms w).
Proof.
  intros w H. unfold pumped, arrived. rewrite H. cbn. now rewrite !app_nil_r.
Qed.

Lemma polled_idle :
  forall n w, pending w = [] ->
              pending (polled n w) = [] /\
              _keyboard_buffer (kb (polled n w)) = _keyboard_buffer (kb w) /\
              _mouse_buffer (ms (polled n w)) = _mouse_buffer (ms w).
Proof.
  induction n as [|n IH]; intros w H; [now repeat split|].
  change (polled (S n) w) with (pumped (polled n w)).
  destruct (IH w H) as (H1 & H2 & H3).
  destruct (pumped_idle _ H1) as (P1 & P2 & P3).
  repeat split; congruence.
Qed.

Lemma polling_start_idle :
  forall min_wait w, pending w = [] ->
                     pending (press_polling_start min_wait w) = [] /\
                     pending (click_polling_start min_wait w) = [].
Proof.
  intros min_wait w H.
  assert (Hs : pending (settled min_wait w) = []).
  { unfold settled. apply pumped_idle. now rewrite slept_pending. }
  unfold press_polling_start, click_polling_start, clear_keyboard, clear_mouse.
  cbn [pending add_trace set_kb set_ms]. split; now apply pumped_idle.
Qed.

(** Whether a keyboard retrieval returns a force-quit key does not depend
    on the filter: it does as soon as the buffer holds one. *)
Lemma quit_key_among_live :
  forall live_keys w,
    has_quit_key (force_quit_keys (kb w)) (map fst (live_presses live_keys w))
    = fq_pressed w.
Proof.
  intros. unfold has_quit_key, fq_pressed. rewrite existsb_map.
  rewrite !filter_nil_existsb. f_equal. f_equal.
  unfold live_presses. apply (f_equal is_empty). apply filter_filter_sub.
  intros [k s] H. unfold Keyboard.key_is_live, augmented.
  destruct live_keys as [l|]; [|reflexivity].
  cbn [fst] in *. rewrite py_in_app, H. apply orb_true_r.
Qed.

Lemma stamp_keys_time :
  forall t l e, In e (stamp_keys t l) -> snd e = t.
Proof.
  induction l as [|h r IH]; intros e H; [contradiction|].
  destruct h; simpl in H; [destruct H as [<- | H]; [reflexivity|]|]; now apply IH.
Qed.

Lemma stamp_clicks_time :
  forall t l e, In e (stamp_clicks t l) -> snd e = t.
Proof.
  induction l as [|h r IH]; intros e H; [contradiction|].
  destruct h; simpl in H; [|destruct H as [<- | H]; [reflexivity|]]; now apply IH.
Qed.

(* ================================================================== *)
(** ** Which event a poll finds first *)

Lemma arrival_ordered_filter :
  forall g l, arrival_ordered l -> arrival_ordered (filter g l).
Proof.
  unfold arrival_ordered. intros g l H.
  induction H as [|p l Hs IH Hf]; cbn [filter]; [constructor|].
  destruct (g p); [|exact IH]. constructor; [exact IH|].
  rewrite Forall_forall in *. intros q Hq. apply Hf.
  apply filter_In in Hq. tauto.
Qed.

Lemma polled_arrival_ordered :
  forall n w, arrival_ordered (pending w) -> arrival_ordered (pending (polled n w)).
Proof.
  induction n as [|n IH]; intros w H; [exact H|].
  change (polled (S n) w) with (pumped (polled n w)).
  unfold pumped. cbn [pending]. apply arrival_ordered_filter, IH, H.
Qed.

Lemma polled_pending_incl :
  forall n w p, In p (pending (polled n w)) -> In p (pending w).
Proof.
  induction n as [|n IH]; intros w p H; [exact H|].
  change (polled (S n) w) with (pumped (polled n w)) in H.
  unfold pumped in H. cbn [pending] in H. apply filter_In in H. apply IH, H.
Qed.

(** The events still to come when polling starts are those of the start
    of the wait that the settle check and the clearing have not
    dispatched, in the same order. *)
Lemma polling_start_pending :
  forall min_wait w,
    pending (press_polling_start min_wait w)
    = pending (pumped (settled min_wait w)) /\
    pending (click_polling_start min_wait w)
    = pending (pumped (settled min_wait w)) /\
    (arrival_ordered (pending w) ->
     arrival_ordered (pending (pumped (settled min_wait w)))) /\
    (forall p, In p (pending (pumped (settled min_wait w))) -> In p (pending w)).
Proof.
  intros min_wait w. split; [reflexivity|]. split; [reflexivity|].
  change (pumped (settled min_wait w)) with (polled 2 (slept min_wait w)).
  split.
  - intros H. apply polled_arrival_ordered. now rewrite slept_pending.
  - intros p H. apply polled_pending_incl in H. now rewrite slept_pending in H.
Qed.

Lemma later_events_not_due :
  forall t a (l : list (Z * hw_event)),
    t < a -> Forall (fun q => a <= fst q) l -> filter (due t) l = [].
Proof.
  intros t a l Ht H. induction H as [|q l Hq _ IH]; [reflexivity|].
  cbn [filter]. unfold due at 1. destruct (Z.leb_spec (fst q) t); [lia | exact IH].
Qed.

Lemma filter_nil_none :
  forall {A} (f : A -> bool) l x, filter f l = [] -> In x l -> f x = false.
Proof.
  intros A f l x H Hin. destruct (f x) eqn:Hx; [|reflexivity].
  assert (Hf : In x (filter f l)) by (apply filter_In; now split).
  rewrite H in Hf. contradiction.
Qed.

Section FirstFound.

Context {E : Type}.
Variable of_event : Z -> hw_event -> option E.
Variable stamp : Z -> list hw_event -> list E.
Variable buf : world -> list E.
Variable live : E -> bool.

Hypothesis stamp_nil : forall t, stamp t [] = [].
Hypothesis stamp_cons :
  forall t e l,
    stamp t (e :: l)
    = match of_event t e with
      | Some x => x :: stamp t l
      | None => stamp t l
      end.
Hypothesis buf_pumped :
  forall w, buf (pumped w)
            = buf w ++ stamp (now w + clock_skew (cfg w)) (arrived w).
Hypothesis of_event_any_time :
  forall t t' e x,
    of_event t e = Some x -> exists x', of_event t' e = Some x' /\ live x' = live x.

Lemma in_stamp :
  forall t l e x, In e l -> of_event t e = Some x -> In x (stamp t l).
Proof.
  induction l as [|h r IH]; intros e x Hin Hx; [contradiction|].
  rewrite stamp_cons. destruct Hin as [-> | Hin].
  - rewrite Hx. now left.
  - destruct (of_event t h); [right|]; now apply (IH e).
Qed.

(** In a batch taken from a queue in arrival order, the first event that
    passes the filter is the one that arrived first among all those of the
    queue that pass it. *)
Lemma first_of_batch :
  forall T t Q x rest,
    arrival_ordered Q ->
    filter live (stamp T (map snd (filter (due t) Q))) = x :: rest ->
    exists a e,
      In (a, e) Q /\ of_event T e = Some x /\
      forall a' e' t' x',
        In (a', e') Q -> of_event t' e' = Some x' -> live x' = true -> a <= a'.
Proof.
  intros T t Q x rest. induction Q as [|[a0 e0] Q IH]; intros Hs H.
  - cbn [filter map] in H. rewrite stamp_nil in H. discriminate.
  - inversion Hs as [|? ? Hs' Hf]; subst.
    cbn [filter] in H. unfold due at 1 in H. cbn [fst] in H.
    destruct (Z.leb_spec a0 t) as [Hle | Hgt].
    + cbn [map snd] in H. rewrite stamp_cons in H.
      assert (Hrest :
                filter live (stamp T (map snd (filter (due t) Q))) = x :: rest ->
                (forall t' x', of_event t' e0 = Some x' -> live x' = false) ->
                exists a e,
                  In (a, e) ((a0, e0) :: Q) /\ of_event T e = Some x /\
                  forall a' e' t' x',
                    In (a', e') ((a0, e0) :: Q) -> of_event t' e' = Some x' ->
                    live x' = true -> a <= a').
      { intros H' Hdead. destruct (IH Hs' H') as (a & e & Hin & Hx & Hmin).
        exists a, e. split; [now right|]. split; [exact Hx|].
        intros a' e' t' x' Hin' Hx' Hl'. destruct Hin' as [Heq | Hin'].
        - injection Heq as <- <-. rewrite (Hdead _ _ Hx') in Hl'. discriminate.
        - now apply (Hmin a' e' t' x'). }
      destruct (of_event T e0) as [x0|] eqn:Hx0.
      * cbn [filter] in H. destruct (live x0) eqn:Hl.
        -- injection H as -> _. exists a0, e0. split; [now left|].
           split; [exact Hx0|]. intros a' e' t' x' Hin' _ _.
           destruct Hin' as [Heq | Hin']; [injection Heq as <- _; lia|].
           rewrite Forall_forall in Hf. apply (Hf _ Hin').
        -- apply Hrest; [exact H|]. intros t' x' Hx'.
           destruct (of_event_any_time t' T e0 x' Hx') as (x'' & Hx'' & Hlive).
           rewrite Hx0 in Hx''. injection Hx'' as <-. congruence.
      * apply Hrest; [exact H|]. intros t' x' Hx'.
        destruct (of_event_any_time t' T e0 x' Hx') as (x'' & Hx'' & _).
        rewrite Hx0 in Hx''. discriminate.
    + rewrite (later_events_not_due t a0 Q Hgt Hf) in H.
      cbn [map] in H. rewrite stamp_nil in H. discriminate.
Qed.

(** An event of the queue is still in it after [n] pumps, or one of them
    has put it in the buffer. *)
Lemma dispatched_or_pending :
  forall n w a e,
    In (a, e) (pending w) ->
    In (a, e) (pending (polled n w)) \/
    forall t x, of_event t e = Some x ->
                exists x', In x' (buf (polled n w)) /\ live x' = live x.
Proof.
  induction n as [|n IH]; intros w a e Hin; [now left|].
  change (polled (S n) w) with (pumped (polled n w)).
  destruct (IH w a e Hin) as [Hp | Hd].
  - destruct (Z.leb_spec a (now (polled n w))) as [Hdue | Hlater].
    + right. intros t x Hx.
      destruct (of_event_any_time t
                  (now (polled n w) + clock_skew (cfg (polled n w))) e x Hx)
        as (x' & Hx' & Hl).
      exists x'. split; [|exact Hl]. rewrite buf_pumped. apply in_or_app. right.
      apply (in_stamp _ _ e); [|exact Hx'].
      unfold arrived. apply in_map_iff. exists (a, e). split; [reflexivity|].
      apply filter_In. split; [exact Hp|]. unfold due. cbn [fst].
      now apply Z.leb_le.
    + left. unfold pumped. cbn [pending]. apply filter_In. split; [exact Hp|].
      unfold due. cbn [fst]. apply negb_true_iff. now apply Z.leb_gt.
  - right. intros t x Hx. destruct (Hd t x Hx) as (x' & Hin' & Hl).
    exists x'. split; [|exact Hl]. rewrite buf_pumped. apply in_or_app. now left.
Qed.

(** The first event found by the first poll that finds any is, among the
    events that were still to come when polling started and that pass the
    filter, one that arrived first. *)
Lemma first_found_arrived_first :
  forall n wc x rest,
    buf wc = [] ->
    arrival_ordered (pending wc) ->
    (forall m, (m < n)%nat -> filter live (buf (polled m wc)) = []) ->
    filter live (buf (polled n wc)) = x :: rest ->
    exists a e t,
      In (a, e) (pending wc) /\ of_event t e = Some x /\
      forall a' e' t' x',
        In (a', e') (pending wc) -> of_event t' e' = Some x' -> live x' = true ->
        a <= a'.
Proof.
  intros [|m] wc x rest Hb Hs Hbefore H.
  - change (polled 0 wc) with wc in H. rewrite Hb in H. discriminate.
  - change (polled (S m) wc) with (pumped (polled m wc)) in H.
    assert (H0 : filter live (buf (polled m wc)) = []) by (apply Hbefore; lia).
    rewrite buf_pumped, filter_app, H0 in H. cbn [app] in H. unfold arrived in H.
    destruct (first_of_batch _ _ _ _ _ (polled_arrival_ordered m wc Hs) H)
      as (a & e & Hin & Hx & Hmin).
    exists a, e, (now (polled m wc) + clock_skew (cfg (polled m wc))).
    split; [now apply (polled_pending_incl m)|]. split; [exact Hx|].
    intros a' e' t' x' Hin' Hx' Hl'.
    destruct (dispatched_or_pending m wc a' e' Hin') as [Hp | Hd].
    + now apply (Hmin a' e' t' x').
    + destruct (Hd t' x' Hx') as (x'' & Hin'' & Hl'').
      rewrite (filter_nil_none live _ x'' H0 Hin'') in Hl''. congruence.
Qed.

End FirstFound.

Lemma key_is_live_any_time :
  forall live_keys k t t',
    Keyboard.key_is_live live_keys (k, t) = Keyboard.key_is_live live_keys (k, t').
Proof. intros [l|] k t t'; reflexivity. Qed.

Lemma button_is_live_any_time :
  forall live_buttons b x y t t',
    Mouse.button_is_live live_buttons (b, x, y, t)
    = Mouse.button_is_live live_buttons (b, x, y, t').
Proof. intros [l|] b x y t t'; reflexivity. Qed.

Lemma first_press_arrived_first :
  forall live_keys n wc e rest,
    _keyboard_buffer (kb wc) = [] ->
    arrival_ordered (pending wc) ->
    (forall m, (m < n)%nat -> live_presses live_keys (polled m wc) = []) ->
    live_presses live_keys (polled n wc) = e :: rest ->
    exists a ev t,
      In (a, ev) (pending wc) /\ key_of_event t ev = Some e /\
      forall a' ev' t' e',
        In (a', ev') (pending wc) -> key_of_event t' ev' = Some e' ->
        Keyboard.key_is_live (augmented (force_quit_keys (kb wc)) live_keys) e' = true ->
        a <= a'.
Proof.
  intros live_keys n wc e rest Hb Hs Hbefore H.
  apply (first_found_arrived_first key_of_event stamp_keys
           (fun w => _keyboard_buffer (kb w))
           (Keyboard.key_is_live (augmented (force_quit_keys (kb wc)) live_keys)))
    with (n := n) (rest := rest).
  - reflexivity.
  - intros t [s ss em | x y b] l; reflexivity.
  - exact pumped_kbuf.
  - intros t t' [s ss em | x y b] x0 Hx; [|discriminate]. injection Hx as <-.
    eexists. split; [reflexivity|]. apply key_is_live_any_time.
  - exact Hb.
  - exact Hs.
  - intros m Hm. specialize (Hbefore m Hm). unfold live_presses in Hbefore.
    now rewrite (proj1 (polled_constants m wc)) in Hbefore.
  - unfold live_presses in H. now rewrite (proj1 (polled_constants n wc)) in H.
Qed.

Lemma first_click_arrived_first :
  forall live_buttons n wc e rest,
    _mouse_buffer (ms wc) = [] ->
    arrival_ordered (pending wc) ->
    (forall m, (m < n)%nat -> live_clicks live_buttons (polled m wc) = []) ->
    live_clicks live_buttons (polled n wc) = e :: rest ->
    exists a ev t,
      In (a, ev) (pending wc) /\ click_of_event t ev = Some e /\
      forall a' ev' t' e',
        In (a', ev') (pending wc) -> click_of_event t' ev' = Some e' ->
        Mouse.button_is_live live_buttons e' = true ->
        a <= a'.
Proof.
  intros live_buttons n wc e rest Hb Hs Hbefore H.
  apply (first_found_arrived_first click_of_event stamp_clicks
           (fun w => _mouse_buffer (ms w))
           (Mouse.button_is_live live_buttons))
    with (n := n) (rest := rest).
  - reflexivity.
  - intros t [s ss em | x y b] l; reflexivity.
  - exact pumped_mbuf.
  - intros t t' [s ss em | x y b] x0 Hx; [discriminate|]. injection Hx as <-.
    eexists. split; [reflexivity|]. apply button_is_live_any_time.
  - exact Hb.
  - exact Hs.
  - exact Hbefore.
  - exact H.
Qed.

(* ================================================================== *)
(** ** A wait for one event ends when the event comes *)

Section PollingUntilArrival.

Context {A : Type}.
Variable retrieve : M (list A).
Variable view : world -> list A.
Hypothesis retrieve_eq :
  forall w, retrieve w = (Ok (view (pumped w)), pumped w).
Variable inv : world -> Prop.
Hypothesis inv_pumped : forall w, inv w -> inv (pumped w).
Variable p : Z * hw_event.
Hypothesis seen :
  forall w, inv w -> In p (pending w) -> fst p <= now w -> view (pumped w) <> [].

(** Whatever [max_wait], the loop of [wait_one_press] / [wait_one_click]
    is over one poll after the first one made when [p] has arrived. *)
Lemma while_first_ends_on_arrival :
  forall fuel start_time max_wait pressed w,
    0 < poll_cost (cfg w) ->
    inv w ->
    In p (pending w) ->
    (Z.to_nat (fst p - now w) + 1 < fuel)%nat ->
    fst (while_first fuel retrieve start_time max_wait pressed w) <> Diverge.
Proof.
  induction fuel as [|fuel IH]; intros start_time max_wait pressed w Hc Hi Hp Hf;
    [lia|].
  rewrite (while_first_step retrieve view retrieve_eq).
  destruct (negb (is_empty pressed)); [discriminate|].
  destruct (flt (Fin (now w - start_time)) max_wait); [|discriminate].
  destruct (Z.le_gt_cases (fst p) (now w)) as [Hdue | Hlater].
  - destruct fuel as [|fuel]; [lia|].
    rewrite (while_first_step retrieve view retrieve_eq).
    destruct (view (pumped w)) eqn:Hv; [now elim (seen w Hi Hp Hdue)|].
    discriminate.
  - apply IH.
    + now rewrite pumped_cfg.
    + now apply inv_pumped.
    + unfold pumped. cbn [pending]. apply filter_In. split; [exact Hp|].
      unfold due. apply negb_true_iff. now apply Z.leb_gt.
    + rewrite pumped_now. lia.
Qed.

End PollingUntilArrival.

Lemma first_press_returns :
  forall (timestamp : bool) (relative_to : option Z) (start_time : Z)
         (pressed : list key_event) (w1 : world),
    fst (match pressed with
         | _ :: _ =>
             l <- Keyboard._correct_presses pressed timestamp
                    (default_rel timestamp relative_to start_time) ;;
             match l with
             | p :: _ => ret (One p)
             | [] => raise (IndexError msg_index)
             end
         | [] => if timestamp then ret NonePair else ret PyNone
         end w1) <> Diverge.
Proof.
  intros timestamp relative_to start_time [|e r] w1;
    [destruct timestamp; discriminate|].
  apply bind_not_diverge; [apply correct_presses_returns|].
  intros [|p l] w2; discriminate.
Qed.

Lemma first_click_returns :
  forall (timestamp : bool) (relative_to : option Z) (start_time : Z)
         (clicked : list click_event) (w1 : world),
    fst (match clicked with
         | _ :: _ =>
             l <- Mouse._correct_clicks clicked timestamp
                    (default_rel timestamp relative_to start_time) ;;
             match l with
             | p :: _ => ret (One p)
             | [] => raise (IndexError msg_index)
             end
         | [] => if timestamp then ret NonePair else ret PyNone
         end w1) <> Diverge.
Proof.
  intros timestamp relative_to start_time [|e r] w1;
    [destruct timestamp; discriminate|].
  apply bind_not_diverge; [apply correct_clicks_returns|].
  intros [|p l] w2; discriminate.
Qed.

(** [wait_one_press] returns or raises, also with an infinite [max_wait],
    when a key that passes the filter is still to come at the start of
    polling: [a - now + 2] rounds of fuel are enough, for [a] the arrival
    time of the key. *)
Lemma wait_one_press_ends_on_arrival :
  forall fuel max_wait min_wait timestamp relative_to w live_keys a ev t e,
    min_wait <> PInf ->
    0 < poll_cost (cfg w) ->
    In (a, ev) (pending (press_polling_start min_wait w)) ->
    key_of_event t ev = Some e ->
    Keyboard.key_is_live (augmented (force_quit_keys (kb w)) live_keys) e = true ->
    (Z.to_nat (a - now (press_polling_start min_wait w)) + 1 < fuel)%nat ->
    fst (Keyboard.wait_one_press fuel max_wait min_wait live_keys
           timestamp relative_to w) <> Diverge.
Proof.
  intros fuel max_wait min_wait timestamp relative_to w live_keys a ev t e
         Hmin Hc Hin He Hl Hf.
  destruct (valid_wait max_wait min_wait live_keys) eqn:Hv.
  - unfold Keyboard.wait_one_press. unfold bind at 1.
    rewrite (init_wait_press_eq _ _ _ _ _ _ Hv Hmin).
    destruct (fq_pressed (settled min_wait w)); [discriminate|].
    apply bind_not_diverge; [|apply first_press_returns].
    fold (press_polling_start min_wait w).
    apply (while_first_ends_on_arrival _ _ (retrieve_keyboard_eq live_keys)
             (fun w' => force_quit_keys (kb w') = force_quit_keys (kb w))
             (fun (w' : world)
                  (H : force_quit_keys (kb w') = force_quit_keys (kb w)) => H)
             (a, ev)).
    + intros w' Hi Hp Hdue. cbn [fst] in Hdue.
      destruct ev as [s ss em | x y b]; [|discriminate].
      injection He as <-.
      intros Hnil.
      assert (Hk : In (key_name s ss em, now w' + clock_skew (cfg w'))
                      (_keyboard_buffer (kb (pumped w')))).
      { rewrite pumped_kbuf. apply in_or_app. right.
        apply (in_stamp key_of_event stamp_keys) with (e := KeyPress s ss em).
        - intros t0 [s0 ss0 em0 | x0 y0 b0] l; reflexivity.
        - unfold arrived. apply in_map_iff. exists (a, KeyPress s ss em).
          split; [reflexivity|]. apply filter_In. split; [exact Hp|].
          unfold due. cbn [fst]. now apply Z.leb_le.
        - reflexivity. }
      apply (filter_nil_none _ _ _ Hnil) in Hk.
      rewrite pumped_fq, Hi in Hk.
      rewrite (key_is_live_any_time _ _ _ t) in Hk. congruence.
    + rewrite (proj1 (polling_start_cfg min_wait w)). exact Hc.
    + apply (proj1 (polling_start_constants min_wait w)).
    + exact Hin.
    + exact Hf.
  - pose proof (init_wait_press_invalid _ _ _ timestamp relative_to w Hv) as Hi.
    destruct (proj1 (waits_stop_in_init fuel _ _ _ _ _ live_keys
                       (@None (list string)) _ _) Hi) as [-> _].
    discriminate.
Qed.

Lemma wait_one_click_ends_on_arrival :
  forall fuel max_wait min_wait timestamp relative_to w live_buttons a ev t e,
    min_wait <> PInf ->
    0 < poll_cost (cfg w) ->
    In (a, ev) (pending (click_polling_start min_wait w)) ->
    click_of_event t ev = Some e ->
    Mouse.button_is_live live_buttons e = true ->
    (Z.to_nat (a - now (click_polling_start min_wait w)) + 1 < fuel)%nat ->
    fst (Mouse.wait_one_click fuel max_wait min_wait live_buttons
           timestamp relative_to w) <> Diverge.
Proof.
  intros fuel max_wait min_wait timestamp relative_to w live_buttons a ev t e
         Hmin Hc Hin He Hl Hf.
  destruct (valid_wait max_wait min_wait live_buttons) eqn:Hv.
  - unfold Mouse.wait_one_click. unfold bind at 1.
    rewrite (init_wait_click_eq _ _ _ _ _ _ Hv Hmin).
    destruct (fq_pressed (settled min_wait w)); [discriminate|].
    apply bind_not_diverge; [|apply first_click_returns].
    fold (click_polling_start min_wait w).
    apply (while_first_ends_on_arrival _ _ (retrieve_mouse_eq live_buttons)
             (fun _ => True) (fun (_ : world) (_ : True) => I) (a, ev)).
    + intros w' _ Hp Hdue. cbn [fst] in Hdue.
      destruct ev as [s ss em | x y b]; [discriminate|].
      injection He as <-.
      intros Hnil.
      assert (Hk : In (_button_names b, x, y, now w' + clock_skew (cfg w'))
                      (_mouse_buffer (ms (pumped w')))).
      { rewrite pumped_mbuf. apply in_or_app. right.
        apply (in_stamp click_of_event stamp_clicks) with (e := MousePress x y b).
        - intros t0 [s0 ss0 em0 | x0 y0 b0] l; reflexivity.
        - unfold arrived. apply in_map_iff. exists (a, MousePress x y b).
          split; [reflexivity|]. apply filter_In. split; [exact Hp|].
          unfold due. cbn [fst]. now apply Z.leb_le.
        - reflexivity. }
      apply (filter_nil_none _ _ _ Hnil) in Hk.
      rewrite (button_is_live_any_time _ _ _ _ _ t) in Hk. congruence.
    + rewrite (proj2 (polling_start_cfg min_wait w)). exact Hc.
    + exact I.
    + exact Hin.
    + exact Hf.
  - pose proof (init_wait_click_invalid _ _ _ timestamp relative_to w Hv) as Hi.
    destruct (proj2 (waits_stop_in_init fuel _ _ _ _ _ (@None (list pyval))
                       live_buttons _ _) Hi) as [-> _].
    discriminate.
Qed.

(* ================================================================== *)
(** ** [wait_one_press] and [wait_one_click] *)

(** C8.  After the settle delay and the clearing, [wait_one_press] and
    [wait_one_click] poll as long as no poll has found an event that
    passes the filter and less than [max_wait] has elapsed since the wait
    started.  They stop at the first poll that finds one and return the
    first such event of the buffer, corrected: [(key, t0 + c - r)] resp.
    [(button, x, y, t0 + c - r)] when a timestamp is requested, the bare
    key resp. the [(button, x, y)] triple otherwise -- unless the
    force-quit check of the correction step raises.  That event is the
    earliest-arriving one: when the window queue is in arrival order, it
    comes from a window event that was still to come when polling
    started, and no event of that queue that passes the filter arrived
    before it.  If [max_wait] has elapsed and no poll has found anything
    they return [(None, None)] when a timestamp is requested and [None]
    otherwise.  The waits do return when pumps take time: with a finite
    [max_wait] always, and with any [max_wait], the infinite one
    included, as soon as an event that passes the filter arrives. *)
Theorem wait_one_returns_first_event :
  forall (max_wait min_wait : pyfloat) (timestamp : bool) (relative_to : option Z)
         (w : world) (live_keys : option (list pyval))
         (live_buttons : option (list string)),
    min_wait <> PInf ->
    fq_pressed (settled min_wait w) = false ->
    valid_wait max_wait min_wait live_keys = true ->
    valid_wait max_wait min_wait live_buttons = true ->
    let r := origin relative_to (now w) in
    (forall fuel,
        let wc := press_polling_start min_wait w in
        let '(out, w') :=
          Keyboard.wait_one_press fuel max_wait min_wait live_keys
            timestamp relative_to w in
        out = Diverge \/
        exists n,
          (forall m, (m < n)%nat ->
                     live_presses live_keys (polled m wc) = [] /\
                     flt (Fin (now (polled m wc) - now w)) max_wait = true) /\
          match live_presses live_keys (polled n wc) with
          | [] =>
              flt (Fin (now (polled n wc) - now w)) max_wait = false /\
              out = Ok (nothing timestamp)
          | e :: rest =>
              out = (if fq_pressed (polled n wc) then Raise ForceQuit
                     else Ok (One (reported_press (kb_time_correction (kb w))
                                                  timestamp r e))) /\
              (arrival_ordered (pending w) ->
               exists a ev t,
                 In (a, ev) (pending wc) /\ key_of_event t ev = Some e /\
                 forall a' ev' t' e',
                   In (a', ev') (pending wc) ->
                   key_of_event t' ev' = Some e' ->
                   Keyboard.key_is_live
                     (augmented (force_quit_keys (kb w)) live_keys) e' = true ->
                   a <= a')
          end) /\
    (forall fuel,
        let wc := click_polling_start min_wait w in
        let '(out, w') :=
          Mouse.wait_one_click fuel max_wait min_wait live_buttons
            timestamp relative_to w in
        out = Diverge \/
        exists n,
          (forall m, (m < n)%nat ->
                     live_clicks live_buttons (polled m wc) = [] /\
                     flt (Fin (now (polled m wc) - now w)) max_wait = true) /\
          match live_clicks live_buttons (polled n wc) with
          | [] =>
              flt (Fin (now (polled n wc) - now w)) max_wait = false /\
              out = Ok (nothing timestamp)
          | e :: rest =>
              out = (if fq_pressed w' then Raise ForceQuit
                     else Ok (One (reported_click (ms_time_correction (ms w))
                                                  timestamp r e))) /\
              (arrival_ordered (pending w) ->
               exists a ev t,
                 In (a, ev) (pending wc) /\ click_of_event t ev = Some e /\
                 forall a' ev' t' e',
                   In (a', ev') (pending wc) ->
                   click_of_event t' ev' = Some e' ->
                   Mouse.button_is_live live_buttons e' = true ->
                   a <= a')
          end) /\
    (forall mx fuel,
        max_wait = Fin mx -> 0 < poll_cost (cfg w) -> (Z.to_nat mx < fuel)%nat ->
        fst (Keyboard.wait_one_press fuel max_wait min_wait live_keys
               timestamp relative_to w) <> Diverge /\
        fst (Mouse.wait_one_click fuel max_wait min_wait live_buttons
               timestamp relative_to w) <> Diverge) /\
    (forall a ev t e fuel,
        0 < poll_cost (cfg w) ->
        In (a, ev) (pending (press_polling_start min_wait w)) ->
        key_of_event t ev = Some e ->
        Keyboard.key_is_live (augmented (force_quit_keys (kb w)) live_keys) e = true ->
        (Z.to_nat (a - now (press_polling_start min_wait w)) + 1 < fuel)%nat ->
        fst (Keyboard.wait_one_press fuel max_wait min_wait live_keys
               timestamp relative_to w) <> Diverge) /\
    (forall a ev t e fuel,
        0 < poll_cost (cfg w) ->
        In (a, ev) (pending (click_polling_start min_wait w)) ->
        click_of_event t ev = Some e ->
        Mouse.button_is_live live_buttons e = true ->
        (Z.to_nat (a - now (click_polling_start min_wait w)) + 1 < fuel)%nat ->
        fst (Mouse.wait_one_click fuel max_wait min_wait live_buttons
               timestamp relative_to w) <> Diverge).
Proof.
  intros max_wait min_wait timestamp relative_to w live_keys live_buttons
         Hmin Hq Hk Hb r.
  destruct (polling_start_pending min_wait w) as (Pk & Pb & Ps & _).
  split; [|split; [|split; [|split]]].
  - intros fuel wc.
    destruct (wait_one_press_run max_wait min_wait timestamp relative_to w Hmin Hq
                live_keys fuel Hk) as [Hd | (n & Heq & Hend & Hbefore)].
    + destruct (Keyboard.wait_one_press _ _ _ _ _ _ _) as [out w']. now left.
    + fold wc in Heq, Hend, Hbefore. rewrite Heq.
      destruct (polled_constants n wc) as (C1 & C2 & _).
      destruct (polling_start_constants min_wait w) as (S1 & S2 & _).
      fold wc in S1, S2.
      pose proof (quit_key_among_live live_keys (polled n wc)) as Q.
      destruct (live_presses live_keys (polled n wc)) as [|e rest] eqn:Hp;
        right; exists n; (split; [exact Hbefore|]); rewrite Hp.
      * destruct Hend as [Hne | Ht]; [now elim Hne | auto].
      * split; [rewrite Q, C2, S2; reflexivity|].
        intros Hs. rewrite <- S1.
        apply (first_press_arrived_first live_keys n wc e rest eq_refl);
          [unfold wc; rewrite Pk; now apply Ps
          | intros m Hm; apply (Hbefore m Hm) | exact Hp].
  - intros fuel wc.
    destruct (wait_one_click_run max_wait min_wait timestamp relative_to w Hmin Hq
                live_buttons fuel Hb) as [Hd | (n & Heq & Hend & Hbefore)].
    + destruct (Mouse.wait_one_click _ _ _ _ _ _ _) as [out w']. now left.
    + fold wc in Heq, Hend, Hbefore. rewrite Heq.
      destruct (polled_constants n wc) as (_ & _ & C3).
      destruct (polling_start_constants min_wait w) as (_ & _ & S3).
      fold wc in S3.
      destruct (live_clicks live_buttons (polled n wc)) as [|e rest] eqn:Hp;
        right; exists n; (split; [exact Hbefore|]); rewrite Hp.
      * destruct Hend as [Hne | Ht]; [now elim Hne | auto].
      * split; [cbv zeta; rewrite C3, S3; reflexivity|].
        intros Hs.
        apply (first_click_arrived_first live_buttons n wc e rest eq_refl);
          [unfold wc; rewrite Pb; now apply Ps
          | intros m Hm; apply (Hbefore m Hm) | exact Hp].
  - intros mx fuel -> Hc Hf.
    destruct (waits_terminate fuel mx min_wait timestamp relative_to w
                live_keys live_buttons Hc Hmin Hf) as (T1 & _ & T3 & _).
    split; assumption.
  - intros a ev t e fuel Hc Hin He Hl Hf.
    now apply (wait_one_press_ends_on_arrival fuel max_wait min_wait timestamp
                 relative_to w live_keys a ev t e).
  - intros a ev t e fuel Hc Hin He Hl Hf.
    now apply (wait_one_click_ends_on_arrival fuel max_wait min_wait timestamp
                 relative_to w live_buttons a ev t e).
Qed.

Lemma wait_one_returns_first_event_witness :
  let w := fresh (mkConfig 1 0 100 0) 0
                 [(1, press "b"); (4, press "b"); (5, press "a");
                  (6, MousePress 3 4 RIGHT); (7, press "a")] in
  fst (Keyboard.wait_one_press 11 PInf (Fin 2) (Some [PStr "a"]) true None w)
  <> Diverge /\
  fst (Mouse.wait_one_click 11 PInf (Fin 2) None true None w) <> Diverge /\
  exists a ev t,
    In (a, ev) (pending (press_polling_start (Fin 2) w)) /\
    key_of_event t ev = Some ("a"%string, 5) /\
    forall a' ev' t' e',
      In (a', ev') (pending (press_polling_start (Fin 2) w)) ->
      key_of_event t' ev' = Some e' ->
      Keyboard.key_is_live
        (augmented (force_quit_keys (kb w)) (Some [PStr "a"])) e' = true ->
      a <= a'.
Proof.
  intros w.
  destruct (wait_one_returns_first_event PInf (Fin 2) true None w
              (Some [PStr "a"]) None) as (K & _ & _ & Tk & Tb);
    [discriminate | reflexivity | reflexivity | reflexivity |].
  split; [|split].
  - apply (Tk 5 (press "a") 0 ("a"%string, 0) 11%nat).
    + reflexivity.
    + vm_compute. right. left. reflexivity.
    + reflexivity.
    + reflexivity.
    + vm_compute. lia.
  - apply (Tb 6 (MousePress 3 4 RIGHT) 0 ("right"%string, 3, 4, 0) 11%nat).
    + reflexivity.
    + vm_compute. right. right. left. reflexivity.
    + reflexivity.
    + reflexivity.
    + vm_compute. lia.
  - specialize (K 11%nat). cbv zeta in K.
    assert (E : fst (Keyboard.wait_one_press 11 PInf (Fin 2) (Some [PStr "a"])
                       true None w) = Ok (One (Stamped "a" 105)))
      by (vm_compute; reflexivity).
    assert (L0 : live_presses (Some [PStr "a"])
                   (polled 0 (press_polling_start (Fin 2) w)) = [])
      by (vm_compute; reflexivity).
    assert (L1 : live_presses (Some [PStr "a"])
                   (polled 1 (press_polling_start (Fin 2) w)) = [])
      by (vm_compute; reflexivity).
    assert (L2 : live_presses (Some [PStr "a"])
                   (polled 2 (press_polling_start (Fin 2) w))
                 = [("a"%string, 5)])
      by (vm_compute; reflexivity).
    assert (Hs : arrival_ordered (pending w))
      by (unfold arrival_ordered; repeat constructor; cbn; lia).
    destruct (Keyboard.wait_one_press 11 PInf (Fin 2) (Some [PStr "a"]) true None w)
      as [out w'].
    cbn [fst] in E. subst out.
    destruct K as [K | (n & Hbefore & Hmatch)]; [discriminate K|].
    destruct n as [|[|[|n]]].
    + rewrite L0 in Hmatch. destruct Hmatch as [Ht _]. discriminate Ht.
    + rewrite L1 in Hmatch. destruct Hmatch as [Ht _]. discriminate Ht.
    + rewrite L2 in Hmatch. exact (proj2 Hmatch Hs).
    + assert (Hlt : (2 < S (S (S n)))%nat) by lia.
      destruct (Hbefore 2%nat Hlt) as [Hnil _].
      rewrite L2 in Hnil. discriminate Hnil.
Defined.

(** The wait of the witness: [b] at 1 falls in the settle delay, [b] at 4
    does not pass the filter, [a] at 5 is reported at 5 + 100 - 0; with an
    infinite [max_wait] the result is the same. *)
Example wait_one_sample :
  let w := fresh (mkConfig 1 0 100 0) 0
                 [(1, press "b"); (4, press "b"); (5, press "a");
                  (6, MousePress 3 4 RIGHT); (7, press "a")] in
  fst (Keyboard.wait_one_press 11 (Fin 10) (Fin 2) (Some [PStr "a"]) true None w)
  = Ok (One (Stamped "a" 105)) /\
  fst (Keyboard.wait_one_press 11 (Fin 10) (Fin 2) (Some [PStr "a"]) false None w)
  = Ok (One (Bare "a")) /\
  fst (Keyboard.wait_one_press 11 (Fin 10) (Fin 2) (Some [PStr "c"]) true None w)
  = Ok NonePair /\
  fst (Keyboard.wait_one_press 11 (Fin 10) (Fin 2) (Some [PStr "c"]) false None w)
  = Ok PyNone /\
  fst (Mouse.wait_one_click 11 (Fin 10) (Fin 2) None true (Some 1) w)
  = Ok (One (StampedClick "right" 3 4 5)) /\
  fst (Mouse.wait_one_click 11 (Fin 10) (Fin 2) (Some ["left"%string]) true None w)
  = Ok NonePair /\
  fst (Keyboard.wait_one_press 11 PInf (Fin 2) (Some [PStr "a"]) true None w)
  = Ok (One (Stamped "a" 105)) /\
  fst (Mouse.wait_one_click 11 PInf (Fin 2) None true (Some 1) w)
  = Ok (One (StampedClick "right" 3 4 5)).
Proof. vm_compute. repeat split. Qed.

(* ================================================================== *)
(** ** [wait_for_presses] and [wait_for_clicks] *)

(** C9.  After the settle delay and the clearing, [wait_for_presses] and
    [wait_for_clicks] poll until [max_wait] has elapsed since the wait
    started, whatever the polls find; the buffer was empty when polling
    started, and what they return is the correction of all the events the
    polls have put in it that pass the filter (unless the force-quit check
    of the correction step raises).  With a finite [max_wait] and pumps
    that take time they do return, and when no event is pending the
    result is the empty list. *)
Theorem wait_for_returns_all_events :
  forall (max_wait min_wait : pyfloat) (timestamp : bool) (relative_to : option Z)
         (w : world) (live_keys : option (list pyval))
         (live_buttons : option (list string)),
    min_wait <> PInf ->
    fq_pressed (settled min_wait w) = false ->
    valid_wait max_wait min_wait live_keys = true ->
    valid_wait max_wait min_wait live_buttons = true ->
    let r := origin relative_to (now w) in
    (forall fuel,
        let wc := press_polling_start min_wait w in
        let '(out, w') :=
          Keyboard.wait_for_presses fuel max_wait min_wait live_keys
            timestamp relative_to w in
        out = Diverge \/
        exists n,
          _keyboard_buffer (kb wc) = [] /\
          (forall m, (m < n)%nat ->
                     flt (Fin (now (polled m wc) - now w)) max_wait = true) /\
          flt (Fin (now (polled n wc) - now w)) max_wait = false /\
          out = if fq_pressed (polled n wc) then Raise ForceQuit
                else Ok (map (reported_press (kb_time_correction (kb w)) timestamp r)
                             (live_presses live_keys (polled n wc)))) /\
    (forall fuel,
        let wc := click_polling_start min_wait w in
        let '(out, w') :=
          Mouse.wait_for_clicks fuel max_wait min_wait live_buttons
            timestamp relative_to w in
        out = Diverge \/
        exists n,
          _mouse_buffer (ms wc) = [] /\
          (forall m, (m < n)%nat ->
                     flt (Fin (now (polled m wc) - now w)) max_wait = true) /\
          flt (Fin (now (polled n wc) - now w)) max_wait = false /\
          out = match live_clicks live_buttons (polled n wc) with
                | [] => Ok []
                | clicked =>
                    if fq_pressed w' then Raise ForceQuit
                    else Ok (map (reported_click (ms_time_correction (ms w)) timestamp r)
                                 clicked)
                end) /\
    (forall mx fuel,
        max_wait = Fin mx -> 0 < poll_cost (cfg w) -> (Z.to_nat mx < fuel)%nat ->
        fst (Keyboard.wait_for_presses fuel max_wait min_wait live_keys
               timestamp relative_to w) <> Diverge /\
        fst (Mouse.wait_for_clicks fuel max_wait min_wait live_buttons
               timestamp relative_to w) <> Diverge /\
        (pending w = [] ->
         fst (Keyboard.wait_for_presses fuel max_wait min_wait live_keys
                timestamp relative_to w) = Ok [] /\
         fst (Mouse.wait_for_clicks fuel max_wait min_wait live_buttons
                timestamp relative_to w) = Ok [])).
Proof.
  intros max_wait min_wait timestamp relative_to w live_keys live_buttons
         Hmin Hq Hk Hb r.
  assert (Kpart : forall fuel,
             fst (Keyboard.wait_for_presses fuel max_wait min_wait live_keys
                    timestamp relative_to w) = Diverge \/
             exists n,
               let w1 := polled n (press_polling_start min_wait w) in
               flt (Fin (now w1 - now w)) max_wait = false /\
               (forall m, (m < n)%nat ->
                  flt (Fin (now (polled m (press_polling_start min_wait w)) - now w))
                      max_wait = true) /\
               fst (Keyboard.wait_for_presses fuel max_wait min_wait live_keys
                      timestamp relative_to w)
               = if fq_pressed w1 then Raise ForceQuit
                 else Ok (map (reported_press (kb_time_correction (kb w)) timestamp r)
                              (live_presses live_keys w1))).
  { intros fuel.
    destruct (wait_for_presses_run max_wait min_wait timestamp relative_to w Hmin Hq
                live_keys fuel Hk) as [Hd | (n & Heq & Hend & Hbefore)]; [now left|].
    right. exists n. cbv zeta. split; [exact Hend|]. split; [exact Hbefore|].
    rewrite Heq, correct_presses_eq.
    destruct (polled_constants n (press_polling_start min_wait w)) as (C1 & C2 & _).
    destruct (polling_start_constants min_wait w) as (S1 & S2 & _).
    pose proof (quit_key_among_live live_keys
                  (polled n (press_polling_start min_wait w))) as Q.
    rewrite <- Q.
    destruct (live_presses live_keys _) as [|e rest]; [reflexivity|].
    cbv zeta. cbn [fst]. rewrite C2, S2. reflexivity. }
  assert (Mpart : forall fuel,
             fst (Mouse.wait_for_clicks fuel max_wait min_wait live_buttons
                    timestamp relative_to w) = Diverge \/
             exists n,
               let w1 := polled n (click_polling_start min_wait w) in
               flt (Fin (now w1 - now w)) max_wait = false /\
               (forall m, (m < n)%nat ->
                  flt (Fin (now (polled m (click_polling_start min_wait w)) - now w))
                      max_wait = true) /\
               Mouse.wait_for_clicks fuel max_wait min_wait live_buttons
                 timestamp relative_to w
               = Mouse._correct_clicks (live_clicks live_buttons w1) timestamp
                   (Some r) w1).
  { intros fuel.
    destruct (wait_for_clicks_run max_wait min_wait timestamp relative_to w Hmin Hq
                live_buttons fuel Hb) as [Hd | (n & Heq & Hend & Hbefore)]; [now left|].
    right. exists n. cbv zeta. auto. }
  split; [|split].
  - intros fuel wc. destruct (Kpart fuel) as [Hd | (n & Hend & Hbefore & Heq)].
    + destruct (Keyboard.wait_for_presses _ _ _ _ _ _ _) as [out w']. now left.
    + destruct (Keyboard.wait_for_presses _ _ _ _ _ _ _) as [out w'].
      right. exists n. cbn [fst] in Heq. fold wc in Hend, Hbefore, Heq. auto.
  - intros fuel wc. destruct (Mpart fuel) as [Hd | (n & Hend & Hbefore & Heq)].
    + destruct (Mouse.wait_for_clicks _ _ _ _ _ _ _) as [out w']. now left.
    + rewrite Heq, correct_clicks_eq. fold wc.
      destruct (polled_constants n wc) as (_ & _ & C3).
      destruct (polling_start_constants min_wait w) as (_ & _ & S3).
      fold wc in S3, Hend, Hbefore.
      destruct (live_clicks live_buttons (polled n wc)) as [|e rest] eqn:Hp;
        cbv zeta; right; exists n; (split; [reflexivity|]);
        (split; [exact Hbefore|]); (split; [exact Hend|]); rewrite Hp;
        [reflexivity|].
      rewrite C3, S3. reflexivity.
  - intros mx fuel -> Hc Hf.
    destruct (waits_terminate fuel mx min_wait timestamp relative_to w
                live_keys live_buttons Hc Hmin Hf) as (_ & T2 & _ & T4).
    split; [exact T2|]. split; [exact T4|].
    intros Hidle.
    destruct (polling_start_idle min_wait w Hidle) as [Ik Ib].
    split.
    + destruct (Kpart fuel) as [Hd | (n & _ & _ & Heq)]; [contradiction|].
      rewrite Heq.
      destruct (polled_idle n _ Ik) as (_ & B & _).
      unfold fq_pressed, live_presses. rewrite B. reflexivity.
    + destruct (Mpart fuel) as [Hd | (n & _ & _ & Heq)]; [contradiction|].
      rewrite Heq.
      destruct (polled_idle n _ Ib) as (_ & _ & B).
      unfold live_clicks. rewrite B. reflexivity.
Qed.

Lemma wait_for_returns_all_events_witness :
  let w := fresh (mkConfig 1 0 100 0) 0 [] in
  fst (Keyboard.wait_for_presses 11 (Fin 10) (Fin 2) (Some [PStr "a"]) true None w)
  = Ok [] /\
  fst (Mouse.wait_for_clicks 11 (Fin 10) (Fin 2) None true None w) = Ok [].
Proof.
  intros w.
  destruct (wait_for_returns_all_events (Fin 10) (Fin 2) true None w
              (Some [PStr "a"]) None) as (_ & _ & T);
    [discriminate | reflexivity | reflexivity | reflexivity |].
  assert (F : (Z.to_nat 10 < 11)%nat) by (simpl; lia).
  destruct (T 10 11%nat eq_refl eq_refl F) as (_ & _ & H).
  exact (H eq_refl).
Defined.

(** Two [a] presses after the settle delay are both returned, at the end
    of the wait (time 10); a [b] press and the [a] press of the settle
    delay are not. *)
Example wait_for_sample :
  let w := fresh (mkConfig 1 0 100 0) 0
                 [(1, press "a"); (4, press "b"); (5, press "a");
                  (6, MousePress 3 4 RIGHT); (7, press "a")] in
  fst (Keyboard.wait_for_presses 11 (Fin 10) (Fin 2) (Some [PStr "a"]) true None w)
  = Ok [Stamped "a" 105; Stamped "a" 107] /\
  now (snd (Keyboard.wait_for_presses 11 (Fin 10) (Fin 2) (Some [PStr "a"]) true None w))
  = 10 /\
  fst (Mouse.wait_for_clicks 11 (Fin 10) (Fin 2) None false None w)
  = Ok [BareClick "right" 3 4] /\
  fst (Keyboard.wait_for_presses 11 (Fin 10) (Fin 10) None false None w) = Ok [].
Proof. vm_compute. repeat split. Qed.

(* ================================================================== *)
(** ** Force-quit checks of the retrievals *)

Lemma get_presses_quit :
  forall live_keys timestamp relative_to w,
    needs_session timestamp relative_to (kb_listen_start (kb w)) = false ->
    fst (Keyboard.get_presses live_keys timestamp relative_to w)
    = if fq_pressed (pumped w) then Raise ForceQuit
      else fst (Keyboard.get_presses live_keys timestamp relative_to w).
Proof.
  intros live_keys timestamp relative_to w Hs.
  destruct (fq_pressed (pumped w)) eqn:Hq; [|reflexivity].
  rewrite get_presses_eq.
  pose proof (quit_key_among_live live_keys (pumped w)) as Q. rewrite Hq in Q.
  assert (E : forall ts r,
             fst (Keyboard._correct_presses (live_presses live_keys (pumped w)) ts
                    (Some r) (pumped w)) = Raise ForceQuit).
  { intros ts r. rewrite correct_presses_eq.
    destruct (live_presses live_keys (pumped w)); [discriminate Q|].
    cbv zeta. cbn [fst]. now rewrite Q. }
  destruct timestamp, relative_to as [r|], (kb_listen_start (kb w)) as [t|];
    try discriminate Hs; try apply E;
    rewrite correct_presses_untimed; apply E.
Qed.

(** What the mouse does when no click comes: its polls put nothing in the
    mouse buffer, so that the correction step, and with it the force-quit
    check, is never reached. *)
Lemma stamp_clicks_none :
  forall t l,
    (forall e, In e l -> click_of_event t e = None) -> stamp_clicks t l = [].
Proof.
  induction l as [|h r IH]; intros H; [reflexivity|].
  destruct h as [s ss em | x y b].
  - cbn [stamp_clicks]. apply IH. intros e He. apply H. now right.
  - specialize (H (MousePress x y b) (or_introl eq_refl)). discriminate H.
Qed.

Lemma pumped_no_click :
  forall w,
    no_click_pending w ->
    no_click_pending (pumped w) /\
    _mouse_buffer (ms (pumped w)) = _mouse_buffer (ms w).
Proof.
  intros w H. split.
  - intros p t Hin. unfold pumped in Hin. cbn [pending] in Hin.
    apply filter_In in Hin. apply H, Hin.
  - rewrite pumped_mbuf, stamp_clicks_none; [apply app_nil_r|].
    intros e He. unfold arrived in He. apply in_map_iff in He.
    destruct He as (p & <- & Hp). apply filter_In in Hp. apply H, Hp.
Qed.

Lemma polled_no_click :
  forall n w,
    no_click_pending w ->
    no_click_pending (polled n w) /\
    _mouse_buffer (ms (polled n w)) = _mouse_buffer (ms w).
Proof.
  induction n as [|n IH]; intros w H; [now split|].
  change (polled (S n) w) with (pumped (polled n w)).
  destruct (IH w H) as [H1 H2]. destruct (pumped_no_click _ H1) as [P1 P2].
  split; [exact P1 | congruence].
Qed.

Lemma mouse_waits_without_clicks :
  forall fuel max_wait min_wait timestamp relative_to w live_buttons,
    min_wait <> PInf ->
    valid_wait max_wait min_wait live_buttons = true ->
    fq_pressed (settled min_wait w) = false ->
    no_click_pending w ->
    (fst (Mouse.wait_one_click fuel max_wait min_wait live_buttons
            timestamp relative_to w) = Diverge \/
     fst (Mouse.wait_one_click fuel max_wait min_wait live_buttons
            timestamp relative_to w) = Ok (nothing timestamp)) /\
    (fst (Mouse.wait_for_clicks fuel max_wait min_wait live_buttons
            timestamp relative_to w) = Diverge \/
     fst (Mouse.wait_for_clicks fuel max_wait min_wait live_buttons
            timestamp relative_to w) = Ok []) /\
    (max_wait = PInf ->
     fst (Mouse.wait_one_click fuel max_wait min_wait live_buttons
            timestamp relative_to w) = Diverge /\
     fst (Mouse.wait_for_clicks fuel max_wait min_wait live_buttons
            timestamp relative_to w) = Diverge).
Proof.
  intros fuel max_wait min_wait timestamp relative_to w live_buttons
         Hmin Hv Hq Hno.
  assert (Hc : no_click_pending (click_polling_start min_wait w)).
  { intros p t Hin. apply Hno.
    destruct (polling_start_pending min_wait w) as (_ & Pb & _ & Pi).
    rewrite Pb in Hin. now apply Pi. }
  assert (Hnil : forall n,
             live_clicks live_buttons (polled n (click_polling_start min_wait w))
             = []).
  { intros n. unfold live_clicks.
    now rewrite (proj2 (polled_no_click n _ Hc)). }
  destruct (wait_one_click_run max_wait min_wait timestamp relative_to w Hmin Hq
              live_buttons fuel Hv) as [D1 | (n1 & E1 & End1 & _)];
    destruct (wait_for_clicks_run max_wait min_wait timestamp relative_to w Hmin Hq
                live_buttons fuel Hv) as [D2 | (n2 & E2 & End2 & _)];
    try rewrite (Hnil n1) in E1; try rewrite (Hnil n1) in End1;
    try rewrite (Hnil n2) in E2;
    try (rewrite correct_clicks_eq in E2);
    try (apply (f_equal fst) in E1; cbn [fst] in E1);
    try (apply (f_equal fst) in E2; cbn [fst] in E2).
  - repeat split; auto.
  - split; [now left|]. split; [now right|].
    intros ->. discriminate End2.
  - split; [now right|]. split; [now left|].
    intros ->. destruct End1 as [Hne | Ht]; [now elim Hne | discriminate Ht].
  - split; [now right|]. split; [now right|].
    intros ->. discriminate End2.
Qed.

(** C3 fails for the mouse.  [Mouse._correct_clicks] makes its force-quit
    check inside [if len(clicked):], and the polls of the mouse waits
    retrieve mouse events only: a force-quit key pressed during a mouse
    wait in which no click comes is never looked at.  Here [escape] is the
    force-quit key and it is pressed at time 4, during waits that start at
    0 with a settle delay of 2.  [wait_one_click] with [max_wait = 10]
    returns [None] and [wait_for_clicks] returns [[]], both with [escape]
    sitting in the keyboard buffer and no [ForceQuit]; a [get_clicks]
    right after returns the empty list, again without [ForceQuit]; and
    with an infinite [max_wait] the [wait_one_click] never ends, whatever
    the fuel: the key cannot stop it. *)
Lemma mouse_retrievals_skip_force_quit :
  let w := fresh cfg0 0 [(4, press "escape")] in
  let res := Mouse.wait_one_click 11 (Fin 10) (Fin 2) None false None w in
  py_in "escape" (force_quit_keys (kb w)) = true /\
  (now w + 2 < 4 /\ 4 < now w + 10) /\
  fst res = Ok PyNone /\
  fst res <> Raise ForceQuit /\
  fq_pressed (snd res) = true /\
  fst (Mouse.get_clicks None false None (snd res)) = Ok [] /\
  fq_pressed (snd (Mouse.get_clicks None false None (snd res))) = true /\
  fst (Mouse.wait_for_clicks 11 (Fin 10) (Fin 2) None false None w) = Ok [] /\
  fq_pressed (snd (Mouse.wait_for_clicks 11 (Fin 10) (Fin 2) None false None w))
  = true /\
  forall fuel,
    fst (Mouse.wait_one_click fuel PInf (Fin 2) None false None w) = Diverge.
Proof.
  intros w res.
  assert (Hinf : forall fuel,
             fst (Mouse.wait_one_click fuel PInf (Fin 2) None false None w)
             = Diverge).
  { intros fuel.
    apply (mouse_waits_without_clicks fuel PInf (Fin 2) false None w None);
      [discriminate | reflexivity | reflexivity | | reflexivity].
    intros p t [<- | []]. reflexivity. }
  revert Hinf. generalize (forall fuel : nat,
      fst (Mouse.wait_one_click fuel PInf (Fin 2) None false None w) = Diverge).
  intros P HP. vm_compute. repeat split; try discriminate. exact HP.
Qed.

(** The same press during the keyboard waits ends them in [ForceQuit]:
    [wait_one_press] at the poll that sees it, also when [max_wait] is
    infinite, and [wait_for_presses] once [max_wait] has elapsed. *)
Example keyboard_waits_see_force_quit :
  let w := fresh cfg0 0 [(4, press "escape")] in
  fst (Keyboard.wait_one_press 11 (Fin 10) (Fin 2) (Some [PStr "a"]) false None w)
  = Raise ForceQuit /\
  now (snd (Keyboard.wait_one_press 11 (Fin 10) (Fin 2) (Some [PStr "a"]) false None w))
  = 5 /\
  fst (Keyboard.wait_for_presses 11 (Fin 10) (Fin 2) (Some [PStr "a"]) false None w)
  = Raise ForceQuit /\
  now (snd (Keyboard.wait_for_presses 11 (Fin 10) (Fin 2) (Some [PStr "a"]) false None w))
  = 10 /\
  fst (Keyboard.wait_one_press 11 PInf (Fin 2) (Some [PStr "a"]) false None w)
  = Raise ForceQuit.
Proof. vm_compute. repeat split. Qed.

(* ================================================================== *)
(** ** Key identifiers *)

Lemma lower_char_not_stripped :
  forall c, char_in (lower_char c) "_" = false ->
            char_in (lower_char c) "NUM_" = false.
Proof.
  intros [b0 b1 b2 b3 b4 b5 b6 b7].
  destruct b0, b1, b2, b3, b4, b5, b6, b7; vm_compute; intros H;
    first [reflexivity | discriminate H].
Qed.

Lemma lower_char_idempotent :
  forall c, lower_char (lower_char c) = lower_char c.
Proof.
  intros [b0 b1 b2 b3 b4 b5 b6 b7].
  destruct b0, b1, b2, b3, b4, b5, b6, b7; reflexivity.
Qed.

Lemma second_lstrip_strips_nothing :
  forall s, lstrip "NUM_" (lstrip "_" (lower s)) = lstrip "_" (lower s).
Proof.
  induction s as [|c r IH]; [reflexivity|].
  cbn [lower]. cbn [lstrip].
  destruct (char_in (lower_char c) "_") eqn:Hu; [exact IH|].
  cbn [lstrip]. now rewrite (lower_char_not_stripped c Hu).
Qed.

Lemma lstrip_head :
  forall chars s,
    match lstrip chars s with
    | String c _ => char_in c chars = false
    | EmptyString => True
    end.
Proof.
  induction s as [|c r IH]; [exact I|].
  cbn [lstrip]. destruct (char_in c chars) eqn:Hc; [exact IH | exact Hc].
Qed.

Lemma lower_idempotent : forall s, lower (lower s) = lower s.
Proof.
  induction s as [|c r IH]; [reflexivity|].
  cbn [lower]. now rewrite lower_char_idempotent, IH.
Qed.

Lemma lower_lstrip :
  forall chars s, lower (lstrip chars (lower s)) = lstrip chars (lower s).
Proof.
  induction s as [|c r IH]; [reflexivity|].
  cbn [lower lstrip]. destruct (char_in (lower_char c) chars); [exact IH|].
  cbn [lower]. now rewrite lower_char_idempotent, lower_idempotent.
Qed.

(** X1.  The identifier [_on_pyglet_keypress] gives a key that is not
    emulated is the lower-cased symbol name without its leading
    underscores: the second [lstrip('NUM_')] comes after [lower()] and so
    never strips anything (a numeric-pad name keeps its [num_] prefix).
    The identifier has no upper-case letter left and does not start with
    an underscore. *)
Theorem key_name_of_real_key :
  forall (symbol : pyval) (symbol_string : string),
    key_name symbol symbol_string false = lstrip "_" (lower symbol_string) /\
    lower (key_name symbol symbol_string false) = key_name symbol symbol_string false /\
    match key_name symbol symbol_string false with
    | String c _ => c <> "_"%char
    | EmptyString => True
    end.
Proof.
  intros symbol symbol_string. unfold key_name.
  rewrite second_lstrip_strips_nothing. split; [reflexivity|]. split.
  - apply lower_lstrip.
  - pose proof (lstrip_head "_" (lower symbol_string)) as H.
    destruct (lstrip "_" (lower symbol_string)) as [|c r]; [exact I|].
    intros ->. discriminate H.
Qed.

(** The names pyglet gives the keys [1] of the numeric pad, [A], [_1] and
    [ESCAPE]. *)
Example key_name_sample :
  key_name (PInt 65457) "NUM_1" false = "num_1"%string /\
  key_name (PInt 97) "A" false = "a"%string /\
  key_name (PInt 49) "_1" false = "1"%string /\
  key_name (PInt 65307) "ESCAPE" false = "escape"%string /\
  key_name (PInt 1) "ignored" true = "1"%string /\
  key_name (PStr "Esc") "ignored" true = "Esc"%string.
Proof. repeat split. Qed.

(* ================================================================== *)
(** ** Mouse buttons and position *)

(** X2.  The two button dictionaries of [Mouse.__init__] are inverse to
    each other, and the name [_on_pyglet_mouse_click] buffers for a click
    maps back to the button that was pressed. *)
Theorem button_tables_inverse :
  (forall b, _button_ids (_button_names b) = Some b) /\
  (forall name b, _button_ids name = Some b -> _button_names b = name) /\
  (forall x y b w,
      exists t,
        _mouse_buffer (ms (snd (_on_pyglet_mouse_click x y b w)))
        = _mouse_buffer (ms w) ++ [(_button_names b, x, y, t)] /\
        _button_ids (_button_names b) = Some b).
Proof.
  split; [|split].
  - intros []; reflexivity.
  - intros name b. unfold _button_ids.
    destruct (String.eqb name "left") eqn:E1;
      [apply String.eqb_eq in E1; intros H; injection H as <-; now subst|].
    destruct (String.eqb name "middle") eqn:E2;
      [apply String.eqb_eq in E2; intros H; injection H as <-; now subst|].
    destruct (String.eqb name "right") eqn:E3;
      [apply String.eqb_eq in E3; intros H; injection H as <-; now subst|].
    discriminate.
  - intros x y b w. exists (now w + clock_skew (cfg w)).
    split; [reflexivity | destruct b; reflexivity].
Qed.

Lemma button_tables_inverse_witness :
  _button_names RIGHT = "right"%string.
Proof.
  apply (proj1 (proj2 button_tables_inverse) "right"%string RIGHT). reflexivity.
Defined.

Lemma normalized_value :
  forall raw extent,
    extent <> 0 ->
    exists q, normalized raw extent = Some q /\
              (q == inject_Z (2 * raw - extent) / inject_Z extent)%Q.
Proof.
  intros raw extent He. unfold normalized.
  assert (Hh : ~ (inject_Z extent / inject_Z 2 == 0)%Q).
  { intros H. apply He. unfold Qeq, Qdiv, Qmult, Qinv, inject_Z in H.
    simpl in H. lia. }
  destruct (Qeq_bool (inject_Z extent / inject_Z 2) 0) eqn:E.
  - apply Qeq_bool_iff in E. contradiction.
  - eexists. split; [reflexivity|].
    assert (He' : ~ (inject_Z extent == 0)%Q).
    { intros H. apply He. unfold Qeq, inject_Z in H. simpl in H. lia. }
    unfold Z.sub. rewrite inject_Z_plus, inject_Z_opp, inject_Z_mult.
    field. exact He'.
Qed.

Lemma normalized_range :
  forall raw extent q,
    0 < extent -> 0 <= raw <= extent ->
    (q == inject_Z (2 * raw - extent) / inject_Z extent)%Q ->
    (-1 <= q <= 1)%Q.
Proof.
  intros raw extent q He Hr Hv. rewrite Hv.
  assert (Hp : (0 < inject_Z extent)%Q) by (unfold Qlt, inject_Z; simpl; lia).
  split.
  - apply Qle_shift_div_l; [exact Hp|].
    unfold Qle, Qmult, inject_Z; cbn [Qnum Qden Pos.mul]; lia.
  - apply Qle_shift_div_r; [exact Hp|].
    unfold Qle, Qmult, inject_Z; cbn [Qnum Qden Pos.mul]; lia.
Qed.

(** X3.  [Mouse.pos] divides by half the window extent: with a window of
    width or height 0 it fails (Python's [ZeroDivisionError]); otherwise
    each coordinate is [(2 * raw - extent) / extent], so the window centre
    is [(0, 0)], and a raw position inside the window, [0 <= raw <=
    extent], is normalized into [-1, 1]. *)
Theorem mouse_pos_normalized :
  forall (win : window),
    (width win = 0 \/ height win = 0 -> Mouse_pos win = None) /\
    (width win <> 0 -> height win <> 0 ->
     exists x y,
       Mouse_pos win = Some (x, y) /\
       (x == inject_Z (2 * _mouse_x win - width win) / inject_Z (width win))%Q /\
       (y == inject_Z (2 * _mouse_y win - height win) / inject_Z (height win))%Q /\
       (2 * _mouse_x win = width win -> (x == 0)%Q) /\
       (2 * _mouse_y win = height win -> (y == 0)%Q) /\
       (0 < width win -> 0 <= _mouse_x win <= width win -> (-1 <= x <= 1)%Q) /\
       (0 < height win -> 0 <= _mouse_y win <= height win -> (-1 <= y <= 1)%Q)).
Proof.
  intros [mx my W H]. cbn [width height _mouse_x _mouse_y]. split.
  - unfold Mouse_pos. cbn [width height _mouse_x _mouse_y].
    intros [-> | ->]; [reflexivity|].
    destruct (normalized mx W); reflexivity.
  - intros HW HH.
    destruct (normalized_value mx W HW) as (x & Hx & Vx).
    destruct (normalized_value my H HH) as (y & Hy & Vy).
    exists x, y. unfold Mouse_pos. cbn [width height _mouse_x _mouse_y].
    rewrite Hx, Hy. split; [reflexivity|]. split; [exact Vx|]. split; [exact Vy|].
    split; [|split; [|split]].
    + intros E. rewrite Vx. replace (2 * mx - W) with 0 by lia.
      unfold Qeq, Qdiv, Qmult, inject_Z. cbn [Qnum Qden]. lia.
    + intros E. rewrite Vy. replace (2 * my - H) with 0 by lia.
      unfold Qeq, Qdiv, Qmult, inject_Z. cbn [Qnum Qden]. lia.
    + intros Hp Hr. exact (normalized_range mx W x Hp Hr Vx).
    + intros Hp Hr. exact (normalized_range my H y Hp Hr Vy).
Qed.

Lemma mouse_pos_normalized_witness :
  Mouse_pos (mkWindow 5 5 0 600) = None /\
  exists x y,
    Mouse_pos (mkWindow 400 0 800 600) = Some (x, y) /\
    (x == 0)%Q /\ (-1 <= x <= 1)%Q /\ (-1 <= y <= 1)%Q.
Proof.
  split.
  - apply (proj1 (mouse_pos_normalized (mkWindow 5 5 0 600))). left. reflexivity.
  - destruct (proj2 (mouse_pos_normalized (mkWindow 400 0 800 600)))
      as (x & y & Hp & _ & _ & Cx & _ & Rx & Ry);
      [discriminate | discriminate |].
    exists x, y. split; [exact Hp|]. split; [apply Cx; reflexivity|].
    split; [apply Rx | apply Ry]; cbn; lia.
Defined.

(** A mouse at the lower left corner, in the middle and at the upper right
    corner of a window of 800 by 600. *)
Example mouse_pos_sample :
  (exists x y, Mouse_pos (mkWindow 0 0 800 600) = Some (x, y) /\
               (x == -1)%Q /\ (y == -1)%Q) /\
  (exists x y, Mouse_pos (mkWindow 400 300 800 600) = Some (x, y) /\
               (x == 0)%Q /\ (y == 0)%Q) /\
  (exists x y, Mouse_pos (mkWindow 800 600 800 600) = Some (x, y) /\
               (x == 1)%Q /\ (y == 1)%Q).
Proof.
  repeat split; eexists; eexists; (split; [reflexivity|]); split; reflexivity.
Qed.

(* ================================================================== *)
(** ** Listening sessions *)

Lemma listen_presses_eq :
  forall w,
    Keyboard.listen_presses w
    = (Ok tt,
       clear_keyboard
         (pumped (set_kb (mkKeyboard (force_quit_keys (kb w)) (Some (now w))
                                     (keypress_correction (cfg w))
                                     (_keyboard_buffer (kb w))) w))).
Proof.
  intros. unfold Keyboard.listen_presses, Keyboard._clear_events.
  unfold bind, get_time_corr_keypress, master_clock, gets, modify.
  rewrite clear_keyboard_eq. reflexivity.
Qed.

Lemma listen_clicks_eq :
  forall w,
    Mouse.listen_clicks w
    = (Ok tt,
       clear_mouse
         (pumped (set_ms (mkMouse (Some (now w)) (mouseclick_correction (cfg w))
                                  (_mouse_buffer (ms w))) w))).
Proof.
  intros. unfold Mouse.listen_clicks, Mouse._clear_events.
  unfold bind, get_time_corr_mouseclick, master_clock, gets, modify.
  rewrite clear_mouse_eq. reflexivity.
Qed.

(** X4.  [listen_presses] never raises, not even with a force-quit key in
    the buffer.  It sets [listen_start] to the master clock at the call,
    takes a fresh time correction, and leaves the keyboard buffer empty
    with no key that had arrived by the call still to be dispatched: what
    was pressed before the session is gone.  The clicks its pump
    dispatches are kept for the mouse.  [listen_clicks] is the mirror
    image. *)
Theorem listen_starts_a_session :
  forall (w : world),
    (let '(out, w') := Keyboard.listen_presses w in
     out = Ok tt /\
     kb_listen_start (kb w') = Some (now w) /\
     kb_time_correction (kb w') = keypress_correction (cfg w) /\
     force_quit_keys (kb w') = force_quit_keys (kb w) /\
     _keyboard_buffer (kb w') = [] /\
     fq_pressed w' = false /\
     (forall p, In p (pending w) -> fst p <= now w -> ~ In p (pending w')) /\
     _mouse_buffer (ms w')
     = _mouse_buffer (ms w) ++ stamp_clicks (now w + clock_skew (cfg w)) (arrived w) /\
     press_log w' = press_log w) /\
    (let '(out, w') := Mouse.listen_clicks w in
     out = Ok tt /\
     ms_listen_start (ms w') = Some (now w) /\
     ms_time_correction (ms w') = mouseclick_correction (cfg w) /\
     _mouse_buffer (ms w') = [] /\
     (forall p, In p (pending w) -> fst p <= now w -> ~ In p (pending w')) /\
     _keyboard_buffer (kb w')
     = _keyboard_buffer (kb w) ++ stamp_keys (now w + clock_skew (cfg w)) (arrived w) /\
     click_log w' = click_log w).
Proof.
  intros w. split.
  - rewrite listen_presses_eq. repeat split.
    intros p Hin Hp H. cbn [clear_keyboard add_trace set_kb pending] in H.
    revert H. apply (pumped_drains _ p). exact Hp.
  - rewrite listen_clicks_eq. repeat split.
    intros p Hin Hp H. cbn [clear_mouse add_trace set_ms pending] in H.
    revert H. apply (pumped_drains _ p). exact Hp.
Qed.

Lemma listen_starts_a_session_witness :
  let w := mkWorld cfg0 5 [(3, press "a"); (4, MousePress 1 2 LEFT); (9, press "b")]
                   (mkKeyboard ["escape"%string] None 0 [("escape"%string, 1)])
                   (mkMouse None 0 []) [] [] [] in
  ~ In (3, press "a") (pending (snd (Keyboard.listen_presses w))) /\
  ~ In (4, MousePress 1 2 LEFT) (pending (snd (Mouse.listen_clicks w))).
Proof.
  intros w.
  pose proof (listen_starts_a_session w) as [Hk Hm].
  destruct (Keyboard.listen_presses w) as [ok wk].
  destruct (Mouse.listen_clicks w) as [om wm].
  destruct Hk as (_ & _ & _ & _ & _ & _ & Dk & _).
  destruct Hm as (_ & _ & _ & _ & Dm & _).
  split.
  - apply Dk; [left; reflexivity | cbn; lia].
  - apply Dm; [right; left; reflexivity | cbn; lia].
Defined.

(** X5.  After [listen_presses], [get_presses] with a timestamp and no
    [relative_to] does not raise the no-session error: it reports each
    event at [t0 + c - t], where [t] is the time of the [listen_presses]
    call and [c] the correction fetched by it.  The same for
    [listen_clicks] and [get_clicks]. *)
Theorem timestamps_count_from_listen :
  forall (w : world),
    (forall live_keys,
        let w1 := snd (Keyboard.listen_presses w) in
        fst (Keyboard.get_presses live_keys true None w1)
        = if fq_pressed (pumped w1) then Raise ForceQuit
          else Ok (map (fun '(k, t0) =>
                          Stamped k (t0 + keypress_correction (cfg w) - now w))
                       (live_presses live_keys (pumped w1)))) /\
    (forall live_buttons,
        let w1 := snd (Mouse.listen_clicks w) in
        let clicked := live_clicks live_buttons (pumped w1) in
        let '(out, w') := Mouse.get_clicks live_buttons true None w1 in
        out = if is_empty clicked then Ok []
              else if fq_pressed w' then Raise ForceQuit
              else Ok (map (fun '(b, x, y, t0) =>
                              StampedClick b x y
                                (t0 + mouseclick_correction (cfg w) - now w))
                           clicked)).
Proof.
  intros w. split.
  - intros live_keys. rewrite listen_presses_eq. cbn [snd].
    set (w1 := clear_keyboard _).
    rewrite get_presses_eq.
    change (kb_listen_start (kb w1)) with (Some (now w)). cbv iota.
    rewrite correct_presses_eq.
    pose proof (quit_key_among_live live_keys (pumped w1)) as Q.
    destruct (live_presses live_keys (pumped w1)) as [|e rest] eqn:Hp.
    + rewrite <- Q. reflexivity.
    + cbv zeta. cbn [fst]. rewrite Q. destruct (fq_pressed (pumped w1)); reflexivity.
  - intros live_buttons. rewrite listen_clicks_eq. cbn [snd].
    set (w1 := clear_mouse _). cbv zeta.
    rewrite get_clicks_eq.
    change (ms_listen_start (ms w1)) with (Some (now w)). cbv iota.
    rewrite correct_clicks_eq.
    destruct (live_clicks live_buttons (pumped w1)) as [|e rest] eqn:Hp;
      [reflexivity|].
    cbv zeta. cbn [is_empty]. destruct (fq_pressed (pumped _)); reflexivity.
Qed.

(* ================================================================== *)
(** ** Retrievals do not consume events *)

Lemma buffers_extend_refl : forall w, buffers_extend w w.
Proof. intros w. split; exists []; now rewrite app_nil_r. Qed.

Lemma buffers_extend_trans :
  forall w1 w2 w3,
    buffers_extend w1 w2 -> buffers_extend w2 w3 -> buffers_extend w1 w3.
Proof.
  intros w1 w2 w3 [[k1 K1] [m1 M1]] [[k2 K2] [m2 M2]]. split.
  - exists (k1 ++ k2). now rewrite K2, K1, app_assoc.
  - exists (m1 ++ m2). now rewrite M2, M1, app_assoc.
Qed.

Lemma buffers_extend_pumped : forall w, buffers_extend w (pumped w).
Proof.
  intros w. split; eexists; [apply pumped_kbuf | apply pumped_mbuf].
Qed.

Lemma correct_presses_state :
  forall pressed timestamp relative_to w,
    snd (Keyboard._correct_presses pressed timestamp relative_to w)
    = match pressed with
      | [] => w
      | _ :: _ => add_press_log (corrected_presses (kb_time_correction (kb w)) pressed) w
      end.
Proof.
  intros [|e rest] timestamp relative_to w; [reflexivity|].
  unfold Keyboard._correct_presses.
  unfold bind at 1. unfold gets at 1. unfold bind at 1.
  unfold log_presses, modify. unfold bind at 1.
  rewrite check_force_quit_list_eq.
  destruct (has_quit_key _ _); [reflexivity|].
  destruct timestamp, relative_to; reflexivity.
Qed.

Lemma correct_clicks_state :
  forall clicked timestamp relative_to w,
    snd (Mouse._correct_clicks clicked timestamp relative_to w)
    = match clicked with
      | [] => w
      | _ :: _ =>
          pumped (add_click_log (corrected_clicks (ms_time_correction (ms w)) clicked) w)
      end.
Proof.
  intros [|e rest] timestamp relative_to w; [reflexivity|].
  unfold Mouse._correct_clicks.
  unfold bind at 1. unfold gets at 1. unfold bind at 1.
  unfold log_clicks, modify. unfold bind at 1.
  rewrite mouse_check_force_quit_eq.
  destruct (fq_pressed (pumped _)); [reflexivity|].
  destruct timestamp, relative_to; reflexivity.
Qed.

Lemma check_force_quit_state :
  forall keys w,
    snd (Keyboard.check_force_quit keys w)
    = match keys with
      | KeysNone => pumped w
      | _ => w
      end.
Proof.
  intros [|s|l|ty] w.
  - now rewrite check_force_quit_none_eq.
  - rewrite check_force_quit_str_eq, check_force_quit_list_eq. reflexivity.
  - now rewrite check_force_quit_list_eq.
  - reflexivity.
Qed.

Lemma get_presses_state :
  forall live_keys timestamp relative_to w,
    let pressed := live_presses live_keys (pumped w) in
    snd (Keyboard.get_presses live_keys timestamp relative_to w)
    = if needs_session timestamp relative_to (kb_listen_start (kb w)) then w
      else match pressed with
           | [] => pumped w
           | _ :: _ =>
               add_press_log (corrected_presses (kb_time_correction (kb w)) pressed)
                             (pumped w)
           end.
Proof.
  intros. rewrite get_presses_eq.
  destruct timestamp, relative_to, (kb_listen_start (kb w));
    cbn [needs_session]; try reflexivity;
    apply (correct_presses_state _ _ _ (pumped w)).
Qed.

Lemma get_clicks_state :
  forall live_buttons timestamp relative_to w,
    let clicked := live_clicks live_buttons (pumped w) in
    snd (Mouse.get_clicks live_buttons timestamp relative_to w)
    = if needs_session timestamp relative_to (ms_listen_start (ms w)) then w
      else match clicked with
           | [] => pumped w
           | _ :: _ =>
               pumped (add_click_log
                         (corrected_clicks (ms_time_correction (ms w)) clicked)
                         (pumped w))
           end.
Proof.
  intros. rewrite get_clicks_eq.
  destruct timestamp, relative_to, (ms_listen_start (ms w));
    cbn [needs_session]; try reflexivity;
    apply (correct_clicks_state _ _ _ (pumped w)).
Qed.

(** X6.  No retrieval takes an event out of a buffer: after
    [_retrieve_keyboard_events], [check_force_quit], [_correct_presses],
    [get_presses], [_retrieve_mouse_events], [_correct_clicks] or
    [get_clicks], whether they return or raise, the keyboard buffer and
    the mouse buffer are the old ones with, possibly, new events at the
    end.  (Only [_clear_events] empties a buffer.) *)
Theorem retrievals_keep_the_buffers :
  forall (w : world),
    (forall live_keys,
        buffers_extend w (snd (Keyboard._retrieve_keyboard_events live_keys w))) /\
    (forall keys, buffers_extend w (snd (Keyboard.check_force_quit keys w))) /\
    (forall pressed timestamp relative_to,
        buffers_extend w (snd (Keyboard._correct_presses pressed timestamp relative_to w))) /\
    (forall live_keys timestamp relative_to,
        buffers_extend w (snd (Keyboard.get_presses live_keys timestamp relative_to w))) /\
    (forall live_buttons,
        buffers_extend w (snd (Mouse._retrieve_mouse_events live_buttons w))) /\
    (forall clicked timestamp relative_to,
        buffers_extend w (snd (Mouse._correct_clicks clicked timestamp relative_to w))) /\
    (forall live_buttons timestamp relative_to,
        buffers_extend w (snd (Mouse.get_clicks live_buttons timestamp relative_to w))).
Proof.
  intros w.
  assert (P1 : buffers_extend w (pumped w)) by apply buffers_extend_pumped.
  assert (P2 : forall l, buffers_extend w (pumped (add_click_log l (pumped w)))).
  { intros l. apply (buffers_extend_trans _ (pumped w)); [exact P1|].
    exact (buffers_extend_pumped (add_click_log l (pumped w))). }
  split; [|split; [|split; [|split; [|split; [|split]]]]].
  - intros live_keys. rewrite retrieve_keyboard_eq. exact P1.
  - intros keys. rewrite check_force_quit_state.
    destruct keys; [exact P1 | apply buffers_extend_refl ..].
  - intros pressed timestamp relative_to. rewrite correct_presses_state.
    destruct pressed; exact (buffers_extend_refl w).
  - intros live_keys timestamp relative_to. rewrite get_presses_state.
    destruct (needs_session _ _ _); [apply buffers_extend_refl|].
    destruct (live_presses _ _); exact P1.
  - intros live_buttons. rewrite retrieve_mouse_eq. exact P1.
  - intros clicked timestamp relative_to. rewrite correct_clicks_state.
    destruct clicked; [apply buffers_extend_refl|].
    exact (buffers_extend_pumped (add_click_log _ w)).
  - intros live_buttons timestamp relative_to. rewrite get_clicks_state.
    destruct (needs_session _ _ _); [apply buffers_extend_refl|].
    destruct (live_clicks _ _); [exact P1 | apply P2].
Qed.

Lemma live_presses_pumped :
  forall live_keys w,
    live_presses live_keys (pumped w)
    = live_presses live_keys w
      ++ filter (Keyboard.key_is_live (augmented (force_quit_keys (kb w)) live_keys))
                (stamp_keys (now w + clock_skew (cfg w)) (arrived w)).
Proof.
  intros. unfold live_presses. now rewrite pumped_fq, pumped_kbuf, filter_app.
Qed.

Lemma live_clicks_pumped :
  forall live_buttons w,
    live_clicks live_buttons (pumped w)
    = live_clicks live_buttons w
      ++ filter (Mouse.button_is_live live_buttons)
                (stamp_clicks (now w + clock_skew (cfg w)) (arrived w)).
Proof.
  intros. unfold live_clicks. now rewrite pumped_mbuf, filter_app.
Qed.

(** X7.  [get_presses] returns the same events again at the next call: if
    a call has returned the list [l1], the same call made next returns
    [l1] followed by the events that have come in since (or raises
    [ForceQuit] if a force-quit key is among them), and the recorder is
    handed the old events a second time. *)
Theorem get_presses_repeats_events :
  forall (live_keys : option (list pyval)) (timestamp : bool) (r : Z)
         (w : world) (l1 : list press_out),
    fst (Keyboard.get_presses live_keys timestamp (Some r) w) = Ok l1 ->
    let w1 := snd (Keyboard.get_presses live_keys timestamp (Some r) w) in
    let c := kb_time_correction (kb w) in
    let fresh_events :=
      filter (Keyboard.key_is_live (augmented (force_quit_keys (kb w)) live_keys))
             (stamp_keys (now w1 + clock_skew (cfg w)) (arrived w1)) in
    let '(out, w2) := Keyboard.get_presses live_keys timestamp (Some r) w1 in
    out = (if fq_pressed w2 then Raise ForceQuit
           else Ok (l1 ++ map (reported_press c timestamp r) fresh_events)) /\
    (l1 <> [] ->
     exists old,
       press_log w2
       = press_log w
         ++ [old; old ++ corrected_presses c fresh_events] /\
       map fst old = map fst (live_presses live_keys (pumped w))).
Proof.
  intros live_keys timestamp r w l1 H1 w1 c fresh_events.
  pose proof (get_presses_state live_keys timestamp (Some r) w) as S1.
  fold w1 in S1. cbv zeta in S1.
  assert (N1 : needs_session timestamp (Some r) (kb_listen_start (kb w)) = false)
    by (destruct timestamp; reflexivity).
  rewrite N1 in S1.
  assert (E1 : fst (Keyboard.get_presses live_keys timestamp (Some r) w)
               = if fq_pressed (pumped w) then Raise ForceQuit
                 else Ok (map (reported_press c timestamp r)
                              (live_presses live_keys (pumped w)))).
  { rewrite get_presses_eq.
    assert (E : fst (Keyboard._correct_presses (live_presses live_keys (pumped w))
                       timestamp (Some r) (pumped w))
                = if fq_pressed (pumped w) then Raise ForceQuit
                  else Ok (map (reported_press c timestamp r)
                               (live_presses live_keys (pumped w)))).
    { rewrite correct_presses_eq.
      pose proof (quit_key_among_live live_keys (pumped w)) as Q.
      destruct (live_presses live_keys (pumped w)); [now rewrite <- Q|].
      cbv zeta. cbn [fst]. now rewrite Q. }
    destruct timestamp, (kb_listen_start (kb w)); exact E. }
  rewrite E1 in H1. destruct (fq_pressed (pumped w)) eqn:Hq; [discriminate|].
  injection H1 as <-.
  assert (K1 : kb w1 = kb (pumped w) /\ now w1 = now (pumped w) /\
               pending w1 = pending (pumped w) /\ cfg w1 = cfg w).
  { rewrite S1. destruct (live_presses live_keys (pumped w)); repeat split. }
  destruct K1 as (Kb & Kn & Kp & Kc).
  assert (L2 : live_presses live_keys (pumped w1)
               = live_presses live_keys (pumped w) ++ fresh_events).
  { rewrite live_presses_pumped. unfold fresh_events, live_presses, arrived.
    rewrite Kb, Kn, Kp, Kc. reflexivity. }
  assert (E2 : Keyboard.get_presses live_keys timestamp (Some r) w1
               = Keyboard._correct_presses (live_presses live_keys (pumped w1))
                   timestamp (Some r) (pumped w1)).
  { rewrite get_presses_eq. destruct timestamp, (kb_listen_start (kb w1)); reflexivity. }
  rewrite E2, correct_presses_eq.
  pose proof (quit_key_among_live live_keys (pumped w1)) as Q2.
  assert (C2 : kb_time_correction (kb (pumped w1)) = c)
    by (change (kb_time_correction (kb (pumped w1))) with (kb_time_correction (kb w1));
        now rewrite Kb).
  assert (G1 : press_log (pumped w1)
               = press_log w
                 ++ match live_presses live_keys (pumped w) with
                    | [] => []
                    | _ :: _ => [corrected_presses c (live_presses live_keys (pumped w))]
                    end).
  { change (press_log (pumped w1)) with (press_log w1). rewrite S1.
    destruct (live_presses live_keys (pumped w)); cbn [press_log add_press_log];
      [now rewrite app_nil_r | reflexivity]. }
  rewrite L2 in *. clear L2 E2 S1.
  destruct (live_presses live_keys (pumped w)) as [|e rest].
  - cbn [app map] in *. destruct fresh_events as [|e2 rest2].
    + rewrite <- Q2. split; [reflexivity|]. intros Hne. now elim Hne.
    + cbv zeta. change (fq_pressed (add_press_log _ ?s)) with (fq_pressed s).
      rewrite Q2, C2. split; [reflexivity|]. intros Hne. now elim Hne.
  - cbn [app] in *. cbv zeta.
    change (fq_pressed (add_press_log _ ?s)) with (fq_pressed s).
    rewrite Q2, C2. split.
    + destruct (fq_pressed (pumped w1)); [reflexivity|].
      f_equal. cbn [map]. now rewrite map_app.
    + intros _. exists (corrected_presses c (e :: rest)). split.
      * cbn [press_log add_press_log]. rewrite G1, <- app_assoc. cbn [app].
        do 3 f_equal. unfold corrected_presses. cbn [map]. now rewrite map_app.
      * apply map_fst_corrected.
Qed.

Lemma get_presses_repeats_events_witness :
  let w := fresh cfg0 2 [(1, press "a"); (3, press "b"); (9, press "c")] in
  let w1 := snd (Keyboard.get_presses None false (Some 0) w) in
  let c := kb_time_correction (kb w) in
  let fresh_events :=
    filter (Keyboard.key_is_live (augmented (force_quit_keys (kb w)) None))
           (stamp_keys (now w1 + clock_skew (cfg w)) (arrived w1)) in
  let '(out, w2) := Keyboard.get_presses None false (Some 0) w1 in
  out = (if fq_pressed w2 then Raise ForceQuit
         else Ok ([Bare "a"] ++ map (reported_press c false 0) fresh_events)) /\
  ([Bare "a"] <> [] ->
   exists old,
     press_log w2
     = press_log w ++ [old; old ++ corrected_presses c fresh_events] /\
     map fst old = map fst (live_presses None (pumped w))).
Proof.
  intros w.
  exact (get_presses_repeats_events None false 0 w [Bare "a"] eq_refl).
Defined.

(** Two [get_presses] calls in a row: [a] is returned, and logged, twice. *)
Example get_presses_repeats_sample :
  let w := fresh cfg0 2 [(1, press "a"); (3, press "b"); (9, press "c")] in
  let w1 := snd (Keyboard.get_presses None false None w) in
  let w2 := snd (Keyboard.get_presses None false None w1) in
  fst (Keyboard.get_presses None false None w) = Ok [Bare "a"] /\
  fst (Keyboard.get_presses None false None w1) = Ok [Bare "a"; Bare "b"] /\
  press_log w2 = [[("a"%string, 2)]; [("a"%string, 2); ("b"%string, 3)]].
Proof. vm_compute. repeat split. Qed.

(* ================================================================== *)
(** ** A force-quit key stays in the buffer *)

Lemma fq_pressed_pumped :
  forall w, fq_pressed w = true -> fq_pressed (pumped w) = true.
Proof.
  intros w H. unfold fq_pressed in *.
  rewrite pumped_fq, pumped_kbuf, existsb_app, H. reflexivity.
Qed.

Lemma fq_pressed_polled :
  forall n w, fq_pressed w = true -> fq_pressed (polled n w) = true.
Proof.
  induction n as [|n IH]; intros w H; [exact H|].
  change (polled (S n) w) with (pumped (polled n w)).
  apply fq_pressed_pumped, IH, H.
Qed.

Lemma fq_pressed_settled :
  forall min_wait w, fq_pressed w = true -> fq_pressed (settled min_wait w) = true.
Proof.
  intros min_wait w H. unfold settled. apply fq_pressed_pumped.
  unfold fq_pressed in *. now rewrite slept_kb.
Qed.

(** X8.  Raising [ForceQuit] does not take the force-quit key out of the
    keyboard buffer.  Once the buffer holds one, it still does after any
    number of pumps; [check_force_quit()] and [get_presses] (with any
    filter) raise [ForceQuit] and leave it there, so the next call raises
    again; [_correct_clicks] raises for any retrieved clicks; and each of
    the four waits raises at the end of its settle delay.
    [listen_presses] is what removes it, without raising;
    [listen_clicks] does not. *)
Theorem force_quit_key_stays :
  forall (w : world),
    fq_pressed w = true ->
    (forall n, fq_pressed (polled n w) = true) /\
    (let '(out, w') := Keyboard.check_force_quit KeysNone w in
     out = Raise ForceQuit /\ fq_pressed w' = true) /\
    (forall live_keys timestamp relative_to,
        needs_session timestamp relative_to (kb_listen_start (kb w)) = false ->
        let '(out, w') := Keyboard.get_presses live_keys timestamp relative_to w in
        out = Raise ForceQuit /\ fq_pressed w' = true) /\
    (forall e rest timestamp r,
        let '(out, w') := Mouse._correct_clicks (e :: rest) timestamp (Some r) w in
        out = Raise ForceQuit /\ fq_pressed w' = true) /\
    (forall fuel max_wait min_wait timestamp relative_to live_keys live_buttons,
        min_wait <> PInf ->
        valid_wait max_wait min_wait live_keys = true ->
        valid_wait max_wait min_wait live_buttons = true ->
        Keyboard.wait_one_press fuel max_wait min_wait live_keys timestamp relative_to w
        = (Raise ForceQuit, settled min_wait w) /\
        Keyboard.wait_for_presses fuel max_wait min_wait live_keys timestamp relative_to w
        = (Raise ForceQuit, settled min_wait w) /\
        Mouse.wait_one_click fuel max_wait min_wait live_buttons timestamp relative_to w
        = (Raise ForceQuit, settled min_wait w) /\
        Mouse.wait_for_clicks fuel max_wait min_wait live_buttons timestamp relative_to w
        = (Raise ForceQuit, settled min_wait w) /\
        fq_pressed (settled min_wait w) = true) /\
    Keyboard.listen_presses w = (Ok tt, snd (Keyboard.listen_presses w)) /\
    fq_pressed (snd (Keyboard.listen_presses w)) = false /\
    fq_pressed (snd (Mouse.listen_clicks w)) = true.
Proof.
  intros w H.
  pose proof (fq_pressed_pumped w H) as Hp.
  split; [|split; [|split; [|split; [|split; [|split; [|split]]]]]].
  - intros n. now apply fq_pressed_polled.
  - rewrite check_force_quit_none_eq, Hp. now split.
  - intros live_keys timestamp relative_to Hs.
    pose proof (get_presses_quit live_keys timestamp relative_to w Hs) as E.
    rewrite Hp in E.
    pose proof (get_presses_state live_keys timestamp relative_to w) as S.
    cbv zeta in S. rewrite Hs in S.
    destruct (Keyboard.get_presses live_keys timestamp relative_to w) as [out w'].
    cbn [fst snd] in E, S. split; [exact E|]. rewrite S.
    destruct (live_presses live_keys (pumped w)); exact Hp.
  - intros e rest timestamp r. rewrite correct_clicks_eq. cbv zeta.
    change (fq_pressed (pumped (add_click_log _ ?s))) with (fq_pressed (pumped s)).
    rewrite Hp. now split.
  - intros fuel max_wait min_wait timestamp relative_to live_keys live_buttons
           Hmin Hk Hb.
    pose proof (fq_pressed_settled min_wait w H) as Hq.
    pose proof (init_wait_press_quit _ _ _ timestamp relative_to _ Hk Hmin Hq) as Ik.
    pose proof (init_wait_click_quit _ _ _ timestamp relative_to _ Hb Hmin Hq) as Ib.
    destruct (proj1 (waits_stop_in_init fuel _ _ _ _ _ live_keys live_buttons _ _) Ik)
      as [-> ->].
    destruct (proj2 (waits_stop_in_init fuel _ _ _ _ _ live_keys live_buttons _ _) Ib)
      as [-> ->].
    auto.
  - now rewrite listen_presses_eq.
  - now rewrite listen_presses_eq.
  - rewrite listen_clicks_eq. cbn [snd].
    change (fq_pressed (clear_mouse (pumped (set_ms ?m ?s))))
      with (fq_pressed (pumped s)).
    exact Hp.
Qed.

Lemma force_quit_key_stays_witness :
  let w := mkWorld cfg0 5 [] (mkKeyboard ["escape"%string] None 0 [("escape"%string, 1)])
                   (mkMouse None 0 []) [] [] [] in
  fq_pressed (polled 3 w) = true /\
  (let '(out, w') := Keyboard.get_presses (Some []) false None w in
   out = Raise ForceQuit /\ fq_pressed w' = true) /\
  Mouse.wait_one_click 7 (Fin 10) (Fin 2) None false None w
  = (Raise ForceQuit, settled (Fin 2) w) /\
  fq_pressed (snd (Keyboard.listen_presses w)) = false.
Proof.
  intros w.
  assert (Q : fq_pressed w = true) by reflexivity.
  destruct (force_quit_key_stays w Q) as (P & _ & G & _ & W & _ & L & _).
  split; [exact (P 3%nat)|].
  split; [exact (G (Some []) false None eq_refl)|].
  split; [|exact L].
  assert (Hmin : Fin 2 <> PInf) by discriminate.
  assert (Vk : valid_wait (Fin 10) (Fin 2) (@None (list pyval)) = true) by reflexivity.
  assert (Vb : valid_wait (Fin 10) (Fin 2) (@None (list string)) = true) by reflexivity.
  destruct (W 7%nat (Fin 10) (Fin 2) false None None None Hmin Vk Vb)
    as (_ & _ & W3 & _).
  exact W3.
Defined.

(* ================================================================== *)
(** ** Waits that never end, bounds that are refused *)

Lemma flt_inf : forall x, flt (Fin x) PInf = true.
Proof. reflexivity. Qed.

Lemma polling_start_buffers :
  forall min_wait w,
    _keyboard_buffer (kb (press_polling_start min_wait w)) = [] /\
    _mouse_buffer (ms (click_polling_start min_wait w)) = [].
Proof. intros. split; reflexivity. Qed.

(** X9.  With an infinite [max_wait] (and a filter that is not the empty
    list, so that the arguments are accepted) [wait_for_presses] and
    [wait_for_clicks] never return once the settle delay is over,
    whatever is pressed: their loops have no other exit, and the
    force-quit check comes after the loop.  [wait_one_press] and
    [wait_one_click] never return if no event arrives. *)
Theorem unbounded_waits_never_return :
  forall (fuel : nat) (min_wait : pyfloat) (timestamp : bool)
         (relative_to : option Z) (w : world)
         (live_keys : option (list pyval)) (live_buttons : option (list string)),
    min_wait <> PInf ->
    fq_pressed (settled min_wait w) = false ->
    valid_wait PInf min_wait live_keys = true ->
    valid_wait PInf min_wait live_buttons = true ->
    fst (Keyboard.wait_for_presses fuel PInf min_wait live_keys
           timestamp relative_to w) = Diverge /\
    fst (Mouse.wait_for_clicks fuel PInf min_wait live_buttons
           timestamp relative_to w) = Diverge /\
    (pending w = [] ->
     fst (Keyboard.wait_one_press fuel PInf min_wait live_keys
            timestamp relative_to w) = Diverge /\
     fst (Mouse.wait_one_click fuel PInf min_wait live_buttons
            timestamp relative_to w) = Diverge).
Proof.
  intros fuel min_wait timestamp relative_to w live_keys live_buttons Hmin Hq Hk Hb.
  split; [|split].
  - destruct (wait_for_presses_run PInf min_wait timestamp relative_to w Hmin Hq
                live_keys fuel Hk) as [Hd | (n & _ & Hend & _)]; [exact Hd|].
    rewrite flt_inf in Hend. discriminate.
  - destruct (wait_for_clicks_run PInf min_wait timestamp relative_to w Hmin Hq
                live_buttons fuel Hb) as [Hd | (n & _ & Hend & _)]; [exact Hd|].
    rewrite flt_inf in Hend. discriminate.
  - intros Hidle.
    destruct (polling_start_idle min_wait w Hidle) as [Ik Ib].
    destruct (polling_start_buffers min_wait w) as [Bk Bb].
    split.
    + destruct (wait_one_press_run PInf min_wait timestamp relative_to w Hmin Hq
                  live_keys fuel Hk) as [Hd | (n & _ & Hend & _)]; [exact Hd|].
      destruct (polled_idle n _ Ik) as (_ & B & _).
      unfold live_presses in Hend. rewrite B, Bk, flt_inf in Hend.
      destruct Hend as [Hne | Ht]; [now elim Hne | discriminate].
    + destruct (wait_one_click_run PInf min_wait timestamp relative_to w Hmin Hq
                  live_buttons fuel Hb) as [Hd | (n & _ & Hend & _)]; [exact Hd|].
      destruct (polled_idle n _ Ib) as (_ & _ & B).
      unfold live_clicks in Hend. rewrite B, Bb, flt_inf in Hend.
      destruct Hend as [Hne | Ht]; [now elim Hne | discriminate].
Qed.

Lemma unbounded_waits_never_return_witness :
  let w := fresh cfg0 0 [] in
  fst (Keyboard.wait_for_presses 50 PInf (Fin 1) None false None w) = Diverge /\
  fst (Keyboard.wait_one_press 50 PInf (Fin 1) None false None w) = Diverge.
Proof.
  intros w.
  assert (Hmin : Fin 1 <> PInf) by discriminate.
  assert (Hq : fq_pressed (settled (Fin 1) w) = false) by reflexivity.
  assert (Vk : valid_wait PInf (Fin 1) (@None (list pyval)) = true) by reflexivity.
  assert (Vb : valid_wait PInf (Fin 1) (@None (list string)) = true) by reflexivity.
  destruct (unbounded_waits_never_return 50 (Fin 1) false None w None None
              Hmin Hq Vk Vb) as (H1 & _ & H3).
  split; [exact H1|]. exact (proj1 (H3 eq_refl)).
Defined.

(** A force-quit key pressed during [wait_for_presses(max_wait=inf)] does
    not end it (the fuel runs out whatever it is), while it ends
    [wait_one_press(max_wait=inf)]. *)
Example unbounded_wait_sample :
  let w := fresh cfg0 0 [(4, press "escape"); (5, press "a")] in
  fst (Keyboard.wait_for_presses 200 PInf (Fin 1) (Some [PStr "a"]) false None w)
  = Diverge /\
  fst (Keyboard.wait_one_press 200 PInf (Fin 1) (Some [PStr "a"]) false None w)
  = Raise ForceQuit.
Proof. vm_compute. repeat split. Qed.

(** X10.  A NaN bound is refused: if [max_wait] or [min_wait] is NaN, each
    of the four waits raises [ValueError] and leaves the state as it was,
    because the test is written [not min_wait <= max_wait]. *)
Theorem nan_bounds_are_refused :
  forall (fuel : nat) (max_wait min_wait : pyfloat) (timestamp : bool)
         (relative_to : option Z) (w : world)
         (live_keys : option (list pyval)) (live_buttons : option (list string)),
    max_wait = NaN \/ min_wait = NaN ->
    let msg_k := if andb (isinf max_wait) (no_live live_keys)
                 then msg_inf_no_keys else msg_min_max in
    let msg_b := if andb (isinf max_wait) (no_live live_buttons)
                 then msg_inf_no_buttons else msg_min_max in
    Keyboard.wait_one_press fuel max_wait min_wait live_keys timestamp relative_to w
    = (Raise (ValueError msg_k), w) /\
    Keyboard.wait_for_presses fuel max_wait min_wait live_keys timestamp relative_to w
    = (Raise (ValueError msg_k), w) /\
    Mouse.wait_one_click fuel max_wait min_wait live_buttons timestamp relative_to w
    = (Raise (ValueError msg_b), w) /\
    Mouse.wait_for_clicks fuel max_wait min_wait live_buttons timestamp relative_to w
    = (Raise (ValueError msg_b), w) /\
    (max_wait = NaN -> msg_k = msg_min_max /\ msg_b = msg_min_max).
Proof.
  intros fuel max_wait min_wait timestamp relative_to w live_keys live_buttons
         Hnan msg_k msg_b.
  assert (Hle : fle min_wait max_wait = false).
  { destruct Hnan as [-> | ->]; [destruct min_wait|]; reflexivity. }
  assert (Vk : valid_wait max_wait min_wait live_keys = false)
    by (unfold valid_wait; rewrite Hle; apply andb_false_r).
  assert (Vb : valid_wait max_wait min_wait live_buttons = false)
    by (unfold valid_wait; rewrite Hle; apply andb_false_r).
  pose proof (init_wait_press_invalid _ _ _ timestamp relative_to w Vk) as Ik.
  pose proof (init_wait_click_invalid _ _ _ timestamp relative_to w Vb) as Ib.
  destruct (proj1 (waits_stop_in_init fuel _ _ _ _ _ live_keys live_buttons _ _) Ik)
    as [-> ->].
  destruct (proj2 (waits_stop_in_init fuel _ _ _ _ _ live_keys live_buttons _ _) Ib)
    as [-> ->].
  do 4 (split; [reflexivity|]).
  intros E. subst msg_k msg_b. rewrite E. split; reflexivity.
Qed.

Lemma nan_bounds_are_refused_witness :
  let w := fresh cfg0 0 [(1, press "a")] in
  Keyboard.wait_one_press 5 (Fin 3) NaN None false None w
  = (Raise (ValueError msg_min_max), w) /\
  Mouse.wait_for_clicks 5 NaN (Fin 0) (Some []) false None w
  = (Raise (ValueError msg_min_max), w).
Proof.
  intros w. split.
  - exact (proj1 (nan_bounds_are_refused 5 (Fin 3) NaN false None w None None
                    (or_intror eq_refl))).
  - exact (proj1 (proj2 (proj2 (proj2
             (nan_bounds_are_refused 5 NaN (Fin 0) false None w (Some []) (Some [])
                (or_introl eq_refl)))))).
Defined.

(* ================================================================== *)
(** ** What a wait that returns has been through *)

Section ReturnedWaits.

Variables (fuel : nat) (max_wait min_wait : pyfloat) (timestamp : bool)
          (relative_to : option Z) (w : world).
Hypothesis min_finite : min_wait <> PInf.

Lemma wait_for_presses_returned :
  forall live_keys l,
    fst (Keyboard.wait_for_presses fuel max_wait min_wait live_keys
           timestamp relative_to w) = Ok l ->
    valid_wait max_wait min_wait live_keys = true /\
    exists n,
      let w1 := polled n (press_polling_start min_wait w) in
      Keyboard.wait_for_presses fuel max_wait min_wait live_keys timestamp relative_to w
      = Keyboard._correct_presses (live_presses live_keys w1) timestamp
          (Some (origin relative_to (now w))) w1 /\
      flt (Fin (now w1 - now w)) max_wait = false /\
      forall m, (m < n)%nat ->
                flt (Fin (now (polled m (press_polling_start min_wait w)) - now w))
                    max_wait = true.
Proof.
  intros live_keys l H.
  destruct (valid_wait max_wait min_wait live_keys) eqn:Hv.
  - split; [reflexivity|].
    destruct (fq_pressed (settled min_wait w)) eqn:Hq.
    + pose proof (init_wait_press_quit _ _ _ timestamp relative_to _ Hv min_finite Hq) as Hi.
      destruct (proj1 (waits_stop_in_init fuel _ _ _ _ _ live_keys (@None (list string)) _ _) Hi)
        as [_ E]. rewrite E in H. discriminate.
    + destruct (wait_for_presses_run max_wait min_wait timestamp relative_to w
                  min_finite Hq live_keys fuel Hv) as [Hd | (n & R)].
      * rewrite Hd in H. discriminate.
      * exists n. exact R.
  - pose proof (init_wait_press_invalid _ _ _ timestamp relative_to w Hv) as Hi.
    destruct (proj1 (waits_stop_in_init fuel _ _ _ _ _ live_keys (@None (list string)) _ _) Hi)
      as [_ E]. rewrite E in H. discriminate.
Qed.

Lemma wait_one_press_returned :
  forall live_keys v,
    fst (Keyboard.wait_one_press fuel max_wait min_wait live_keys
           timestamp relative_to w) = Ok v ->
    valid_wait max_wait min_wait live_keys = true /\
    exists n,
      let wc := press_polling_start min_wait w in
      Keyboard.wait_one_press fuel max_wait min_wait live_keys timestamp relative_to w
      = match live_presses live_keys (polled n wc) with
        | [] => (Ok (nothing timestamp), polled n wc)
        | e :: rest =>
            (if has_quit_key (force_quit_keys (kb (polled n wc))) (map fst (e :: rest))
             then Raise ForceQuit
             else Ok (One (reported_press (kb_time_correction (kb (polled n wc)))
                                          timestamp (origin relative_to (now w)) e)),
             add_press_log
               (corrected_presses (kb_time_correction (kb (polled n wc))) (e :: rest))
               (polled n wc))
        end /\
      (live_presses live_keys (polled n wc) <> [] \/
       flt (Fin (now (polled n wc) - now w)) max_wait = false) /\
      forall m, (m < n)%nat ->
                live_presses live_keys (polled m wc) = [] /\
                flt (Fin (now (polled m wc) - now w)) max_wait = true.
Proof.
  intros live_keys v H.
  destruct (valid_wait max_wait min_wait live_keys) eqn:Hv.
  - split; [reflexivity|].
    destruct (fq_pressed (settled min_wait w)) eqn:Hq.
    + pose proof (init_wait_press_quit _ _ _ timestamp relative_to _ Hv min_finite Hq) as Hi.
      destruct (proj1 (waits_stop_in_init fuel _ _ _ _ _ live_keys (@None (list string)) _ _) Hi)
        as [E _]. rewrite E in H. discriminate.
    + destruct (wait_one_press_run max_wait min_wait timestamp relative_to w
                  min_finite Hq live_keys fuel Hv) as [Hd | (n & R)].
      * rewrite Hd in H. discriminate.
      * exists n. exact R.
  - pose proof (init_wait_press_invalid _ _ _ timestamp relative_to w Hv) as Hi.
    destruct (proj1 (waits_stop_in_init fuel _ _ _ _ _ live_keys (@None (list string)) _ _) Hi)
      as [E _]. rewrite E in H. discriminate.
Qed.

Lemma wait_for_clicks_returned :
  forall live_buttons l,
    fst (Mouse.wait_for_clicks fuel max_wait min_wait live_buttons
           timestamp relative_to w) = Ok l ->
    valid_wait max_wait min_wait live_buttons = true /\
    exists n,
      let w1 := polled n (click_polling_start min_wait w) in
      Mouse.wait_for_clicks fuel max_wait min_wait live_buttons timestamp relative_to w
      = Mouse._correct_clicks (live_clicks live_buttons w1) timestamp
          (Some (origin relative_to (now w))) w1 /\
      flt (Fin (now w1 - now w)) max_wait = false /\
      forall m, (m < n)%nat ->
                flt (Fin (now (polled m (click_polling_start min_wait w)) - now w))
                    max_wait = true.
Proof.
  intros live_buttons l H.
  destruct (valid_wait max_wait min_wait live_buttons) eqn:Hv.
  - split; [reflexivity|].
    destruct (fq_pressed (settled min_wait w)) eqn:Hq.
    + pose proof (init_wait_click_quit _ _ _ timestamp relative_to _ Hv min_finite Hq) as Hi.
      destruct (proj2 (waits_stop_in_init fuel _ _ _ _ _ (@None (list pyval)) live_buttons _ _) Hi)
        as [_ E]. rewrite E in H. discriminate.
    + destruct (wait_for_clicks_run max_wait min_wait timestamp relative_to w
                  min_finite Hq live_buttons fuel Hv) as [Hd | (n & R)].
      * rewrite Hd in H. discriminate.
      * exists n. exact R.
  - pose proof (init_wait_click_invalid _ _ _ timestamp relative_to w Hv) as Hi.
    destruct (proj2 (waits_stop_in_init fuel _ _ _ _ _ (@None (list pyval)) live_buttons _ _) Hi)
      as [_ E]. rewrite E in H. discriminate.
Qed.

Lemma wait_one_click_returned :
  forall live_buttons v,
    fst (Mouse.wait_one_click fuel max_wait min_wait live_buttons
           timestamp relative_to w) = Ok v ->
    valid_wait max_wait min_wait live_buttons = true /\
    exists n,
      let wc := click_polling_start min_wait w in
      Mouse.wait_one_click fuel max_wait min_wait live_buttons timestamp relative_to w
      = match live_clicks live_buttons (polled n wc) with
        | [] => (Ok (nothing timestamp), polled n wc)
        | e :: rest =>
            let c := ms_time_correction (ms (polled n wc)) in
            let w' := pumped (add_click_log (corrected_clicks c (e :: rest))
                                            (polled n wc)) in
            (if fq_pressed w' then Raise ForceQuit
             else Ok (One (reported_click c timestamp (origin relative_to (now w)) e)),
             w')
        end /\
      (live_clicks live_buttons (polled n wc) <> [] \/
       flt (Fin (now (polled n wc) - now w)) max_wait = false) /\
      forall m, (m < n)%nat ->
                live_clicks live_buttons (polled m wc) = [] /\
                flt (Fin (now (polled m wc) - now w)) max_wait = true.
Proof.
  intros live_buttons v H.
  destruct (valid_wait max_wait min_wait live_buttons) eqn:Hv.
  - split; [reflexivity|].
    destruct (fq_pressed (settled min_wait w)) eqn:Hq.
    + pose proof (init_wait_click_quit _ _ _ timestamp relative_to _ Hv min_finite Hq) as Hi.
      destruct (proj2 (waits_stop_in_init fuel _ _ _ _ _ (@None (list pyval)) live_buttons _ _) Hi)
        as [E _]. rewrite E in H. discriminate.
    + destruct (wait_one_click_run max_wait min_wait timestamp relative_to w
                  min_finite Hq live_buttons fuel Hv) as [Hd | (n & R)].
      * rewrite Hd in H. discriminate.
      * exists n. exact R.
  - pose proof (init_wait_click_invalid _ _ _ timestamp relative_to w Hv) as Hi.
    destruct (proj2 (waits_stop_in_init fuel _ _ _ _ _ (@None (list pyval)) live_buttons _ _) Hi)
      as [E _]. rewrite E in H. discriminate.
Qed.

End ReturnedWaits.

Lemma polling_start_time :
  forall mn w,
    now (press_polling_start (Fin mn) w)
    = now w + Z.max 0 mn + 2 * poll_cost (cfg w) /\
    now (click_polling_start (Fin mn) w)
    = now w + Z.max 0 mn + 2 * poll_cost (cfg w).
Proof.
  intros. unfold press_polling_start, click_polling_start, clear_keyboard,
    clear_mouse, settled.
  cbn [now add_trace set_kb set_ms]. rewrite !pumped_now, !pumped_cfg.
  cbn [slept cfg now set_now add_trace]. split; lia.
Qed.

(** The clock after [n] polls that were all made before [max_wait] was
    over. *)
Lemma poll_times :
  forall n mx start wc,
    0 <= poll_cost (cfg wc) ->
    (forall m, (m < n)%nat -> flt (Fin (now (polled m wc) - start)) (Fin mx) = true) ->
    now wc <= now (polled n wc) /\
    (n = O \/ now (polled n wc) < start + mx + poll_cost (cfg wc)).
Proof.
  intros n mx start wc Hc Hbefore. rewrite polled_now. split; [nia|].
  destruct n as [|n]; [now left | right].
  assert (Hn : (n < S n)%nat) by lia.
  specialize (Hbefore n Hn). cbn [flt] in Hbefore.
  apply Z.ltb_lt in Hbefore. rewrite polled_now in Hbefore. lia.
Qed.

Lemma valid_wait_finite :
  forall {A} mx mn (live : option (list A)),
    valid_wait (Fin mx) (Fin mn) live = true -> mn <= mx.
Proof.
  intros A mx mn live H. unfold valid_wait in H. cbn [isinf andb negb fle] in H.
  now apply Z.leb_le.
Qed.

Lemma flt_false_ge :
  forall x mx, flt (Fin x) (Fin mx) = false -> mx <= x.
Proof. intros x mx H. cbn [flt] in H. now apply Z.ltb_ge. Qed.

(** X11.  How long a wait that returns has lasted, on the master clock,
    when a pump takes [poll_cost >= 0]: never less than the settle delay
    [min_wait] (plus the two pumps of the force-quit check and of the
    clearing); [wait_for_presses] and [wait_for_clicks], and a
    [wait_one_press] or [wait_one_click] that returns nothing, at least
    [max_wait]; and a [wait_one_press] or [wait_one_click] that returns
    an event less than [max_wait] plus the pumps of its last poll, which
    began before [max_wait] was over. *)
Theorem waits_last_between_their_bounds :
  forall (fuel : nat) (mx mn : Z) (timestamp : bool) (relative_to : option Z)
         (w : world) (live_keys : option (list pyval))
         (live_buttons : option (list string)),
    0 <= poll_cost (cfg w) ->
    let pc := poll_cost (cfg w) in
    (forall l w',
        Keyboard.wait_for_presses fuel (Fin mx) (Fin mn) live_keys
          timestamp relative_to w = (Ok l, w') ->
        now w + mx <= now w' /\
        now w + Z.max 0 mn + 2 * pc <= now w') /\
    (forall l w',
        Mouse.wait_for_clicks fuel (Fin mx) (Fin mn) live_buttons
          timestamp relative_to w = (Ok l, w') ->
        now w + mx <= now w' /\
        now w + Z.max 0 mn + 2 * pc <= now w') /\
    (forall v w',
        Keyboard.wait_one_press fuel (Fin mx) (Fin mn) live_keys
          timestamp relative_to w = (Ok v, w') ->
        now w + Z.max 0 mn + 2 * pc <= now w' /\
        match v with
        | One _ => now w' < now w + mx + pc
        | _ => now w + mx <= now w'
        end) /\
    (forall v w',
        Mouse.wait_one_click fuel (Fin mx) (Fin mn) live_buttons
          timestamp relative_to w = (Ok v, w') ->
        now w + Z.max 0 mn + 2 * pc <= now w' /\
        match v with
        | One _ => now w' < now w + mx + 2 * pc
        | _ => now w + mx <= now w'
        end).
Proof.
  intros fuel mx mn timestamp relative_to w live_keys live_buttons Hc pc.
  assert (Hmin : Fin mn <> PInf) by discriminate.
  destruct (polling_start_time mn w) as [Tk Tb].
  destruct (polling_start_cfg (Fin mn) w) as [Ck Cb].
  fold pc in Tk, Tb.
  split; [|split; [|split]].
  - intros l w' H.
    destruct (wait_for_presses_returned fuel (Fin mx) (Fin mn) timestamp relative_to w
                Hmin live_keys l (f_equal fst H)) as (Hv & n & Heq & Hend & Hbefore).
    apply valid_wait_finite in Hv. apply flt_false_ge in Hend.
    rewrite Heq in H. apply (f_equal snd) in H.
    rewrite correct_presses_state in H. cbn [snd] in H.
    assert (Hn : now w' = now (polled n (press_polling_start (Fin mn) w)))
      by (subst w'; destruct (live_presses _ _); reflexivity).
    destruct (poll_times n mx (now w) (press_polling_start (Fin mn) w))
      as [P1 P2]; [rewrite Ck; exact Hc | exact Hbefore |].
    rewrite Ck in P2. fold pc in P2. rewrite Hn.
    destruct P2 as [-> | P2]; [change (polled 0 ?s) with s in *|]; lia.
  - intros l w' H.
    destruct (wait_for_clicks_returned fuel (Fin mx) (Fin mn) timestamp relative_to w
                Hmin live_buttons l (f_equal fst H)) as (Hv & n & Heq & Hend & Hbefore).
    apply valid_wait_finite in Hv. apply flt_false_ge in Hend.
    rewrite Heq in H. apply (f_equal snd) in H.
    rewrite correct_clicks_state in H. cbn [snd] in H.
    assert (Hn : now w' = now (polled n (click_polling_start (Fin mn) w)) \/
                 now w' = now (polled n (click_polling_start (Fin mn) w)) + pc).
    { subst w'. destruct (live_clicks _ _); [now left | right].
      rewrite pumped_now. cbn [now cfg add_click_log]. now rewrite polled_cfg, Cb. }
    destruct (poll_times n mx (now w) (click_polling_start (Fin mn) w))
      as [P1 P2]; [rewrite Cb; exact Hc | exact Hbefore |].
    rewrite Cb in P2. fold pc in P2.
    destruct P2 as [-> | P2]; [change (polled 0 ?s) with s in *|];
      destruct Hn as [-> | ->]; lia.
  - intros v w' H.
    destruct (wait_one_press_returned fuel (Fin mx) (Fin mn) timestamp relative_to w
                Hmin live_keys v (f_equal fst H)) as (Hv & n & Heq & Hend & Hbefore).
    apply valid_wait_finite in Hv. cbv zeta in Heq, Hend, Hbefore.
    destruct (poll_times n mx (now w) (press_polling_start (Fin mn) w))
      as [P1 P2]; [rewrite Ck; exact Hc | intros m Hm; apply Hbefore, Hm |].
    rewrite Ck in P2. fold pc in P2.
    rewrite Heq in H.
    destruct (live_presses live_keys (polled n (press_polling_start (Fin mn) w)))
      as [|e rest] eqn:Hp.
    + injection H as <- <-.
      destruct Hend as [Hne | Ht]; [now elim Hne|]. apply flt_false_ge in Ht.
      assert (Hnot : match @nothing press_out timestamp with
                     | One _ => False | _ => True end)
        by (destruct timestamp; exact I).
      destruct (nothing timestamp); [contradiction | |];
        (destruct P2 as [-> | P2]; [change (polled 0 ?s) with s in *|]; lia).
    + destruct (has_quit_key _ _); [discriminate|].
      injection H as <- <-. cbn [now add_press_log].
      destruct P2 as [-> | P2].
      * change (polled 0 ?s) with s in Hp. unfold live_presses in Hp.
        rewrite (proj1 (polling_start_buffers (Fin mn) w)) in Hp. discriminate.
      * lia.
  - intros v w' H.
    destruct (wait_one_click_returned fuel (Fin mx) (Fin mn) timestamp relative_to w
                Hmin live_buttons v (f_equal fst H)) as (Hv & n & Heq & Hend & Hbefore).
    apply valid_wait_finite in Hv. cbv zeta in Heq, Hend, Hbefore.
    destruct (poll_times n mx (now w) (click_polling_start (Fin mn) w))
      as [P1 P2]; [rewrite Cb; exact Hc | intros m Hm; apply Hbefore, Hm |].
    rewrite Cb in P2. fold pc in P2.
    rewrite Heq in H.
    destruct (live_clicks live_buttons (polled n (click_polling_start (Fin mn) w)))
      as [|e rest] eqn:Hp.
    + injection H as <- <-.
      destruct Hend as [Hne | Ht]; [now elim Hne|]. apply flt_false_ge in Ht.
      assert (Hnot : match @nothing click_out timestamp with
                     | One _ => False | _ => True end)
        by (destruct timestamp; exact I).
      destruct (nothing timestamp); [contradiction | |];
        (destruct P2 as [-> | P2]; [change (polled 0 ?s) with s in *|]; lia).
    + cbv zeta in H. destruct (fq_pressed (pumped _)); [discriminate|].
      injection H as <- <-. rewrite pumped_now. cbn [now cfg add_click_log].
      rewrite polled_cfg, Cb. fold pc.
      destruct P2 as [-> | P2].
      * change (polled 0 ?s) with s in Hp. unfold live_clicks in Hp.
        rewrite (proj2 (polling_start_buffers (Fin mn) w)) in Hp. discriminate.
      * lia.
Qed.

Lemma waits_last_between_their_bounds_witness :
  let w := fresh cfg0 0 [(5, press "a")] in
  now w + 10 <= now (snd (Keyboard.wait_for_presses 11 (Fin 10) (Fin 2) None false None w)) /\
  now (snd (Keyboard.wait_one_press 11 (Fin 10) (Fin 2) None false None w)) < now w + 10 + 1.
Proof.
  intros w.
  assert (Hc : 0 <= poll_cost (cfg w)) by (cbn; lia).
  destruct (waits_last_between_their_bounds 11 10 2 false None w None None Hc)
    as (F & _ & O & _).
  assert (E1 : fst (Keyboard.wait_for_presses 11 (Fin 10) (Fin 2) None false None w)
               = Ok [Bare "a"]) by (vm_compute; reflexivity).
  assert (E2 : fst (Keyboard.wait_one_press 11 (Fin 10) (Fin 2) None false None w)
               = Ok (One (Bare "a"))) by (vm_compute; reflexivity).
  destruct (Keyboard.wait_for_presses 11 (Fin 10) (Fin 2) None false None w)
    as [o1 s1].
  destruct (Keyboard.wait_one_press 11 (Fin 10) (Fin 2) None false None w)
    as [o2 s2].
  cbn [fst snd] in *. subst o1 o2. split.
  - exact (proj1 (F _ _ eq_refl)).
  - exact (proj2 (O _ _ eq_refl)).
Defined.

(* ================================================================== *)
(** ** The times a wait reports *)

(** What the polls of a wait have put in an empty buffer was stamped at
    the time of one of them. *)
Lemma buffered_presses_origin :
  forall n wc e,
    _keyboard_buffer (kb wc) = [] ->
    In e (_keyboard_buffer (kb (polled n wc))) ->
    exists m, (m < n)%nat /\ snd e = now (polled m wc) + clock_skew (cfg wc).
Proof.
  induction n as [|n IH]; intros wc e Hb Hin.
  - change (polled 0 wc) with wc in Hin. rewrite Hb in Hin. contradiction.
  - change (polled (S n) wc) with (pumped (polled n wc)) in Hin.
    rewrite pumped_kbuf in Hin. apply in_app_iff in Hin. destruct Hin as [Hin | Hin].
    + destruct (IH wc e Hb Hin) as (m & Hm & Et). exists m. split; [lia | exact Et].
    + apply stamp_keys_time in Hin. rewrite polled_cfg in Hin.
      exists n. split; [lia | exact Hin].
Qed.

Lemma buffered_clicks_origin :
  forall n wc e,
    _mouse_buffer (ms wc) = [] ->
    In e (_mouse_buffer (ms (polled n wc))) ->
    exists m, (m < n)%nat /\ snd e = now (polled m wc) + clock_skew (cfg wc).
Proof.
  induction n as [|n IH]; intros wc e Hb Hin.
  - change (polled 0 wc) with wc in Hin. rewrite Hb in Hin. contradiction.
  - change (polled (S n) wc) with (pumped (polled n wc)) in Hin.
    rewrite pumped_mbuf in Hin. apply in_app_iff in Hin. destruct Hin as [Hin | Hin].
    + destruct (IH wc e Hb Hin) as (m & Hm & Et). exists m. split; [lia | exact Et].
    + apply stamp_clicks_time in Hin. rewrite polled_cfg in Hin.
      exists n. split; [lia | exact Hin].
Qed.

Lemma polled_now_ge :
  forall m wc, 0 <= poll_cost (cfg wc) -> now wc <= now (polled m wc).
Proof. intros. rewrite polled_now. nia. Qed.

Section ReportedTimes.

Variables (min_wait : pyfloat) (w : world).
Hypothesis cost : 0 <= poll_cost (cfg w).

(** An event that the polls of a keyboard wait have buffered was stamped
    between the start of polling and the last poll. *)
Lemma press_stamped_while_polling :
  forall live_keys n e,
    In e (live_presses live_keys (polled n (press_polling_start min_wait w))) ->
    now (press_polling_start min_wait w) + clock_skew (cfg w) <= snd e
    <= now (polled n (press_polling_start min_wait w)) + clock_skew (cfg w).
Proof.
  intros live_keys n e Hin.
  unfold live_presses in Hin. apply filter_In in Hin. destruct Hin as [Hin _].
  destruct (buffered_presses_origin n _ _
              (proj1 (polling_start_buffers min_wait w)) Hin) as (m & Hm & Et).
  rewrite (proj1 (polling_start_cfg min_wait w)) in Et.
  rewrite Et, !polled_now, (proj1 (polling_start_cfg min_wait w)). nia.
Qed.

Lemma click_stamped_while_polling :
  forall live_buttons n e,
    In e (live_clicks live_buttons (polled n (click_polling_start min_wait w))) ->
    now (click_polling_start min_wait w) + clock_skew (cfg w) <= snd e
    <= now (polled n (click_polling_start min_wait w)) + clock_skew (cfg w).
Proof.
  intros live_buttons n e Hin.
  unfold live_clicks in Hin. apply filter_In in Hin. destruct Hin as [Hin _].
  destruct (buffered_clicks_origin n _ _
              (proj2 (polling_start_buffers min_wait w)) Hin) as (m & Hm & Et).
  rewrite (proj2 (polling_start_cfg min_wait w)) in Et.
  rewrite Et, !polled_now, (proj2 (polling_start_cfg min_wait w)). nia.
Qed.

End ReportedTimes.

(** X12.  The events a wait returns were stamped by its own polls.  With
    [timestamp=True] and no [relative_to], every time that
    [wait_for_presses], [wait_one_press], [wait_for_clicks] or
    [wait_one_click] returns is [t0 + c - start], for [start] the master
    clock at the start of the wait and [t0] a reading of the device clock
    that is not earlier than the start of polling (the settle delay and
    the clearing are over then) and not later than the return of the
    wait. *)
Theorem reported_times_lie_in_the_wait :
  forall (fuel : nat) (max_wait min_wait : pyfloat) (w : world)
         (live_keys : option (list pyval)) (live_buttons : option (list string)),
    min_wait <> PInf ->
    0 <= poll_cost (cfg w) ->
    let skew := clock_skew (cfg w) in
    (forall l w',
        Keyboard.wait_for_presses fuel max_wait min_wait live_keys true None w
        = (Ok l, w') ->
        Forall (fun p => exists k t0,
                  p = Stamped k (t0 + kb_time_correction (kb w) - now w) /\
                  now (press_polling_start min_wait w) + skew <= t0
                  <= now w' + skew) l) /\
    (forall p w',
        Keyboard.wait_one_press fuel max_wait min_wait live_keys true None w
        = (Ok (One p), w') ->
        exists k t0,
          p = Stamped k (t0 + kb_time_correction (kb w) - now w) /\
          now (press_polling_start min_wait w) + skew <= t0 <= now w' + skew) /\
    (forall l w',
        Mouse.wait_for_clicks fuel max_wait min_wait live_buttons true None w
        = (Ok l, w') ->
        Forall (fun p => exists b x y t0,
                  p = StampedClick b x y (t0 + ms_time_correction (ms w) - now w) /\
                  now (click_polling_start min_wait w) + skew <= t0
                  <= now w' + skew) l) /\
    (forall p w',
        Mouse.wait_one_click fuel max_wait min_wait live_buttons true None w
        = (Ok (One p), w') ->
        exists b x y t0,
          p = StampedClick b x y (t0 + ms_time_correction (ms w) - now w) /\
          now (click_polling_start min_wait w) + skew <= t0 <= now w' + skew).
Proof.
  intros fuel max_wait min_wait w live_keys live_buttons Hmin Hc skew.
  split; [|split; [|split]].
  - intros l w' H.
    destruct (wait_for_presses_returned fuel max_wait min_wait true None w
                Hmin live_keys l (f_equal fst H)) as (_ & n & Heq & _ & _).
    rewrite Heq, correct_presses_eq in H.
    destruct (polled_constants n (press_polling_start min_wait w)) as (_ & C2 & _).
    destruct (polling_start_constants min_wait w) as (_ & S2 & _).
    pose proof (press_stamped_while_polling min_wait w Hc live_keys n) as Hwin.
    destruct (live_presses live_keys (polled n (press_polling_start min_wait w)))
      as [|e rest].
    + injection H as <- _. constructor.
    + cbv zeta in H. destruct (has_quit_key _ _); [discriminate|].
      injection H as <- <-. rewrite C2, S2. cbn [now add_press_log].
      apply Forall_forall. intros p Hp.
      change (In p (map (reported_press (kb_time_correction (kb w)) true (now w))
                        (e :: rest))) in Hp.
      apply in_map_iff in Hp. destruct Hp as ([k t0] & <- & He').
      exists k, t0. split; [reflexivity|]. apply (Hwin (k, t0) He').
  - intros p w' H.
    destruct (wait_one_press_returned fuel max_wait min_wait true None w
                Hmin live_keys _ (f_equal fst H)) as (_ & n & Heq & _ & _).
    cbv zeta in Heq. rewrite Heq in H.
    destruct (polled_constants n (press_polling_start min_wait w)) as (_ & C2 & _).
    destruct (polling_start_constants min_wait w) as (_ & S2 & _).
    pose proof (press_stamped_while_polling min_wait w Hc live_keys n) as Hwin.
    destruct (live_presses live_keys (polled n (press_polling_start min_wait w)))
      as [|[k t0] rest]; [discriminate|].
    destruct (has_quit_key _ _); [discriminate|].
    injection H as <- <-. rewrite C2, S2. cbn [now add_press_log].
    exists k, t0. split; [reflexivity|]. apply (Hwin (k, t0) (or_introl eq_refl)).
  - intros l w' H.
    destruct (wait_for_clicks_returned fuel max_wait min_wait true None w
                Hmin live_buttons l (f_equal fst H)) as (_ & n & Heq & _ & _).
    rewrite Heq, correct_clicks_eq in H.
    destruct (polled_constants n (click_polling_start min_wait w)) as (_ & _ & C3).
    destruct (polling_start_constants min_wait w) as (_ & _ & S3).
    pose proof (click_stamped_while_polling min_wait w Hc live_buttons n) as Hwin.
    assert (Hcfg : cfg (polled n (click_polling_start min_wait w)) = cfg w)
      by (rewrite polled_cfg; apply polling_start_cfg).
    destruct (live_clicks live_buttons (polled n (click_polling_start min_wait w)))
      as [|e rest].
    + injection H as <- _. constructor.
    + cbv zeta in H. destruct (fq_pressed (pumped _)); [discriminate|].
      injection H as <- <-. rewrite C3, S3, pumped_now.
      cbn [now cfg add_click_log]. rewrite Hcfg.
      apply Forall_forall. intros p Hp.
      change (In p (map (reported_click (ms_time_correction (ms w)) true (now w))
                        (e :: rest))) in Hp.
      apply in_map_iff in Hp. destruct Hp as ([[[b x] y] t0] & <- & He').
      exists b, x, y, t0. split; [reflexivity|].
      pose proof (Hwin (b, x, y, t0) He') as B. cbn [snd] in B. lia.
  - intros p w' H.
    destruct (wait_one_click_returned fuel max_wait min_wait true None w
                Hmin live_buttons _ (f_equal fst H)) as (_ & n & Heq & _ & _).
    cbv zeta in Heq. rewrite Heq in H.
    destruct (polled_constants n (click_polling_start min_wait w)) as (_ & _ & C3).
    destruct (polling_start_constants min_wait w) as (_ & _ & S3).
    pose proof (click_stamped_while_polling min_wait w Hc live_buttons n) as Hwin.
    assert (Hcfg : cfg (polled n (click_polling_start min_wait w)) = cfg w)
      by (rewrite polled_cfg; apply polling_start_cfg).
    destruct (live_clicks live_buttons (polled n (click_polling_start min_wait w)))
      as [|[[[b x] y] t0] rest]; [discriminate|].
    destruct (fq_pressed (pumped _)); [discriminate|].
    injection H as <- <-. rewrite C3, S3, pumped_now.
    cbn [now cfg add_click_log]. rewrite Hcfg.
    exists b, x, y, t0. split; [reflexivity|].
    pose proof (Hwin (b, x, y, t0) (or_introl eq_refl)) as B. cbn [snd] in B. lia.
Qed.

Lemma reported_times_lie_in_the_wait_witness :
  let w := fresh (mkConfig 1 7 (-7) (-7)) 0
                 [(3, press "a"); (5, MousePress 1 2 LEFT); (6, press "b")] in
  let wk := snd (Keyboard.wait_one_press 11 (Fin 10) (Fin 2) None true None w) in
  let wm := snd (Mouse.wait_one_click 11 (Fin 10) (Fin 2) None true None w) in
  (exists k t0,
      Stamped "b" 6 = Stamped k (t0 + kb_time_correction (kb w) - now w) /\
      now (press_polling_start (Fin 2) w) + clock_skew (cfg w) <= t0
      <= now wk + clock_skew (cfg w)) /\
  (exists b x y t0,
      StampedClick "left" 1 2 5
      = StampedClick b x y (t0 + ms_time_correction (ms w) - now w) /\
      now (click_polling_start (Fin 2) w) + clock_skew (cfg w) <= t0
      <= now wm + clock_skew (cfg w)).
Proof.
  intros w wk wm.
  assert (Hmin : Fin 2 <> PInf) by discriminate.
  assert (Hc : 0 <= poll_cost (cfg w)) by (cbn; lia).
  destruct (reported_times_lie_in_the_wait 11 (Fin 10) (Fin 2) w None None Hmin Hc)
    as (_ & K & _ & M).
  assert (E1 : fst (Keyboard.wait_one_press 11 (Fin 10) (Fin 2) None true None w)
               = Ok (One (Stamped "b" 6))) by (vm_compute; reflexivity).
  assert (E2 : fst (Mouse.wait_one_click 11 (Fin 10) (Fin 2) None true None w)
               = Ok (One (StampedClick "left" 1 2 5))) by (vm_compute; reflexivity).
  subst wk wm.
  destruct (Keyboard.wait_one_press 11 (Fin 10) (Fin 2) None true None w)
    as [o1 s1].
  destruct (Mouse.wait_one_click 11 (Fin 10) (Fin 2) None true None w)
    as [o2 s2].
  cbn [fst snd] in *. subst o1 o2. split.
  - exact (K _ _ eq_refl).
  - exact (M _ _ eq_refl).
Defined.

(* ================================================================== *)
(** ** The order of the buffered events *)

Section TimeOrder.

Context {A : Type}.
Variable tm : A -> Z.

Lemma same_time_sorted :
  forall T l,
    (forall b, In b l -> tm b = T) ->
    StronglySorted (fun a b => tm a <= tm b) l.
Proof.
  induction l as [|b r IH]; intros H; constructor.
  - apply IH. intros c Hc. apply H. now right.
  - apply Forall_forall. intros c Hc.
    rewrite (H b (or_introl eq_refl)), (H c (or_intror Hc)). lia.
Qed.

Lemma sorted_then_batch :
  forall T l l2,
    StronglySorted (fun a b => tm a <= tm b) l ->
    Forall (fun a => tm a <= T) l ->
    (forall b, In b l2 -> tm b = T) ->
    StronglySorted (fun a b => tm a <= tm b) (l ++ l2).
Proof.
  induction l as [|a r IH]; intros l2 Hs Hle H2.
  - now apply (same_time_sorted T).
  - cbn [app]. inversion Hs as [|? ? Hs' Hall]; subst.
    inversion Hle as [|? ? Ha Hle']; subst. constructor.
    + now apply IH.
    + apply Forall_app. split; [exact Hall|].
      apply Forall_forall. intros c Hc. rewrite (H2 c Hc). exact Ha.
Qed.

Lemma sorted_filter :
  forall (f : A -> bool) l,
    StronglySorted (fun a b => tm a <= tm b) l ->
    StronglySorted (fun a b => tm a <= tm b) (filter f l).
Proof.
  induction l as [|a r IH]; intros Hs; [constructor|].
  inversion Hs as [|? ? Hs' Hall]; subst. cbn [filter].
  destruct (f a); [|now apply IH]. constructor; [now apply IH|].
  apply Forall_forall. intros c Hc. apply filter_In in Hc.
  rewrite Forall_forall in Hall. apply Hall. tauto.
Qed.

Lemma sorted_map :
  forall {B} (g : A -> B) (R : B -> B -> Prop) l,
    (forall a b, tm a <= tm b -> R (g a) (g b)) ->
    StronglySorted (fun a b => tm a <= tm b) l ->
    StronglySorted R (map g l).
Proof.
  intros B g R l Hg. induction l as [|a r IH]; intros Hs; [constructor|].
  inversion Hs as [|? ? Hs' Hall]; subst. cbn [map]. constructor; [now apply IH|].
  apply Forall_forall. intros c Hc. apply in_map_iff in Hc.
  destruct Hc as (b & <- & Hb). apply Hg.
  rewrite Forall_forall in Hall. now apply Hall.
Qed.

End TimeOrder.

Lemma pumped_keeps_press_order :
  forall w,
    0 <= poll_cost (cfg w) ->
    StronglySorted (fun a b : key_event => snd a <= snd b) (_keyboard_buffer (kb w)) /\
    Forall (fun a : key_event => snd a <= now w + clock_skew (cfg w))
           (_keyboard_buffer (kb w)) ->
    StronglySorted (fun a b : key_event => snd a <= snd b)
                   (_keyboard_buffer (kb (pumped w))) /\
    Forall (fun a : key_event => snd a <= now (pumped w) + clock_skew (cfg (pumped w)))
           (_keyboard_buffer (kb (pumped w))).
Proof.
  intros w Hc [Hs Hle]. rewrite pumped_kbuf, pumped_now, pumped_cfg. split.
  - apply (sorted_then_batch snd (now w + clock_skew (cfg w))); [exact Hs | exact Hle|].
    intros b Hb. now apply stamp_keys_time in Hb.
  - apply Forall_app. split.
    + eapply Forall_impl; [|exact Hle]. cbn beta. intros a Ha. lia.
    + apply Forall_forall. intros b Hb. apply stamp_keys_time in Hb. lia.
Qed.

Lemma pumped_keeps_click_order :
  forall w,
    0 <= poll_cost (cfg w) ->
    StronglySorted (fun a b : click_event => snd a <= snd b) (_mouse_buffer (ms w)) /\
    Forall (fun a : click_event => snd a <= now w + clock_skew (cfg w))
           (_mouse_buffer (ms w)) ->
    StronglySorted (fun a b : click_event => snd a <= snd b)
                   (_mouse_buffer (ms (pumped w))) /\
    Forall (fun a : click_event => snd a <= now (pumped w) + clock_skew (cfg (pumped w)))
           (_mouse_buffer (ms (pumped w))).
Proof.
  intros w Hc [Hs Hle]. rewrite pumped_mbuf, pumped_now, pumped_cfg. split.
  - apply (sorted_then_batch snd (now w + clock_skew (cfg w))); [exact Hs | exact Hle|].
    intros b Hb. now apply stamp_clicks_time in Hb.
  - apply Forall_app. split.
    + eapply Forall_impl; [|exact Hle]. cbn beta. intros a Ha. lia.
    + apply Forall_forall. intros b Hb. apply stamp_clicks_time in Hb. lia.
Qed.

Lemma polled_press_order :
  forall n w,
    0 <= poll_cost (cfg w) ->
    _keyboard_buffer (kb w) = [] ->
    StronglySorted (fun a b : key_event => snd a <= snd b)
                   (_keyboard_buffer (kb (polled n w))).
Proof.
  intros n w Hc Hb.
  assert (H : StronglySorted (fun a b : key_event => snd a <= snd b)
                (_keyboard_buffer (kb (polled n w))) /\
              Forall (fun a : key_event =>
                        snd a <= now (polled n w) + clock_skew (cfg (polled n w)))
                     (_keyboard_buffer (kb (polled n w)))).
  { induction n as [|n IH].
    - change (polled 0 w) with w. rewrite Hb. split; constructor.
    - change (polled (S n) w) with (pumped (polled n w)).
      apply pumped_keeps_press_order; [now rewrite polled_cfg | exact IH]. }
  exact (proj1 H).
Qed.

Lemma polled_click_order :
  forall n w,
    0 <= poll_cost (cfg w) ->
    _mouse_buffer (ms w) = [] ->
    StronglySorted (fun a b : click_event => snd a <= snd b)
                   (_mouse_buffer (ms (polled n w))).
Proof.
  intros n w Hc Hb.
  assert (H : StronglySorted (fun a b : click_event => snd a <= snd b)
                (_mouse_buffer (ms (polled n w))) /\
              Forall (fun a : click_event =>
                        snd a <= now (polled n w) + clock_skew (cfg (polled n w)))
                     (_mouse_buffer (ms (polled n w)))).
  { induction n as [|n IH].
    - change (polled 0 w) with w. rewrite Hb. split; constructor.
    - change (polled (S n) w) with (pumped (polled n w)).
      apply pumped_keeps_click_order; [now rewrite polled_cfg | exact IH]. }
  exact (proj1 H).
Qed.

Lemma reported_presses_in_order :
  forall c timestamp r l,
    StronglySorted (fun a b : key_event => snd a <= snd b) l ->
    StronglySorted (fun p q => forall a b, press_time p = Some a ->
                                           press_time q = Some b -> a <= b)
                   (map (reported_press c timestamp r) l).
Proof.
  intros c timestamp r l. apply (sorted_map snd).
  intros [k1 t1] [k2 t2] Hle a b. cbn [snd reported_press] in *.
  destruct timestamp; cbn [press_time]; intros Ha Hb; [|discriminate].
  injection Ha as <-. injection Hb as <-. lia.
Qed.

Lemma reported_clicks_in_order :
  forall c timestamp r l,
    StronglySorted (fun a b : click_event => snd a <= snd b) l ->
    StronglySorted (fun p q => forall a b, click_time p = Some a ->
                                           click_time q = Some b -> a <= b)
                   (map (reported_click c timestamp r) l).
Proof.
  intros c timestamp r l. apply (sorted_map snd).
  intros [[[b1 x1] y1] t1] [[[b2 x2] y2] t2] Hle a b. cbn [snd reported_click] in *.
  destruct timestamp; cbn [click_time]; intros Ha Hb; [|discriminate].
  injection Ha as <-. injection Hb as <-. lia.
Qed.

(** X13.  Events come back in the order of their times.  When a pump takes
    [poll_cost >= 0], the list [wait_for_presses] or [wait_for_clicks]
    returns carries non-decreasing times, and so does every list
    [get_presses] returns in a session, that is at any moment after
    [listen_presses]. *)
Theorem events_come_back_in_time_order :
  forall (fuel : nat) (max_wait min_wait : pyfloat) (timestamp : bool)
         (relative_to : option Z) (w : world)
         (live_keys : option (list pyval)) (live_buttons : option (list string)),
    0 <= poll_cost (cfg w) ->
    min_wait <> PInf ->
    (forall l,
        fst (Keyboard.wait_for_presses fuel max_wait min_wait live_keys
               timestamp relative_to w) = Ok l ->
        StronglySorted (fun p q => forall a b, press_time p = Some a ->
                                               press_time q = Some b -> a <= b) l) /\
    (forall l,
        fst (Mouse.wait_for_clicks fuel max_wait min_wait live_buttons
               timestamp relative_to w) = Ok l ->
        StronglySorted (fun p q => forall a b, click_time p = Some a ->
                                               click_time q = Some b -> a <= b) l) /\
    (forall n l,
        fst (Keyboard.get_presses live_keys true None
               (polled n (snd (Keyboard.listen_presses w)))) = Ok l ->
        StronglySorted (fun p q => forall a b, press_time p = Some a ->
                                               press_time q = Some b -> a <= b) l).
Proof.
  intros fuel max_wait min_wait timestamp relative_to w live_keys live_buttons
         Hc Hmin.
  split; [|split].
  - intros l H.
    destruct (wait_for_presses_returned fuel max_wait min_wait timestamp relative_to w
                Hmin live_keys l H) as (_ & n & Heq & _).
    rewrite Heq, correct_presses_eq in H.
    assert (Hs : StronglySorted (fun a b : key_event => snd a <= snd b)
                   (live_presses live_keys (polled n (press_polling_start min_wait w)))).
    { apply sorted_filter, polled_press_order; [|reflexivity].
      now rewrite (proj1 (polling_start_cfg min_wait w)). }
    destruct (live_presses live_keys (polled n (press_polling_start min_wait w)))
      as [|e rest].
    + injection H as <-. constructor.
    + cbv zeta in H. cbn [fst] in H. destruct (has_quit_key _ _); [discriminate|].
      injection H as <-.
      exact (reported_presses_in_order _ _ _ (e :: rest) Hs).
  - intros l H.
    destruct (wait_for_clicks_returned fuel max_wait min_wait timestamp relative_to w
                Hmin live_buttons l H) as (_ & n & Heq & _).
    rewrite Heq, correct_clicks_eq in H.
    assert (Hs : StronglySorted (fun a b : click_event => snd a <= snd b)
                   (live_clicks live_buttons (polled n (click_polling_start min_wait w)))).
    { apply sorted_filter, polled_click_order; [|reflexivity].
      now rewrite (proj2 (polling_start_cfg min_wait w)). }
    destruct (live_clicks live_buttons (polled n (click_polling_start min_wait w)))
      as [|e rest].
    + injection H as <-. constructor.
    + cbv zeta in H. cbn [fst] in H. destruct (fq_pressed (pumped _)); [discriminate|].
      injection H as <-.
      exact (reported_clicks_in_order _ _ _ (e :: rest) Hs).
  - intros n l H. rewrite listen_presses_eq in H. cbn [snd] in H.
    set (w1 := clear_keyboard _) in H.
    assert (Hs : StronglySorted (fun a b : key_event => snd a <= snd b)
                   (live_presses live_keys (pumped (polled n w1)))).
    { apply sorted_filter.
      change (pumped (polled n w1)) with (polled (S n) w1).
      apply polled_press_order; [exact Hc | reflexivity]. }
    rewrite get_presses_eq in H.
    assert (L : kb_listen_start (kb (polled n w1)) = Some (now w)).
    { clear. induction n as [|n IH]; [reflexivity|].
      change (polled (S n) w1) with (pumped (polled n w1)). exact IH. }
    rewrite L in H. cbv iota in H. rewrite correct_presses_eq in H.
    destruct (live_presses live_keys (pumped (polled n w1))) as [|e rest].
    + injection H as <-. constructor.
    + cbv zeta in H. cbn [fst] in H. destruct (has_quit_key _ _); [discriminate|].
      injection H as <-.
      exact (reported_presses_in_order _ _ _ (e :: rest) Hs).
Qed.

Lemma events_come_back_in_time_order_witness :
  let w := fresh cfg0 0 [(5, press "a"); (7, press "b")] in
  StronglySorted (fun p q => forall a b, press_time p = Some a ->
                                         press_time q = Some b -> a <= b)
                 [Stamped "a" 5; Stamped "b" 7].
Proof.
  intros w.
  assert (Hc : 0 <= poll_cost (cfg w)) by (cbn; lia).
  assert (Hmin : Fin 2 <> PInf) by discriminate.
  destruct (events_come_back_in_time_order 11 (Fin 10) (Fin 2) true None w None None
              Hc Hmin) as (K & _).
  apply K. vm_compute. reflexivity.
Defined.

(* ================================================================== *)
(** ** One window for both monitors *)

Lemma in_stamp_clicks :
  forall t x y b l,
    In (MousePress x y b) l ->
    In (_button_names b, x, y, t) (stamp_clicks t l).
Proof.
  induction l as [|e r IH]; intros H; [contradiction|].
  destruct H as [-> | H].
  - simpl. now left.
  - destruct e; simpl; auto.
Qed.

Lemma in_arrived :
  forall w a e, In (a, e) (pending w) -> a <= now w -> In e (arrived w).
Proof.
  intros w a e Hin Ha. unfold arrived.
  change e with (snd (a, e)). apply in_map. apply filter_In. split; [exact Hin|].
  unfold due. cbn [fst]. now apply Z.leb_le.
Qed.

(** X14.  The two monitors pump the same window, and each handler only
    fills its own buffer: a key press that has arrived when the mouse
    retrieves its events is put in the keyboard buffer, stamped with the
    time of that pump, and the next keyboard retrieval returns it; in the
    same way a click that has arrived when the keyboard retrieves its
    events, or checks for a force-quit, is kept for the mouse. *)
Theorem events_of_the_other_device_are_kept :
  forall (w : world) (a : Z),
    a <= now w ->
    (forall symbol symbol_string emulated live_buttons,
        In (a, KeyPress symbol symbol_string emulated) (pending w) ->
        let w1 := snd (Mouse._retrieve_mouse_events live_buttons w) in
        let e := (key_name symbol symbol_string emulated, now w + clock_skew (cfg w)) in
        In e (_keyboard_buffer (kb w1)) /\
        _mouse_buffer (ms w1)
        = _mouse_buffer (ms w) ++ stamp_clicks (now w + clock_skew (cfg w)) (arrived w) /\
        exists l, fst (Keyboard._retrieve_keyboard_events None w1) = Ok l /\ In e l) /\
    (forall x y b live_keys,
        In (a, MousePress x y b) (pending w) ->
        let w1 := snd (Keyboard._retrieve_keyboard_events live_keys w) in
        let e := (_button_names b, x, y, now w + clock_skew (cfg w)) in
        In e (_mouse_buffer (ms w1)) /\
        exists l, fst (Mouse._retrieve_mouse_events None w1) = Ok l /\ In e l) /\
    (forall x y b,
        In (a, MousePress x y b) (pending w) ->
        let w1 := snd (Keyboard.check_force_quit KeysNone w) in
        let e := (_button_names b, x, y, now w + clock_skew (cfg w)) in
        In e (_mouse_buffer (ms w1)) /\
        exists l, fst (Mouse._retrieve_mouse_events None w1) = Ok l /\ In e l).
Proof.
  intros w a Ha.
  assert (Hm : forall x y b,
             In (a, MousePress x y b) (pending w) ->
             In (_button_names b, x, y, now w + clock_skew (cfg w))
                (_mouse_buffer (ms (pumped w))) /\
             exists l, fst (Mouse._retrieve_mouse_events None (pumped w)) = Ok l /\
                       In (_button_names b, x, y, now w + clock_skew (cfg w)) l).
  { intros x y b Hin.
    assert (He : In (_button_names b, x, y, now w + clock_skew (cfg w))
                    (_mouse_buffer (ms (pumped w)))).
    { rewrite pumped_mbuf. apply in_app_iff. right.
      apply in_stamp_clicks. exact (in_arrived w a _ Hin Ha). }
    split; [exact He|].
    rewrite retrieve_mouse_eq. eexists. split; [reflexivity|].
    unfold live_clicks, Mouse.button_is_live. rewrite filter_true, pumped_mbuf.
    apply in_app_iff. now left. }
  split; [|split].
  - intros symbol symbol_string emulated live_buttons Hin.
    rewrite retrieve_mouse_eq. cbn [snd]. cbv zeta.
    assert (He : In (key_name symbol symbol_string emulated,
                     now w + clock_skew (cfg w))
                    (_keyboard_buffer (kb (pumped w)))).
    { rewrite pumped_kbuf. apply in_app_iff. right.
      apply in_stamp_keys. exact (in_arrived w a _ Hin Ha). }
    split; [exact He|]. split; [apply pumped_mbuf|].
    rewrite retrieve_keyboard_eq. eexists. split; [reflexivity|].
    unfold live_presses, augmented, Keyboard.key_is_live.
    rewrite filter_true, pumped_kbuf. apply in_app_iff. now left.
  - intros x y b live_keys Hin. rewrite retrieve_keyboard_eq. cbn [snd].
    exact (Hm x y b Hin).
  - intros x y b Hin. rewrite check_force_quit_none_eq. cbn [snd].
    exact (Hm x y b Hin).
Qed.

Lemma events_of_the_other_device_are_kept_witness :
  let w := fresh cfg0 5 [(3, press "a"); (4, MousePress 1 2 LEFT)] in
  In ("a"%string, 5) (_keyboard_buffer (kb (snd (Mouse._retrieve_mouse_events None w)))) /\
  In ("left"%string, 1, 2, 5)
     (_mouse_buffer (ms (snd (Keyboard.check_force_quit KeysNone w)))).
Proof.
  intros w.
  assert (H3 : 3 <= now w) by (cbn; lia).
  assert (H4 : 4 <= now w) by (cbn; lia).
  destruct (events_of_the_other_device_are_kept w 3 H3) as (K & _ & _).
  destruct (events_of_the_other_device_are_kept w 4 H4) as (_ & _ & M).
  split.
  - exact (proj1 (K (PStr "a") "a"%string true None (or_introl eq_refl))).
  - exact (proj1 (M 1 2 LEFT (or_intror (or_introl eq_refl)))).
Defined.

(* ================================================================== *)
(** ** What the clearing drops *)

(** X15.  [_clear_events] pumps the window before it resets the buffer,
    and nothing looks at what that pump brings.  So a key that arrives
    after the pump of the force-quit check of [_init_wait_press] and by
    the pump of the clearing is dropped, even if it is a force-quit key:
    [_init_wait_press] returns normally, the key is neither buffered nor
    still to be dispatched, and the wait goes on as if it had not been
    pressed. *)
Theorem clearing_drops_unchecked_keys :
  forall (max_wait min_wait : pyfloat) (timestamp : bool) (relative_to : option Z)
         (w : world) (live_keys : option (list pyval))
         (a : Z) (symbol : pyval) (symbol_string : string) (emulated : bool),
    min_wait <> PInf ->
    valid_wait max_wait min_wait live_keys = true ->
    fq_pressed (settled min_wait w) = false ->
    In (a, KeyPress symbol symbol_string emulated) (pending w) ->
    now (slept min_wait w) < a <= now (settled min_wait w) ->
    let '(out, wc) :=
      Keyboard._init_wait_press max_wait min_wait live_keys timestamp relative_to w in
    out = Ok (default_rel timestamp relative_to (now w), now w) /\
    In (a, KeyPress symbol symbol_string emulated) (pending (settled min_wait w)) /\
    ~ In (a, KeyPress symbol symbol_string emulated) (pending wc) /\
    _keyboard_buffer (kb wc) = [] /\
    fq_pressed wc = false.
Proof.
  intros max_wait min_wait timestamp relative_to w live_keys a symbol symbol_string
         emulated Hmin Hv Hq Hin [Hlo Hhi].
  rewrite (init_wait_press_eq _ _ _ _ _ _ Hv Hmin), Hq.
  split; [reflexivity|]. split; [|split; [|split; reflexivity]].
  - unfold settled, pumped. cbn [pending]. apply filter_In. split.
    + now rewrite slept_pending.
    + unfold due. cbn [fst]. apply negb_true_iff, Z.leb_gt. exact Hlo.
  - cbn [clear_keyboard add_trace set_kb pending].
    apply (pumped_drains (settled min_wait w) (a, KeyPress symbol symbol_string emulated)).
    exact Hhi.
Qed.

Lemma clearing_drops_unchecked_keys_witness :
  let w := fresh cfg0 0 [(3, press "escape")] in
  let '(out, wc) := Keyboard._init_wait_press (Fin 10) (Fin 2) None false None w in
  out = Ok (default_rel false None (now w), now w) /\
  In (3, KeyPress (PStr "escape") "escape" true) (pending (settled (Fin 2) w)) /\
  ~ In (3, KeyPress (PStr "escape") "escape" true) (pending wc) /\
  _keyboard_buffer (kb wc) = [] /\
  fq_pressed wc = false.
Proof.
  intros w.
  assert (Hmin : Fin 2 <> PInf) by discriminate.
  assert (Hb : now (slept (Fin 2) w) < 3 <= now (settled (Fin 2) w)) by (cbn; lia).
  exact (clearing_drops_unchecked_keys (Fin 10) (Fin 2) false None w None
           3 (PStr "escape") "escape"%string true Hmin eq_refl eq_refl
           (or_introl eq_refl) Hb).
Defined.

(** The force-quit key pressed at 3, between the check (at 2) and the
    clearing (at 3), goes unnoticed: the wait returns [None] at 10. *)
Example clearing_drops_sample :
  let w := fresh cfg0 0 [(3, press "escape")] in
  fst (Keyboard.wait_one_press 11 (Fin 10) (Fin 2) None false None w) = Ok PyNone /\
  fq_pressed (snd (Keyboard.wait_one_press 11 (Fin 10) (Fin 2) None false None w))
  = false.
Proof. vm_compute. repeat split. Qed.
